(** * truly-ai Python backend: frame sampling, batch orchestration and the
      heuristic audio classifier

    A shallow embedding of the decision logic of

      - [librosa_audio.py]                    ([LocalAudioAnalyzer]),
      - [tests/multimodal_service.py]         ([MultimodalAnalysisService]),
      - [app/services/video_service.py]       ([VideoService]),
      - [app/routers/batch.py]                ([analyze_batch]),

    each in a module of its own, followed by the properties proved about
    it.  Three small modules, [SamplerSpec], [SummarySpec] and
    [InstrumentalnessSpec], write down what the specification says where
    the code does something else, so that the two can be compared.

    Conventions of the embedding.

    - A Python [float] is a binary64 number: Rocq's primitive [float], whose
      operations are the IEEE 754 ones.  A literal such as [0.1] denotes, as
      in Python, the binary64 number nearest to it.
    - A NumPy [float32] scalar is a binary32 number, kept as its value in
      [SpecFloat] and computed with the operations of that format; what it
      combines to with a Python float depends on the NumPy in use, which is
      a parameter ([Np.Promotion]).
    - A Python [int] is a [Z].  The true division of two ints is the
      correctly rounded quotient; its truncation is the integer quotient
      as long as the operands are below [2^53], which is proved, not
      assumed ([int_true_div_exact]).
    - A Python [str] is a [string], the bytes of its UTF-8 encoding; where
      the code lowers a string, the properties that depend on it are proved
      for any lowering function.  A [dict] with a fixed set of keys is a
      record, one whose shape depends on a flag is an inductive type, and a
      [dict] used as a lookup table is a [gmap].
    - Calls that leave the repository (OpenCV, the vision and text models,
      the services behind the batch endpoint) are parameters of the model.
      They act on a state of the outside world that is threaded through the
      computation, and a call that may raise returns the exception as data:
      [Py.Raised] stands for any [Exception], of which the code only ever
      uses the string.
    - Wall-clock measurements (the processing times of the responses) are
      left out. *)

From Stdlib Require Import ZArith Bool List String Ascii DecimalString Lia Sorted.
From Stdlib Require Import Floats.
From stdpp Require Import base option gmap strings.
Import ListNotations.

Open Scope Z_scope.

(** Python's decimal literals are rarely binary64 numbers themselves; they are
    read as the nearest one, here as there. *)
Set Warnings "-inexact-float".

(* ===================================================================== *)
(** * Python numbers *)
(* ===================================================================== *)

Module Py.

(** The result of a call that may raise: the value returned, or the
    exception, of which the model keeps [str(e)]. *)
Inductive Outcome (A : Type) : Type :=
| Returned (a : A)
| Raised (str_e : string).
Arguments Returned {A} a.
Arguments Raised {A} str_e.

(** [x > y] and [x < y] on floats. *)
Definition gt (x y : float) : bool := PrimFloat.ltb y x.
Definition lt (x y : float) : bool := PrimFloat.ltb x y.

(** [float(z)]: the binary64 number nearest to the integer [z]. *)
Definition float_of_int (z : Z) : float :=
  SF2Prim (binary_normalize prec emax z 0 false).

(** The magnitude of a finite float [m * 2^e], truncated to an integer. *)
Definition trunc_magnitude (m : positive) (e : Z) : Z :=
  if 0 <=? e then Z.pos m * 2 ^ e else Z.pos m / 2 ^ (- e).

(** [int(x)]: truncation toward zero; a NaN raises a [ValueError] and an
    infinity an [OverflowError]. *)
Definition int (x : float) : Outcome Z :=
  match Prim2SF x with
  | S754_zero _ => Returned 0
  | S754_infinity _ => Raised "cannot convert float infinity to integer"
  | S754_nan => Raised "cannot convert float NaN to integer"
  | S754_finite s m e =>
      let a := trunc_magnitude m e in
      Returned (if s then - a else a)
  end.

(** Rounding of the non-negative rational [n / d] to the nearest integer,
    ties to even. *)
Definition round_half_even (n d : Z) : Z :=
  let q := n / d in
  let r := n mod d in
  match 2 * r ?= d with
  | Lt => q
  | Gt => q + 1
  | Eq => if Z.even q then q else q + 1
  end.

(** The magnitude of [m * 2^e], rounded to the nearest integer. *)
Definition round_magnitude (m : positive) (e : Z) : Z :=
  if 0 <=? e then Z.pos m * 2 ^ e else round_half_even (Z.pos m) (2 ^ (- e)).

(** [round(x)] with one argument: the nearest integer, ties to even. *)
Definition round (x : float) : Outcome Z :=
  match Prim2SF x with
  | S754_zero _ => Returned 0
  | S754_infinity _ => Raised "cannot convert float infinity to integer"
  | S754_nan => Raised "cannot convert float NaN to integer"
  | S754_finite s m e =>
      let a := round_magnitude m e in
      Returned (if s then - a else a)
  end.

(** [int(x)] on the value of a float: [int x] is [int_of_spec (Prim2SF x)]. *)
Definition int_of_spec (x : spec_float) : Outcome Z :=
  match x with
  | S754_zero _ => Returned 0
  | S754_infinity _ => Raised "cannot convert float infinity to integer"
  | S754_nan => Raised "cannot convert float NaN to integer"
  | S754_finite s m e =>
      let a := trunc_magnitude m e in
      Returned (if s then - a else a)
  end.

(** [a / b] for two ints.  CPython does not convert the operands first: it
    returns the binary64 number nearest to the exact quotient (ties to
    even), which is what the IEEE division does when it is given the two
    integers as they are, as mantissas with exponent 0.  A zero divisor
    raises a [ZeroDivisionError], a quotient beyond the largest float an
    [OverflowError]. *)
Definition true_div (a b : Z) : Outcome spec_float :=
  match a, b with
  | _, Z0 => Raised "division by zero"
  | Z0, _ => Returned (S754_zero (b <? 0))
  | _, _ =>
      match SFdiv prec emax
              (S754_finite (a <? 0) (Z.to_pos (Z.abs a)) 0)
              (S754_finite (b <? 0) (Z.to_pos (Z.abs b)) 0) with
      | S754_infinity _ =>
          Raised "integer division result too large for a float"
      | quotient => Returned quotient
      end
  end.

(** [int(a / b)] for two ints: true division, then truncation. *)
Definition int_true_div (a b : Z) : Outcome Z :=
  match true_div a b with
  | Returned quotient => int_of_spec quotient
  | Raised str_e => Raised str_e
  end.

(** Decimal digits of a non-negative integer. *)
Definition str_of_nonneg (z : Z) : string :=
  NilZero.string_of_uint (N.to_uint (Z.to_N z)).

(** [str(z)] for an int. *)
Definition str_of_int (z : Z) : string :=
  if z <? 0 then String "-" (str_of_nonneg (- z)) else str_of_nonneg z.

(** Tenths of the magnitude of [m * 2^e], rounded to nearest, ties to
    even: the digits that the format [.1f] prints. *)
Definition tenths (m : positive) (e : Z) : Z :=
  if 0 <=? e then 10 * (Z.pos m * 2 ^ e)
  else round_half_even (10 * Z.pos m) (2 ^ (- e)).

(** [f"{x:.1f}"]. *)
Definition format_1f (x : float) : string :=
  match Prim2SF x with
  | S754_zero s => if s then "-0.0" else "0.0"
  | S754_infinity s => if s then "-inf" else "inf"
  | S754_nan => "nan"
  | S754_finite s m e =>
      let t := tenths m e in
      String.append (if s then "-" else "")
        (String.append (str_of_nonneg (t / 10))
           (String "." (str_of_nonneg (t mod 10))))
  end%string.

(** [int(a / b)] for ints [0 <= a < 2^53] and [0 < b < 2^53], as an
    integer quotient: there the rounding of the true division never
    reaches the next integer, so that its truncation is the integer
    quotient ([int_true_div_exact] below).  Larger operands are the matter
    of [int_true_div]. *)
Definition int_div (a b : Z) : Z := Z.quot a b.

(** A list comprehension [[f(x) for x in l]] whose elements may raise: the
    first exception ends it. *)
Fixpoint comprehension {A B : Type} (f : A -> Outcome B) (l : list A)
  : Outcome (list B) :=
  match l with
  | [] => Returned []
  | x :: rest =>
      match f x with
      | Raised str_e => Raised str_e
      | Returned y =>
          match comprehension f rest with
          | Raised str_e => Raised str_e
          | Returned ys => Returned (y :: ys)
          end
      end
  end.

(** [list(range(a, b))] and [list(range(n))]. *)
Definition range2 (a b : Z) : list Z :=
  map (fun k : nat => a + Z.of_nat k) (seq 0 (Z.to_nat (b - a))).
Definition range (n : Z) : list Z := range2 0 n.

(** [sep.join(parts)]. *)
Definition join (sep : string) (parts : list string) : string :=
  String.concat sep parts.

End Py.

(* ===================================================================== *)
(** * NumPy's single-precision scalars *)
(* ===================================================================== *)

Module Np.

(** A [np.float32] scalar, kept as its IEEE 754 value.  [librosa.load]
    returns the signal in single precision, and so are the sums that the
    classifier takes of it.  The operations are those of the binary32
    format: 24 bits of precision, infinities at exponent 128. *)
Definition float32 : Type := spec_float.
Definition prec32 : Z := 24.
Definition emax32 : Z := 128.

Definition add (x y : float32) : float32 := SFadd prec32 emax32 x y.
Definition div (x y : float32) : float32 := SFdiv prec32 emax32 x y.

(** [x > 0] for a [float32] and the int [0]. *)
Definition gt_zero (x : float32) : bool := SFltb (S754_zero false) x.

(** [np.float32(x)] for a Python float: the nearest binary32 number. *)
Definition of_float (x : float) : float32 :=
  match Prim2SF x with
  | S754_finite s m e => binary_round prec32 emax32 s m e
  | special => special
  end.

(** [float(x)] for a [float32]: every binary32 number is a binary64 one. *)
Definition to_float (x : float32) : float := SF2Prim x.

(** What a [float32] scalar and a Python float combine to.  Since NumPy 2
    the Python float is weak: it is converted to [float32] and the result
    is a [float32].  Before, the result was a [float64]. *)
Inductive Promotion := Weak | Legacy.

(** A scalar of either precision. *)
Inductive scalar :=
| Float32 (x : float32)
| Float64 (x : float).

(** [x + y] for a [float32] [x] and a Python float [y]. *)
Definition add_python_float (promotion : Promotion) (x : float32) (y : float)
  : scalar :=
  match promotion with
  | Weak => Float32 (add x (of_float y))
  | Legacy => Float64 (PrimFloat.add (to_float x) y)
  end.

(** [x / y] for a [float32] [x] and a scalar [y]. *)
Definition div_scalar (x : float32) (y : scalar) : scalar :=
  match y with
  | Float32 y => Float32 (div x y)
  | Float64 y => Float64 (PrimFloat.div (to_float x) y)
  end.

(** [float(x)] for a scalar. *)
Definition float_of_scalar (x : scalar) : float :=
  match x with
  | Float32 x => to_float x
  | Float64 x => x
  end.

(** The zeros, and the finite numbers that are not negative. *)
Definition is_zero (x : float32) : bool :=
  match x with
  | S754_zero _ => true
  | _ => false
  end.

Definition finite_nonneg (x : float32) : bool :=
  match x with
  | S754_zero _ => true
  | S754_finite false m e => bounded prec32 emax32 m e
  | _ => false
  end.

End Np.

(* ===================================================================== *)
(** * [librosa_audio.py]: the heuristic audio classifier *)
(* ===================================================================== *)

Module LocalAudioAnalyzer.

(** [_detect_audio_type], after the two statistics [np.mean(zcr)] and
    [np.std(spectral_centroids)] have been computed by the library. *)
Definition _detect_audio_type (zcr_mean sc_std : float) : string :=
  if Py.gt zcr_mean 0.1 && Py.lt sc_std 1000 then "speech"
  else if Py.lt zcr_mean 0.08 && Py.gt sc_std 1000 then "music"
  else "mixed".

(** The dictionary built by [_extract_features]. *)
Record Features := {
  tempo : float;
  beats_detected : Z;
  spectral_centroid_mean : float;
  spectral_centroid_std : float;
  spectral_rolloff_mean : float;
  spectral_bandwidth_mean : float;
  rms_energy_mean : float;
  rms_energy_std : float;
  zero_crossing_rate_mean : float;
  mfcc_means : list float
}.

(** The dictionary returned by [_analyze_mood]. *)
Record Mood := {
  mood : string;
  valence : string;
  arousal : string;
  mood_tempo : float;
  mood_energy : float
}.

Definition mood_map : gmap (string * string) string :=
  list_to_map
    [ (("positive", "high"), "Happy/Energetic");
      (("positive", "medium"), "Content/Pleasant");
      (("positive", "low"), "Peaceful/Relaxed");
      (("neutral", "high"), "Excited/Tense");
      (("neutral", "medium"), "Neutral/Balanced");
      (("neutral", "low"), "Calm/Subdued");
      (("negative", "high"), "Angry/Aggressive");
      (("negative", "medium"), "Melancholic/Somber");
      (("negative", "low"), "Sad/Depressing") ]%string.

Definition valence_of (spectral_centroid energy : float) : string :=
  if Py.gt spectral_centroid 2000 && Py.gt energy 0.1 then "positive"
  else if Py.lt spectral_centroid 1500 && Py.lt energy 0.08 then "negative"
  else "neutral".

Definition arousal_of (tempo energy : float) : string :=
  if Py.gt tempo 120 || Py.gt energy 0.15 then "high"
  else if Py.lt tempo 90 && Py.lt energy 0.08 then "low"
  else "medium".

Definition _analyze_mood (features : Features) : Mood :=
  let tempo := tempo features in
  let energy := rms_energy_mean features in
  let spectral_centroid := spectral_centroid_mean features in
  let valence := valence_of spectral_centroid energy in
  let arousal := arousal_of tempo energy in
  let mood := default "Unknown"%string (mood_map !! (valence, arousal)) in
  {| mood := mood; valence := valence; arousal := arousal;
     mood_tempo := tempo; mood_energy := energy |}.

Definition key_names : list string :=
  ["C"; "C#"; "D"; "D#"; "E"; "F"; "F#"; "G"; "G#"; "A"; "A#"; "B"]%string.

(** The dictionary returned by [_analyze_music]. *)
Record MusicAnalysis := {
  music_tempo : float;
  estimated_key : string;
  beat_count : Z;
  instrumentalness : float;
  danceability : float;
  harmonic_ratio : float
}.

(** The instrumentalness line of [_analyze_music], with its conversion to
    a Python float:
    [harmonic_energy / (total_energy + 1e-10) if total_energy > 0 else 0.5].
    The two energies are [np.sum] of squared [float32] samples, [float32]
    scalars themselves, and so is their sum. *)
Definition instrumentalness_of (promotion : Np.Promotion)
    (harmonic_energy percussive_energy : Np.float32) : float :=
  let total_energy := Np.add harmonic_energy percussive_energy in
  if Np.gt_zero total_energy
  then Np.float_of_scalar
         (Np.div_scalar harmonic_energy
            (Np.add_python_float promotion total_energy 1e-10))
  else 0.5.

(** [_analyze_music], after the library has produced the tempo, the beats,
    the index of the strongest pitch class, the two energies of the
    harmonic-percussive separation and the mean of the tempogram.
    [promotion] is the rule of the NumPy in use. *)
Definition _analyze_music (promotion : Np.Promotion) (tempo : float)
    (beats : Z) (key : nat) (harmonic_energy percussive_energy : Np.float32)
    (beat_strength_mean : float) : MusicAnalysis :=
  {| music_tempo := tempo;
     estimated_key := nth key key_names ""%string;
     beat_count := beats;
     instrumentalness :=
       instrumentalness_of promotion harmonic_energy percussive_energy;
     danceability := beat_strength_mean;
     harmonic_ratio :=
       Np.float_of_scalar
         (Np.div_scalar harmonic_energy
            (Np.add_python_float promotion harmonic_energy 1e-6)) |}.

End LocalAudioAnalyzer.

(* ===================================================================== *)
(** * The instrumentalness as the specification words it *)
(* ===================================================================== *)

Module InstrumentalnessSpec.

(** The specification decides by the energies themselves: 0.5 when both
    are zero, and otherwise the harmonic energy over the sum of the two
    plus 1e-10.  The code decides by the sign of their rounded sum. *)
Definition instrumentalness (promotion : Np.Promotion)
    (harmonic_energy percussive_energy : Np.float32) : float :=
  if Np.is_zero harmonic_energy && Np.is_zero percussive_energy
  then 0.5
  else Np.float_of_scalar
         (Np.div_scalar harmonic_energy
            (Np.add_python_float promotion
               (Np.add harmonic_energy percussive_energy) 1e-10)).

End InstrumentalnessSpec.

(* ===================================================================== *)
(** * [tests/multimodal_service.py]: the enhanced video pipeline *)
(* ===================================================================== *)

Module MultimodalAnalysisService.

(** What [_analyze_video_frames] reads from the opened capture. *)
Record VideoProps := {
  total_frames : Z;      (* int(cap.get(cv2.CAP_PROP_FRAME_COUNT)) *)
  fps : float;           (* cap.get(cv2.CAP_PROP_FPS) *)
  width : Z;
  height : Z
}.

(** The timeframe boundaries: [(start_frame, end_frame, timeframe_frames)].
    With a window, [int] raises on a product that is a NaN or an infinity,
    and the division by [fps] for [actual_duration] raises on a zero frame
    rate. *)
Definition timeframe (total_frames : Z) (fps : float)
    (start_time end_time : option float) : Py.Outcome (Z * Z * Z) :=
  match start_time, end_time with
  | Some start_time, Some end_time =>
      match Py.int (PrimFloat.mul start_time fps) with
      | Py.Raised e => Py.Raised e
      | Py.Returned start_frame =>
          match Py.int (PrimFloat.mul end_time fps) with
          | Py.Raised e => Py.Raised e
          | Py.Returned end_frame =>
              let start_frame :=
                Z.max 0 (Z.min start_frame (total_frames - 1)) in
              let end_frame :=
                Z.max (start_frame + 1) (Z.min end_frame total_frames) in
              let timeframe_frames := end_frame - start_frame in
              if PrimFloat.eqb fps 0
              then Py.Raised "float division by zero"
              else Py.Returned (start_frame, end_frame, timeframe_frames)
          end
      end
  | _, _ => Py.Returned (0, total_frames, total_frames)
  end.

(** The frame indices to extract within the timeframe, with the quotients
    taken as integer quotients: that is what they are when
    [num_frames * timeframe_frames < 2^53]
    ([frame_indices_true_div_exact] below). *)
Definition frame_indices (start_frame end_frame timeframe_frames num_frames : Z)
  : list Z :=
  if timeframe_frames <? num_frames
  then Py.range2 start_frame end_frame
  else map (fun i => start_frame + Py.int_div (i * timeframe_frames) num_frames)
           (Py.range num_frames).

(** The same indices with every quotient computed as Python computes it:
    [start_frame + int(i * timeframe_frames / num_frames)], a true division
    that is then truncated. *)
Definition frame_indices_true_div
    (start_frame end_frame timeframe_frames num_frames : Z)
  : Py.Outcome (list Z) :=
  if timeframe_frames <? num_frames
  then Py.Returned (Py.range2 start_frame end_frame)
  else
    Py.comprehension
      (fun i =>
         match Py.int_true_div (i * timeframe_frames) num_frames with
         | Py.Returned offset => Py.Returned (start_frame + offset)
         | Py.Raised str_e => Py.Raised str_e
         end)
      (Py.range num_frames).

(** The sampler: boundaries, then indices. *)
Definition sample (total_frames : Z) (fps : float) (num_frames : Z)
    (start_time end_time : option float) : Py.Outcome (list Z) :=
  match timeframe total_frames fps start_time end_time with
  | Py.Returned (start_frame, end_frame, timeframe_frames) =>
      Py.Returned (frame_indices start_frame end_frame timeframe_frames num_frames)
  | Py.Raised e => Py.Raised e
  end.

(** [frame_idx / fps if fps > 0 else 0]. *)
Definition timestamp_of (fps : float) (frame_idx : Z) : float :=
  if Py.gt fps 0 then PrimFloat.div (Py.float_of_int frame_idx) fps else 0%float.

(** The dictionary returned by [aws_analyzer.analyze_image]. *)
Record ImageResult := {
  success : bool;
  description : string;
  model_used : string
}.

(** The dictionary returned by [aws_analyzer.analyze_text]. *)
Record TextResult := {
  text_success : bool;
  response : string
}.

(** An entry of [frame_analyses]. *)
Record FrameAnalysis := {
  frame_number : Z;
  timestamp : float;
  frame_description : string;
  model : string
}.

(** The dictionary returned by [_analyze_video_frames]. *)
Inductive VideoResult :=
| CouldNotOpen                       (* success False, "Could not open video file" *)
| Analyzed (result_success : bool) (overall_summary : string)
           (frame_analyses : list FrameAnalysis) (analyzed_frames : Z).

Definition frame_prompt (timestamp : float) : string :=
  "Describe what's happening in this video frame at "
    +:+ Py.format_1f timestamp +:+ " seconds.".

Definition summary_prompt (descriptions : list string) : string :=
  "Based on these video frame descriptions, provide a summary of what happens in this video: "
    +:+ Py.join " | " descriptions.

Section Pipeline.

(** The world outside: the capture, the temporary files, the models. *)
Context {World Frame : Type}.
(** [cap.set(POS_FRAMES, idx); ret, frame = cap.read()]: the frame when
    [ret] is true. *)
Variable cap_read : Z -> World -> option Frame * World.
(** [cv2.imwrite] to a temporary file, then [aws_analyzer.analyze_image],
    which reports every failure in its result and never raises. *)
Variable analyze_image : Frame -> string -> World -> ImageResult * World.
Variable analyze_text : string -> World -> TextResult * World.

(** One iteration of the loop over [frame_indices]: the entry appended
    to [frame_analyses], if any. *)
Definition analyze_frame (fps : float) (frame_idx : Z) (w : World)
  : option FrameAnalysis * World :=
  let '(ret_frame, w) := cap_read frame_idx w in
  match ret_frame with
  | None => (None, w)
  | Some frame =>
      let timestamp := timestamp_of fps frame_idx in
      let '(result, w) := analyze_image frame (frame_prompt timestamp) w in
      if success result
      then (Some {| frame_number := frame_idx;
                    timestamp := timestamp;
                    frame_description := description result;
                    model := model_used result |}, w)
      else (None, w)
  end.

(** The loop, with [frame_analyses] as the accumulator it appends to. *)
Fixpoint frames_loop (fps : float) (frame_indices : list Z)
    (frame_analyses : list FrameAnalysis) (w : World)
  : list FrameAnalysis * World :=
  match frame_indices with
  | [] => (frame_analyses, w)
  | frame_idx :: rest =>
      let '(entry, w) := analyze_frame fps frame_idx w in
      frames_loop fps rest
        (match entry with
         | Some a => frame_analyses ++ [a]
         | None => frame_analyses
         end) w
  end.

(** The overall summary. *)
Definition overall_summary_of (frame_analyses : list FrameAnalysis) (w : World)
  : string * World :=
  match frame_analyses with
  | [] => ("No frames could be analyzed"%string, w)
  | _ :: _ =>
      let descriptions := map frame_description frame_analyses in
      let '(summary_result, w) := analyze_text (summary_prompt descriptions) w in
      (if text_success summary_result then response summary_result
       else "Could not generate summary"%string, w)
  end.

Definition _analyze_video_frames (is_opened : bool) (props : VideoProps)
    (num_frames : Z) (start_time end_time : option float) (w : World)
  : Py.Outcome VideoResult * World :=
  if negb is_opened then (Py.Returned CouldNotOpen, w)
  else
    match timeframe (total_frames props) (fps props) start_time end_time with
    | Py.Raised e => (Py.Raised e, w)
    | Py.Returned (start_frame, end_frame, timeframe_frames) =>
        let indices :=
          frame_indices start_frame end_frame timeframe_frames num_frames in
        let '(frame_analyses, w) := frames_loop (fps props) indices [] w in
        let '(overall_summary, w) := overall_summary_of frame_analyses w in
        (Py.Returned
           (Analyzed (0 <? Z.of_nat (length frame_analyses))
                     overall_summary frame_analyses
                     (Z.of_nat (length frame_analyses))), w)
    end.

(** What each iteration of the loop appends, in the order of the
    iterations: an entry, or nothing.  The trace is no part of the source;
    [frames_loop_entries] below relates the loop to it. *)
Fixpoint frame_entries (fps : float) (frame_indices : list Z) (w : World)
  : list (option FrameAnalysis) :=
  match frame_indices with
  | [] => []
  | frame_idx :: rest =>
      fst (analyze_frame fps frame_idx w)
        :: frame_entries fps rest (snd (analyze_frame fps frame_idx w))
  end.

End Pipeline.

(** The same loop when the calls of an iteration may raise.  The loop
    stands in a [try] whose only clause is a [finally] that releases the
    capture and unlinks the temporary files: an exception of an iteration
    ends the loop and leaves [_analyze_video_frames]. *)
Module Raising.

Section Pipeline.

Context {World Frame : Type}.
Variable cap_read : Z -> World -> option Frame * World.
(** [tempfile.NamedTemporaryFile], [cv2.imwrite] and
    [aws_analyzer.analyze_image]: the result of the analyzer, or the
    exception that one of the three raises. *)
Variable analyze_image
  : Frame -> string -> World -> Py.Outcome ImageResult * World.
Variable analyze_text : string -> World -> Py.Outcome TextResult * World.

Definition analyze_frame (fps : float) (frame_idx : Z) (w : World)
  : Py.Outcome (option FrameAnalysis) * World :=
  let '(ret_frame, w) := cap_read frame_idx w in
  match ret_frame with
  | None => (Py.Returned None, w)
  | Some frame =>
      let timestamp := timestamp_of fps frame_idx in
      let '(outcome, w) := analyze_image frame (frame_prompt timestamp) w in
      match outcome with
      | Py.Raised str_e => (Py.Raised str_e, w)
      | Py.Returned result =>
          if success result
          then (Py.Returned
                  (Some {| frame_number := frame_idx;
                           timestamp := timestamp;
                           frame_description := description result;
                           model := model_used result |}), w)
          else (Py.Returned None, w)
      end
  end.

Fixpoint frames_loop (fps : float) (frame_indices : list Z)
    (frame_analyses : list FrameAnalysis) (w : World)
  : Py.Outcome (list FrameAnalysis) * World :=
  match frame_indices with
  | [] => (Py.Returned frame_analyses, w)
  | frame_idx :: rest =>
      let '(outcome, w) := analyze_frame fps frame_idx w in
      match outcome with
      | Py.Raised str_e => (Py.Raised str_e, w)
      | Py.Returned entry =>
          frames_loop fps rest
            (match entry with
             | Some a => frame_analyses ++ [a]
             | None => frame_analyses
             end) w
      end
  end.

Definition overall_summary_of (frame_analyses : list FrameAnalysis) (w : World)
  : Py.Outcome string * World :=
  match frame_analyses with
  | [] => (Py.Returned "No frames could be analyzed"%string, w)
  | _ :: _ =>
      let descriptions := map frame_description frame_analyses in
      let '(outcome, w) := analyze_text (summary_prompt descriptions) w in
      match outcome with
      | Py.Raised str_e => (Py.Raised str_e, w)
      | Py.Returned summary_result =>
          (Py.Returned
             (if text_success summary_result then response summary_result
              else "Could not generate summary"%string), w)
      end
  end.

Definition _analyze_video_frames (is_opened : bool) (props : VideoProps)
    (num_frames : Z) (start_time end_time : option float) (w : World)
  : Py.Outcome VideoResult * World :=
  if negb is_opened then (Py.Returned CouldNotOpen, w)
  else
    match timeframe (total_frames props) (fps props) start_time end_time with
    | Py.Raised e => (Py.Raised e, w)
    | Py.Returned (start_frame, end_frame, timeframe_frames) =>
        let indices :=
          frame_indices start_frame end_frame timeframe_frames num_frames in
        let '(looped, w) := frames_loop (fps props) indices [] w in
        match looped with
        | Py.Raised str_e => (Py.Raised str_e, w)
        | Py.Returned frame_analyses =>
            let '(summarized, w) := overall_summary_of frame_analyses w in
            match summarized with
            | Py.Raised str_e => (Py.Raised str_e, w)
            | Py.Returned overall_summary =>
                (Py.Returned
                   (Analyzed (0 <? Z.of_nat (length frame_analyses))
                             overall_summary frame_analyses
                             (Z.of_nat (length frame_analyses))), w)
            end
        end
    end.

End Pipeline.

(** A call that does not raise, as one that may. *)
Definition returning {A B C World : Type} (f : A -> B -> World -> C * World)
  : A -> B -> World -> Py.Outcome C * World :=
  fun a b w => (Py.Returned (fst (f a b w)), snd (f a b w)).

Definition returning1 {A C World : Type} (f : A -> World -> C * World)
  : A -> World -> Py.Outcome C * World :=
  fun a w => (Py.Returned (fst (f a w)), snd (f a w)).

End Raising.

End MultimodalAnalysisService.

(* ===================================================================== *)
(** * The frame sampler as the specification words it *)
(* ===================================================================== *)

Module SamplerSpec.

Definition clamp (lo hi x : Z) : Z := Z.max lo (Z.min x hi).

(** The window resolution of the specification: each time becomes
    [round(time * frameRate)], clamped into [[0, totalFrames]], and an
    [endFrame <= startFrame] is forced to [startFrame + 1]. *)
Definition resolve_window (total_frames : Z) (frame_rate : float)
    (start_time end_time : float) : option (Z * Z) :=
  match Py.round (PrimFloat.mul start_time frame_rate),
        Py.round (PrimFloat.mul end_time frame_rate) with
  | Py.Returned start_frame, Py.Returned end_frame =>
      let start_frame := clamp 0 total_frames start_frame in
      let end_frame := clamp 0 total_frames end_frame in
      Some (start_frame,
            if end_frame <=? start_frame then start_frame + 1 else end_frame)
  | _, _ => None
  end.

End SamplerSpec.

(* ===================================================================== *)
(** * [app/services/video_service.py]: the basic video pipeline *)
(* ===================================================================== *)

Module VideoService.

(** The dictionary returned by [_get_video_info]. *)
Record VideoInfo := {
  fps : float;
  total_frames : Z;
  resolution : Z * Z;
  duration : float
}.

(** An entry of [frames_data]. *)
Record FrameData (Frame : Type) := {
  image : Frame;
  frame_number : Z;
  timestamp : float
}.
Arguments image {Frame} _.
Arguments frame_number {Frame} _.
Arguments timestamp {Frame} _.

(** An entry of [frame_analyses]. *)
Record FrameAnalysis := {
  fa_timestamp : float;
  fa_frame_number : Z;
  description : string
}.

(** The dictionary returned by [analyze_video], without its timing. *)
Record VideoAnalysis := {
  metadata : VideoInfo;
  frames : list FrameAnalysis;
  summary : string
}.

(** [[int(i * total_frames / num_frames) for i in range(num_frames)]], with
    the quotients taken as integer quotients: that is what they are when
    [num_frames * total_frames < 2^53]
    ([uniform_frame_indices_true_div_exact] below). *)
Definition uniform_frame_indices (total_frames num_frames : Z) : list Z :=
  map (fun i => Py.int_div (i * total_frames) num_frames) (Py.range num_frames).

(** The same comprehension with every quotient computed as Python computes
    it, by a true division that is then truncated. *)
Definition uniform_frame_indices_true_div (total_frames num_frames : Z)
  : Py.Outcome (list Z) :=
  Py.comprehension (fun i => Py.int_true_div (i * total_frames) num_frames)
    (Py.range num_frames).

(** The index list of [_extract_frames]: every sampling method falls back
    to the uniform one. *)
Definition frame_indices_of (sampling_method : string)
    (total_frames num_frames : Z) : list Z :=
  if String.eqb sampling_method "uniform"
  then uniform_frame_indices total_frames num_frames
  else uniform_frame_indices total_frames num_frames.

(** The truth value of a [str]: it is not empty. *)
Definition truthy (s : string) : bool := negb (String.eqb s "").

(** The clause that [_generate_video_summary] writes for the [i]-th kept
    description: its timestamp is [frame_analyses[i]["timestamp"]].  The
    index is always in range, [descriptions] being no longer than
    [frame_analyses]. *)
Definition scene_clause (frame_analyses : list FrameAnalysis)
    (i : nat) (desc : string) : string :=
  let timestamp :=
    match frame_analyses !! i with
    | Some frame => fa_timestamp frame
    | None => 0%float
    end in
  "At " +:+ Py.format_1f timestamp +:+ "s: " +:+ desc.

(** The clause of a frame with its own timestamp:
    ["At {timestamp:.1f}s: {description}"]. *)
Definition clause_of (frame : FrameAnalysis) : string :=
  "At " +:+ Py.format_1f (fa_timestamp frame) +:+ "s: " +:+ description frame.

Definition _generate_video_summary (frame_analyses : list FrameAnalysis)
  : string :=
  match frame_analyses with
  | [] => "No frames were successfully analyzed."
  | _ :: _ =>
      let descriptions := filter (fun d => truthy d = true)
                                 (map description frame_analyses) in
      match descriptions with
      | [] => "Video analysis completed but no descriptions were generated."
      | first :: _ =>
          let summary_parts :=
            if (length descriptions =? 1)%nat
            then ["This video shows: " +:+ first]
            else "This video contains the following scenes:"
                   :: imap (scene_clause frame_analyses) descriptions in
          Py.join " " summary_parts
      end
  end%string.

Section Service.

Context {World Frame : Type}.
(** [cap.set(POS_FRAMES, idx); ret, frame = cap.read()], converted to an
    image when [ret] is true. *)
Variable cap_read : Z -> World -> option Frame * World.
(** [moondream_model.analyze_video_frame(...)["description"]]; the call
    raises when the model is not loaded or the analysis fails. *)
Variable analyze_video_frame :
  Frame -> option string -> Z -> float -> World -> Py.Outcome string * World.

(** The loop of [_extract_frames] over the frame indices. *)
Fixpoint read_frames (fps : float) (frame_indices : list Z)
    (frames_data : list (FrameData Frame)) (w : World)
  : list (FrameData Frame) * World :=
  match frame_indices with
  | [] => (frames_data, w)
  | frame_idx :: rest =>
      let '(ret_frame, w) := cap_read frame_idx w in
      read_frames fps rest
        (match ret_frame with
         | Some pil_image =>
             let timestamp :=
               if Py.gt fps 0
               then PrimFloat.div (Py.float_of_int frame_idx) fps
               else 0%float in
             frames_data ++ [ {| image := pil_image;
                                 frame_number := frame_idx;
                                 timestamp := timestamp |} ]
         | None => frames_data
         end) w
  end.

Definition _extract_frames (num_frames : Z) (video_info : VideoInfo)
    (sampling_method : string) (w : World) : list (FrameData Frame) * World :=
  read_frames (fps video_info)
    (frame_indices_of sampling_method (total_frames video_info) num_frames)
    [] w.

(** One iteration of the loop of [analyze_video] over [frames_data]: the
    entry appended to [frame_analyses]. *)
Definition analyze_frame (prompt : option string) (frame_data : FrameData Frame)
    (w : World) : FrameAnalysis * World :=
  let '(result, w) :=
    analyze_video_frame (image frame_data) prompt
      (frame_number frame_data) (timestamp frame_data) w in
  ({| fa_timestamp := timestamp frame_data;
      fa_frame_number := frame_number frame_data;
      description :=
        match result with
        | Py.Returned description => description
        | Py.Raised str_e => "Analysis failed: " +:+ str_e
        end |}, w).

Fixpoint analyze_frames (prompt : option string)
    (frames_data : list (FrameData Frame))
    (frame_analyses : list FrameAnalysis) (w : World)
  : list FrameAnalysis * World :=
  match frames_data with
  | [] => (frame_analyses, w)
  | frame_data :: rest =>
      let '(entry, w) := analyze_frame prompt frame_data w in
      analyze_frames prompt rest (frame_analyses ++ [entry]) w
  end.

(** [analyze_video], once the upload has been validated and saved and its
    metadata read. *)
Definition analyze_video (video_info : VideoInfo) (num_frames : Z)
    (prompt : option string) (frame_sampling : string) (w : World)
  : VideoAnalysis * World :=
  let '(frames_data, w) :=
    _extract_frames num_frames video_info frame_sampling w in
  let '(frame_analyses, w) := analyze_frames prompt frames_data [] w in
  let summary := _generate_video_summary frame_analyses in
  ({| metadata := video_info; frames := frame_analyses; summary := summary |}, w).

End Service.

End VideoService.

(* ===================================================================== *)
(** * The video summary as the specification words it *)
(* ===================================================================== *)

Module SummarySpec.

(** The summary of the frames that succeeded: a literal for none, the
    description for one, and for several one clause per frame, joined into
    one string (by single spaces, as the code joins its parts). *)
Definition summary (succeeded : list VideoService.FrameAnalysis) : string :=
  match succeeded with
  | [] => "No frames were successfully analyzed."
  | [frame] => "This video shows: " +:+ VideoService.description frame
  | _ :: _ :: _ => Py.join " " (map VideoService.clause_of succeeded)
  end.

End SummarySpec.

(* ===================================================================== *)
(** * [app/routers/batch.py]: the batch endpoint *)
(* ===================================================================== *)

Module Batch.

(** What the endpoint reads of an uploaded file. *)
Record UploadFile := {
  filename : option string;
  content_type : option string
}.

(** [c.lower()] on the letters [A]..[Z]; other characters are kept. *)
Definition lower_ascii (c : ascii) : ascii :=
  let n := nat_of_ascii c in
  if ((65 <=? n) && (n <=? 90))%nat then ascii_of_nat (n + 32) else c.

(** [s.lower()] for a string of ASCII characters.  Python lowers the
    capitals of every alphabet; on a string with characters outside ASCII
    (kept here as the bytes of their UTF-8 encoding) this function and
    [str.lower] differ, and [_determine_file_type_with] below takes the
    lowering as a parameter. *)
Fixpoint lower (s : string) : string :=
  match s with
  | EmptyString => EmptyString
  | String c rest => String (lower_ascii c) (lower rest)
  end.

Definition startswith (s pre : string) : bool := String.prefix pre s.

Definition endswith (s suf : string) : bool :=
  let n := String.length s in
  let m := String.length suf in
  ((m <=? n)%nat && String.eqb (substring (n - m) m s) suf).

Definition image_exts : list string :=
  [".jpg"; ".jpeg"; ".png"; ".webp"; ".bmp"; ".gif"]%string.
Definition video_exts : list string := [".mp4"; ".avi"; ".mov"; ".mkv"]%string.
Definition audio_exts : list string :=
  [".mp3"; ".wav"; ".m4a"; ".flac"; ".ogg"]%string.

(** [_determine_file_type]: the type, or the [ValueError] it raises.
    [lower] is [str.lower]; the extensions and the prefixes that the name
    and the content type are compared with are ASCII, so that comparing
    the bytes of the encodings compares the strings. *)
Definition _determine_file_type_with (lower : string -> string)
    (file : UploadFile) : Py.Outcome string :=
  match filename file with
  | None => Py.Raised "No filename provided"
  | Some name =>
      if String.eqb name "" then Py.Raised "No filename provided"
      else
        let filename_lower := lower name in
        if existsb (endswith filename_lower) image_exts then Py.Returned "image"
        else if existsb (endswith filename_lower) video_exts then Py.Returned "video"
        else if existsb (endswith filename_lower) audio_exts then Py.Returned "audio"
        else
          let by_content :=
            match content_type file with
            | None => None
            | Some ct =>
                if String.eqb ct "" then None
                else
                  let content_type := lower ct in
                  if startswith content_type "image/" then Some "image"
                  else if startswith content_type "video/" then Some "video"
                  else if startswith content_type "audio/" then Some "audio"
                  else None
            end in
          match by_content with
          | Some file_type => Py.Returned file_type
          | None => Py.Raised ("Unable to determine file type for " +:+ name)
          end
  end%string.

(** [_determine_file_type] on names and content types in ASCII. *)
Definition _determine_file_type (file : UploadFile) : Py.Outcome string :=
  _determine_file_type_with lower file.

(** An entry of [results]: the dictionary of a processed file, with
    ["success": True] and its result, or with ["success": False] and the
    error. *)
Inductive ItemResult (Result : Type) :=
| Succeeded (file_index : Z) (name : option string) (file_type : string)
            (result : Result)
| Failed (file_index : Z) (name : option string) (error : string).
Arguments Succeeded {Result} _ _ _ _.
Arguments Failed {Result} _ _ _.

Definition success {Result} (r : ItemResult Result) : bool :=
  match r with Succeeded _ _ _ _ => true | Failed _ _ _ => false end.

Definition file_index {Result} (r : ItemResult Result) : Z :=
  match r with Succeeded i _ _ _ => i | Failed i _ _ => i end.

Definition item_filename {Result} (r : ItemResult Result) : option string :=
  match r with Succeeded _ n _ _ => n | Failed _ n _ => n end.

(** The data of the success response, without its timing. *)
Record BatchData (Result : Type) := {
  results : list (ItemResult Result);
  total_files : Z;
  successful : Z;
  failed : Z
}.
Arguments results {Result} _.
Arguments total_files {Result} _.
Arguments successful {Result} _.
Arguments failed {Result} _.

(** What the endpoint answers: the success response, or the
    [HTTPException] it raises. *)
Inductive Answer (A : Type) :=
| Response (data : A)
| HTTPException (status_code : Z) (detail : string).
Arguments Response {A} _.
Arguments HTTPException {A} _ _.

Definition len {A} (l : list A) : Z := Z.of_nat (length l).

Section Endpoint.

Context {World Result : Type}.
(** [model_manager.is_ready()]. *)
Variable is_ready : World -> bool.
(** The three services, each called with a default request. *)
Variable analyze_image : UploadFile -> World -> Py.Outcome Result * World.
Variable analyze_video : UploadFile -> World -> Py.Outcome Result * World.
Variable transcribe_audio : UploadFile -> World -> Py.Outcome Result * World.

(** The body of the [try] of one iteration. *)
Definition analyze_file (file : UploadFile) (w : World)
  : Py.Outcome (string * Result) * World :=
  match _determine_file_type file with
  | Py.Raised e => (Py.Raised e, w)
  | Py.Returned file_type =>
      let '(result, w) :=
        if String.eqb file_type "image" then analyze_image file w
        else if String.eqb file_type "video" then analyze_video file w
        else if String.eqb file_type "audio" then transcribe_audio file w
        else (Py.Raised ("Unsupported file type: " +:+ file_type), w) in
      match result with
      | Py.Returned result => (Py.Returned (file_type, result), w)
      | Py.Raised e => (Py.Raised e, w)
      end
  end.

(** One iteration: the [try] and its [except Exception]. *)
Definition process_file (i : Z) (file : UploadFile) (w : World)
  : ItemResult Result * World :=
  let '(outcome, w) := analyze_file file w in
  (match outcome with
   | Py.Returned (file_type, result) =>
       Succeeded i (filename file) file_type result
   | Py.Raised str_e => Failed i (filename file) str_e
   end, w).

(** [for i, file in enumerate(files)], from index [i] on, appending to
    [results]. *)
Fixpoint process_files (i : Z) (files : list UploadFile)
    (results : list (ItemResult Result)) (w : World)
  : list (ItemResult Result) * World :=
  match files with
  | [] => (results, w)
  | file :: rest =>
      let '(entry, w) := process_file i file w in
      process_files (i + 1) rest (results ++ [entry]) w
  end.

Definition analyze_batch (files : list UploadFile) (w : World)
  : Answer (BatchData Result) * World :=
  if negb (is_ready w)
  then (HTTPException 503
          "Models not loaded. Please wait for initialization to complete.", w)
  else if 10 <? len files
  then (HTTPException 400 "Maximum 10 files allowed per batch request", w)
  else
    let '(results, w) := process_files 0 files [] w in
    (Response {| results := results;
                 total_files := len files;
                 successful := len (filter (fun r => success r = true) results);
                 failed := len (filter (fun r => success r = false) results) |},
     w).

End Endpoint.

End Batch.

(* ===================================================================== *)
(** * More of Python's strings and numbers *)
(* ===================================================================== *)

Module PyStr.

(** [c.upper()] on the letters [a]..[z]; other characters are kept. *)
Definition upper_ascii (c : ascii) : ascii :=
  let n := nat_of_ascii c in
  if ((97 <=? n) && (n <=? 122))%nat then ascii_of_nat (n - 32) else c.

Fixpoint upper (s : string) : string :=
  match s with
  | EmptyString => EmptyString
  | String c rest => String (upper_ascii c) (upper rest)
  end.

(** [f"{i:02d}"] for an int: its decimal digits (and sign), padded with a
    zero to two characters. *)
Definition format_02d (i : Z) : string :=
  let s := Py.str_of_int i in
  if (String.length s <? 2)%nat then String "0" s else s.

(** Hundredths of the magnitude of [m * 2^e], rounded to nearest, ties to
    even: the digits that the format [.2f] prints. *)
Definition hundredths (m : positive) (e : Z) : Z :=
  if 0 <=? e then 100 * (Z.pos m * 2 ^ e)
  else Py.round_half_even (100 * Z.pos m) (2 ^ (- e)).

(** [f"{x:.2f}"]. *)
Definition format_2f (x : float) : string :=
  match Prim2SF x with
  | S754_zero s => if s then "-0.00" else "0.00"
  | S754_infinity s => if s then "-inf" else "inf"
  | S754_nan => "nan"
  | S754_finite s m e =>
      let h := hundredths m e in
      String.append (if s then "-" else "")
        (String.append (Py.str_of_nonneg (h / 100))
           (String "." (format_02d (h mod 100))))
  end%string.

(** The truth value of a float: it is not zero (a NaN is true). *)
Definition truthy_float (x : float) : bool := negb (PrimFloat.eqb x 0).

(** [max(a, b)] on floats: [b] when [b > a], else [a]. *)
Definition max (a b : float) : float := if Py.gt b a then b else a.

End PyStr.

(* ===================================================================== *)
(** * [librosa_audio.py]: the complete analysis and its summary *)
(* ===================================================================== *)

Module AudioAnalysis.

Import LocalAudioAnalyzer.

(** The dictionary returned by [_transcribe]. *)
Record Transcription := {
  text : string;
  language : string;
  segments : Z
}.

(** What the libraries compute from the audio file, before any decision
    of the analyzer: the duration, the transcription ([None] when Whisper
    failed), the two statistics of [_detect_audio_type], the features, and
    the numbers that [_analyze_music] works on, with the promotion rule of
    the NumPy that computes them. *)
Record LibraryOutputs := {
  lo_duration : float;
  lo_transcription : option Transcription;
  lo_zcr_mean : float;
  lo_sc_std : float;
  lo_features : Features;
  lo_promotion : Np.Promotion;
  lo_music_tempo : float;
  lo_beats : Z;
  lo_key : nat;
  lo_harmonic_energy : Np.float32;
  lo_percussive_energy : Np.float32;
  lo_beat_strength_mean : float
}.

(** The dictionary returned by [analyze_complete_audio]. *)
Record Analysis := {
  audio_type : string;
  duration : float;
  transcription : option Transcription;
  analysis_mood : Mood;
  features : Features;
  music_analysis : option MusicAnalysis;
  summary : string
}.

Section Summary.

(** [not text.strip()] and [len(text.split())], Python's own notions of
    white space and of words. *)
Variable blank : string -> bool.
Variable count_words : string -> Z.

(** The lines that [_generate_summary] appends, in order. *)
Definition summary_lines (audio_type : string) (mood : Mood)
    (features : Features) (music_analysis : option MusicAnalysis)
    (transcription : option Transcription) : list string :=
  [ "📊 Audio Type: " +:+ PyStr.upper audio_type;
    "😊 Mood: " +:+ LocalAudioAnalyzer.mood mood;
    "   - Valence: " +:+ valence mood;
    "   - Energy: " +:+ arousal mood;
    "🎵 Tempo: " +:+ Py.format_1f (tempo features) +:+ " BPM" ]
  ++ match music_analysis with
     | Some music =>
         [ "🎹 Key: " +:+ estimated_key music;
           "💃 Danceability: " +:+ PyStr.format_2f (danceability music);
           "🎸 Instrumentalness: " +:+ PyStr.format_2f (instrumentalness music) ]
     | None => []
     end
  ++ match transcription with
     | Some t =>
         if blank (text t) then []
         else [ "💬 Contains speech: " +:+ language t;
                "   - Word count: " +:+ Py.str_of_int (count_words (text t)) ]
     | None => []
     end.

Definition _generate_summary (audio_type : string) (mood : Mood)
    (features : Features) (music_analysis : option MusicAnalysis)
    (transcription : option Transcription) : string :=
  Py.join (String "010" "")
    (summary_lines audio_type mood features music_analysis transcription).

Definition analyze_complete_audio (lib : LibraryOutputs) : Analysis :=
  let transcription := lo_transcription lib in
  let audio_type := _detect_audio_type (lo_zcr_mean lib) (lo_sc_std lib) in
  let features := lo_features lib in
  let mood := _analyze_mood features in
  let music_analysis :=
    if String.eqb audio_type "music" || String.eqb audio_type "mixed"
    then Some (_analyze_music (lo_promotion lib) (lo_music_tempo lib)
                 (lo_beats lib) (lo_key lib)
                 (lo_harmonic_energy lib) (lo_percussive_energy lib)
                 (lo_beat_strength_mean lib))
    else None in
  {| audio_type := audio_type;
     duration := lo_duration lib;
     transcription := transcription;
     analysis_mood := mood;
     features := features;
     music_analysis := music_analysis;
     summary := _generate_summary audio_type mood features music_analysis
                  transcription |}.

End Summary.

End AudioAnalysis.

(* ===================================================================== *)
(** * [app/services/audio_service.py]: the duration estimate *)
(* ===================================================================== *)

Module AudioService.

(** [_estimate_audio_duration]: [getsize] is [os.path.getsize], which
    raises when the file cannot be read.  The sizes and the divisors are
    below [2^53], where the true division of two ints is the division of
    their conversions. *)
Definition _estimate_audio_duration
    (getsize : string -> Py.Outcome Z) (audio_path : string) : float :=
  match getsize audio_path with
  | Py.Raised _ => 30%float
  | Py.Returned file_size =>
      let estimated_duration :=
        if Batch.endswith (Batch.lower audio_path) ".mp3"
        then PrimFloat.div (Py.float_of_int file_size)
               (PrimFloat.div (Py.float_of_int (128 * 1024)) (Py.float_of_int 8))
        else if Batch.endswith (Batch.lower audio_path) ".wav"
        then PrimFloat.div (Py.float_of_int file_size)
               (Py.float_of_int (44100 * 2 * 2))
        else PrimFloat.div (Py.float_of_int file_size) (Py.float_of_int 32000) in
      PyStr.max 1 estimated_duration
  end.

End AudioService.

(* ===================================================================== *)
(** * [app/services/fallback_service.py]: the mock video analysis *)
(* ===================================================================== *)

Module FallbackService.

(** An entry of [frame_analyses]; its timestamp is a string. *)
Record FrameAnalysis := {
  frame_number : Z;
  timestamp : string;
  description : string;
  model : string
}.

Record VideoInfo := {
  duration : float;
  fps : Z;
  resolution : string;
  total_frames : Z;
  analyzed_frames : Z
}.

(** The dictionary returned by [analyze_video]: with ["success": False]
    and an error, or with ["success": True] and the mock analysis. *)
Inductive VideoResult :=
| NotFound (error : string)
| Mock (mock_description : string) (frame_analyses : list FrameAnalysis)
       (video_info : VideoInfo) (file_size : Z) (filename : string).

Definition is_url (path : string) : bool :=
  Batch.startswith path "http://" || Batch.startswith path "https://".

Section Mock.

(** The file system ([os.path.exists], [os.path.basename],
    [os.path.getsize]) and [str] of a float. *)
Variable exists_ : string -> bool.
Variable basename : string -> string.
Variable getsize : string -> Z.
Variable str_of_float : float -> string.

Definition timeframe_info (start_time end_time : option float) : string :=
  match start_time, end_time with
  | Some start_time, Some end_time =>
      " (timeframe: " +:+ str_of_float start_time +:+ "s-"
        +:+ str_of_float end_time +:+ "s)"
  | _, _ => ""
  end.

(** The entry that the loop appends for [i]. *)
Definition mock_frame (timeframe_info : string) (i : Z) : FrameAnalysis :=
  {| frame_number := i + 1;
     timestamp := "00:00:" +:+ PyStr.format_02d i;
     description :=
       "Frame " +:+ Py.str_of_int (i + 1) +:+ ": Standard video content"
         +:+ timeframe_info +:+ ", no obvious manipulation detected.";
     model := "fallback-mock-analyzer" |}.

(** [end_time - start_time if start_time and end_time else 10.0]. *)
Definition mock_duration (start_time end_time : option float) : float :=
  match start_time, end_time with
  | Some start_time, Some end_time =>
      if PyStr.truthy_float start_time && PyStr.truthy_float end_time
      then PrimFloat.sub end_time start_time
      else 10%float
  | _, _ => 10%float
  end.

Definition analyze_video (video_path_or_url : string) (num_frames : Z)
    (start_time end_time : option float) : VideoResult :=
  if negb (is_url video_path_or_url) && negb (exists_ video_path_or_url)
  then NotFound ("Video file not found: " +:+ video_path_or_url)
  else
    let filename := basename video_path_or_url in
    let timeframe_info := timeframe_info start_time end_time in
    let frame_analyses :=
      map (mock_frame timeframe_info) (Py.range (Z.min num_frames 5)) in
    Mock
      ("Mock analysis of " +:+ filename
         +:+ ": Video appears to be standard content with "
         +:+ Py.str_of_int num_frames +:+ " frames analyzed" +:+ timeframe_info
         +:+ ". No obvious signs of manipulation detected in preliminary review.")
      frame_analyses
      {| duration := mock_duration start_time end_time;
         fps := 30;
         resolution := "unknown";
         total_frames := num_frames * 30;
         analyzed_frames := num_frames |}
      (if exists_ video_path_or_url then getsize video_path_or_url else 0)
      filename.

End Mock.

End FallbackService.

(* ===================================================================== *)
(** * [app/models/model_manager.py]: the model manager *)
(* ===================================================================== *)

Module ModelManager.

(** The state of the manager: the [loaded] flags of its two models, its
    own flag and the error of the last failed loading. *)
Record State := {
  moondream_loaded : bool;
  whisper_loaded : bool;
  models_loaded : bool;
  initialization_error : option string
}.

(** [__init__]. *)
Definition init : State :=
  {| moondream_loaded := false; whisper_loaded := false;
     models_loaded := false; initialization_error := None |}.

(** [load_all_models]: both models are loaded, whatever the first one
    does; [load_model] sets the [loaded] flag of its model to what it
    returns, and catches every exception itself.  [moondream_ok] and
    [whisper_ok] are what the two calls return. *)
Definition load_all_models (moondream_ok whisper_ok : bool) (s : State)
  : bool * State :=
  let errors :=
    (if moondream_ok then [] else ["Failed to load Moondream model"])
    ++ (if whisper_ok then [] else ["Failed to load Whisper model"]) in
  let success := moondream_ok && whisper_ok in
  (success,
   {| moondream_loaded := moondream_ok;
      whisper_loaded := whisper_ok;
      models_loaded := if success then true else models_loaded s;
      initialization_error :=
        if success then initialization_error s
        else Some (Py.join "; " errors) |})%string.

(** [get_moondream_model] and [get_whisper_model]: the model, of which the
    embedding keeps the [loaded] flag. *)
Definition get_moondream_model (s : State) : Py.Outcome bool :=
  if negb (models_loaded s) then Py.Raised "Models not loaded"
  else Py.Returned (moondream_loaded s).

Definition get_whisper_model (s : State) : Py.Outcome bool :=
  if negb (models_loaded s) then Py.Raised "Models not loaded"
  else Py.Returned (whisper_loaded s).

Definition is_ready (s : State) : bool :=
  models_loaded s && moondream_loaded s && whisper_loaded s.

Definition endpoints : list string :=
  [ "/api/analyze/image"; "/api/analyze/video"; "/api/analyze/audio";
    "/api/analyze/batch"; "/api/health" ]%string.

(** The status and the endpoints of [health_check]; [memory_percent] is
    what [get_system_info] reports. *)
Definition health_check (memory_percent : float) (s : State)
  : string * list string :=
  (if is_ready s
   then if Py.gt memory_percent 90 then "degraded" else "healthy"
   else "unhealthy",
   if is_ready s then endpoints else [])%string.

End ModelManager.

(* ===================================================================== *)
(** * Definitions used by the statements *)
(* ===================================================================== *)

(** ** The conditions of the classifier's branches *)

Definition speech_condition (zcr_mean sc_std : float) : bool :=
  Py.gt zcr_mean 0.1 && Py.lt sc_std 1000.

Definition music_condition (zcr_mean sc_std : float) : bool :=
  Py.lt zcr_mean 0.08 && Py.gt sc_std 1000.

Definition positive_condition (spectral_centroid energy : float) : bool :=
  Py.gt spectral_centroid 2000 && Py.gt energy 0.1.

Definition negative_condition (spectral_centroid energy : float) : bool :=
  Py.lt spectral_centroid 1500 && Py.lt energy 0.08.

Definition high_condition (tempo energy : float) : bool :=
  Py.gt tempo 120 || Py.gt energy 0.15.

Definition low_condition (tempo energy : float) : bool :=
  Py.lt tempo 90 && Py.lt energy 0.08.

(** The nine labels of the mood table. *)
Definition mood_labels : list string :=
  [ "Happy/Energetic"; "Content/Pleasant"; "Peaceful/Relaxed";
    "Excited/Tense"; "Neutral/Balanced"; "Calm/Subdued";
    "Angry/Aggressive"; "Melancholic/Somber"; "Sad/Depressing" ]%string.

(** ** The integer quotient against the true division *)

(** Whether [int(i * t / n)], computed with the true division, is the
    integer quotient, for every range of [t <= max_frames] frames, every
    request of [n <= 20] frames and every [i < n]. *)
Definition int_true_div_agrees_upto (max_frames : Z) : bool :=
  forallb (fun t =>
    forallb (fun n =>
      forallb (fun i =>
        match Py.int_true_div (i * t) n with
        | Py.Returned q => q =? Py.int_div (i * t) n
        | Py.Raised _ => false
        end) (Py.range n))
      (Py.range2 1 21))
    (Py.range (max_frames + 1)).

(** ** A batch of five files, the second and the fourth of which fail *)

(** The world of the example is the log of the files the services saw. *)
Definition demo_service (kind : string) (file : Batch.UploadFile)
    (log : list string) : Py.Outcome string * list string :=
  let name := default ""%string (Batch.filename file) in
  (if String.eqb name "broken.png" then Py.Raised "cannot identify image file"
   else Py.Returned (kind +:+ " of " +:+ name),
   log ++ [name]).

Definition demo_ready (log : list string) : bool := true.
Definition demo_loading (log : list string) : bool := false.

Definition demo_file (name : string) : Batch.UploadFile :=
  {| Batch.filename := Some name; Batch.content_type := None |}.

Definition demo_files : list Batch.UploadFile :=
  [ demo_file "a.png"; demo_file "broken.png"; demo_file "c.mp3";
    demo_file "notes"; demo_file "e.mp4" ].

Definition demo_results : list (Batch.ItemResult string) :=
  [ Batch.Succeeded 0 (Some "a.png") "image" "image of a.png";
    Batch.Failed 1 (Some "broken.png") "cannot identify image file";
    Batch.Succeeded 2 (Some "c.mp3") "audio" "audio of c.mp3";
    Batch.Failed 3 (Some "notes") "Unable to determine file type for notes";
    Batch.Succeeded 4 (Some "e.mp4") "video" "video of e.mp4" ]%string.

Definition demo_data : Batch.BatchData string :=
  {| Batch.results := demo_results; Batch.total_files := 5;
     Batch.successful := 3; Batch.failed := 2 |}.

Definition demo_log : list string :=
  ["a.png"; "broken.png"; "c.mp3"; "e.mp4"]%string.

Definition demo_batch (is_ready : list string -> bool)
    (files : list Batch.UploadFile) :=
  Batch.analyze_batch is_ready (demo_service "image") (demo_service "video")
    (demo_service "audio") files [].

(** ** A video for the basic pipeline

    Every frame can be read; the analysis raises from the frame number
    [raises_from] on. *)

Definition demo_frames : list VideoService.FrameAnalysis :=
  [ {| VideoService.fa_timestamp := 0; VideoService.fa_frame_number := 0;
       VideoService.description := "a title card" |};
    {| VideoService.fa_timestamp := 2; VideoService.fa_frame_number := 60;
       VideoService.description := "a street" |} ].

Definition demo_cap_read (frame_idx : Z) (w : unit) : option Z * unit :=
  (Some frame_idx, w).

Definition demo_analyze_video_frame (raises_from : Z) (frame : Z)
    (prompt : option string) (frame_number : Z) (timestamp : float) (w : unit)
  : Py.Outcome string * unit :=
  (if raises_from <=? frame_number
   then Py.Raised "Video frame analysis failed: out of memory"
   else Py.Returned ("frame " +:+ Py.str_of_int frame), w).

Definition demo_video_info : VideoService.VideoInfo :=
  {| VideoService.fps := 30; VideoService.total_frames := 120;
     VideoService.resolution := (640, 480); VideoService.duration := 4 |}.

Definition demo_analyze_video (raises_from : Z) : VideoService.VideoAnalysis :=
  fst (VideoService.analyze_video demo_cap_read
         (demo_analyze_video_frame raises_from)
         demo_video_info 2 None "uniform" tt).

(** A video of three frames, shorter than the default request of five. *)
Definition demo_short_video_info : VideoService.VideoInfo :=
  {| VideoService.fps := 30; VideoService.total_frames := 3;
     VideoService.resolution := (640, 480); VideoService.duration := 0.1 |}.

(** ** A video of 300 frames for the enhanced pipeline *)

(** Frame 60 cannot be decoded and the analysis of frame 120 is reported
    unsuccessful; the world is the log of the analysed frames. *)
Definition demo_decode (frame_idx : Z) (log : list Z) : option Z * list Z :=
  (if frame_idx =? 60 then None else Some frame_idx, log).

Definition demo_analyze_image (frame : Z) (prompt : string) (log : list Z)
  : MultimodalAnalysisService.ImageResult * list Z :=
  ({| MultimodalAnalysisService.success := negb (frame =? 120);
      MultimodalAnalysisService.description := "frame " +:+ Py.str_of_int frame;
      MultimodalAnalysisService.model_used := "nova" |}, log ++ [frame]).

Definition demo_analyze_text (prompt : string) (log : list Z)
  : MultimodalAnalysisService.TextResult * list Z :=
  ({| MultimodalAnalysisService.text_success := true;
      MultimodalAnalysisService.response := "a summary" |}, log).

Definition demo_props : MultimodalAnalysisService.VideoProps :=
  {| MultimodalAnalysisService.total_frames := 300;
     MultimodalAnalysisService.fps := 30;
     MultimodalAnalysisService.width := 640;
     MultimodalAnalysisService.height := 480 |}.

Definition demo_entry (frame_idx : Z) (timestamp : float)
  : MultimodalAnalysisService.FrameAnalysis :=
  {| MultimodalAnalysisService.frame_number := frame_idx;
     MultimodalAnalysisService.timestamp := timestamp;
     MultimodalAnalysisService.frame_description :=
       "frame " +:+ Py.str_of_int frame_idx;
     MultimodalAnalysisService.model := "nova" |}.

(** The same analyzer on a disk that is full when frame 120 is to be
    written to its temporary file; the log keeps the frames that reached
    this step. *)
Definition demo_analyze_image_raising (frame : Z) (prompt : string)
    (log : list Z)
  : Py.Outcome MultimodalAnalysisService.ImageResult * list Z :=
  (if frame =? 120
   then Py.Raised "[Errno 28] No space left on device"
   else Py.Returned
          {| MultimodalAnalysisService.success := true;
             MultimodalAnalysisService.description :=
               "frame " +:+ Py.str_of_int frame;
             MultimodalAnalysisService.model_used := "nova" |},
   log ++ [frame]).

Definition demo_returning_text
  : string -> list Z
    -> Py.Outcome MultimodalAnalysisService.TextResult * list Z :=
  MultimodalAnalysisService.Raising.returning1 demo_analyze_text.


(** ** Definitions for the further properties *)

(** The timestamp that [_extract_frames] gives to a frame index:
    [frame_idx / fps if fps > 0 else 0]. *)
Definition frame_timestamp (fps : float) (frame_idx : Z) : float :=
  if Py.gt fps 0 then PrimFloat.div (Py.float_of_int frame_idx) fps else 0%float.

(** Whether the name of a file, once lowered by [lower], ends with one of
    the extensions [exts]. *)
Definition has_extension (lower : string -> string) (exts : list string)
    (file : Batch.UploadFile) : bool :=
  match Batch.filename file with
  | Some name =>
      negb (String.eqb name "")
      && existsb (Batch.endswith (lower name)) exts
  | None => false
  end.

(** The type that [_determine_file_type] returns, if it returns. *)
Definition file_type_of (lower : string -> string) (file : Batch.UploadFile)
  : option string :=
  match Batch._determine_file_type_with lower file with
  | Py.Returned file_type => Some file_type
  | Py.Raised _ => None
  end.

(** The Kelvin sign U+212A in UTF-8, a capital outside ASCII whose lower
    case is the letter [k]; and a lowering that knows it beside the ASCII
    capitals. *)
Definition kelvin_sign : string :=
  String "226" (String "132" (String "170" EmptyString)).

Fixpoint demo_lower (s : string) : string :=
  match s with
  | String "226" (String "132" (String "170" rest)) =>
      String "k" (demo_lower rest)
  | String c rest => String (Batch.lower_ascii c) (demo_lower rest)
  | EmptyString => EmptyString
  end.

Definition demo_kelvin_file : Batch.UploadFile :=
  {| Batch.filename := Some ("clip.m" +:+ kelvin_sign +:+ "v");
     Batch.content_type := Some "image/png"%string |}.

(** Whether no extension of one list is a tail of an extension of the
    other. *)
Definition separate (exts1 exts2 : list string) : bool :=
  forallb (fun a =>
             forallb (fun b => negb (Batch.endswith a b)
                               && negb (Batch.endswith b a)) exts2) exts1.

(** ** Worlds for the further examples *)

(** A capture from which no frame can be read. *)
Definition demo_unreadable (frame_idx : Z) (w : unit) : option Z * unit :=
  (None, w).

(** A video whose frame rate reads as zero. *)
Definition demo_props_no_rate : MultimodalAnalysisService.VideoProps :=
  {| MultimodalAnalysisService.total_frames := 300;
     MultimodalAnalysisService.fps := 0;
     MultimodalAnalysisService.width := 640;
     MultimodalAnalysisService.height := 480 |}.

(** A file system that holds one video of 2048 bytes, and a printer of
    floats that is good for whole numbers. *)
Definition demo_exists (path : string) : bool := String.eqb path "/data/clip.mp4".
Definition demo_basename (path : string) : string := "clip.mp4".
Definition demo_getsize (path : string) : Z := 2048.
Definition demo_str_of_float (x : float) : string := Py.format_1f x.

Definition demo_mock (num_frames : Z) : FallbackService.VideoResult :=
  FallbackService.analyze_video demo_exists demo_basename demo_getsize
    demo_str_of_float "/data/clip.mp4" num_frames None None.

(** Python's words and blanks on plain ASCII text, for the examples. *)
Definition demo_blank (s : string) : bool :=
  forallb (fun c => Ascii.eqb c " ") (list_ascii_of_string s).
Definition demo_count_words (s : string) : Z := 2.

Definition demo_features : LocalAudioAnalyzer.Features :=
  {| LocalAudioAnalyzer.tempo := 130; LocalAudioAnalyzer.beats_detected := 64;
     LocalAudioAnalyzer.spectral_centroid_mean := 2500;
     LocalAudioAnalyzer.spectral_centroid_std := 1200;
     LocalAudioAnalyzer.spectral_rolloff_mean := 4000;
     LocalAudioAnalyzer.spectral_bandwidth_mean := 1800;
     LocalAudioAnalyzer.rms_energy_mean := 0.2;
     LocalAudioAnalyzer.rms_energy_std := 0.05;
     LocalAudioAnalyzer.zero_crossing_rate_mean := 0.05;
     LocalAudioAnalyzer.mfcc_means := [] |}.

Definition demo_library_outputs : AudioAnalysis.LibraryOutputs :=
  {| AudioAnalysis.lo_duration := 30;
     AudioAnalysis.lo_transcription :=
       Some {| AudioAnalysis.text := "la la"; AudioAnalysis.language := "en";
               AudioAnalysis.segments := 1 |};
     AudioAnalysis.lo_zcr_mean := 0.05;
     AudioAnalysis.lo_sc_std := 1200;
     AudioAnalysis.lo_features := demo_features;
     AudioAnalysis.lo_promotion := Np.Weak;
     AudioAnalysis.lo_music_tempo := 130;
     AudioAnalysis.lo_beats := 64;
     AudioAnalysis.lo_key := 9;
     AudioAnalysis.lo_harmonic_energy := Np.of_float 3;
     AudioAnalysis.lo_percussive_energy := Np.of_float 1;
     AudioAnalysis.lo_beat_strength_mean := 0.5 |}.

Definition demo_audio_analysis : AudioAnalysis.Analysis :=
  AudioAnalysis.analyze_complete_audio demo_blank demo_count_words
    demo_library_outputs.

(** Whether the transcription adds its two lines to the summary of an
    audio analysis. *)
Definition has_speech_lines (blank : string -> bool)
    (transcription : option AudioAnalysis.Transcription) : bool :=
  match transcription with
  | Some t => negb (blank (AudioAnalysis.text t))
  | None => false
  end.

(** ** Runs of the model manager *)

(** A run of loading attempts, each with what its two loaders return: the
    state after [load_all_models] has been called once per attempt. *)
Definition load_repeatedly (attempts : list (bool * bool))
    (s : ModelManager.State) : ModelManager.State :=
  fold_left (fun s attempt =>
               snd (ModelManager.load_all_models attempt.1 attempt.2 s))
    attempts s.

(** ** The last step of an IEEE rounding *)

(** What [binary_round_aux] does once the mantissa has been rounded: it
    shifts the mantissa once more if rounding made it too long, and
    classifies the result. *)
Definition round_tail (prec emax : Z) (sx : bool) (m e : Z) : spec_float :=
  let '(mrs, e') := shr_fexp prec emax m e loc_Exact in
  match shr_m mrs with
  | Z0 => S754_zero sx
  | Zpos m => if e' <=? emax - prec then S754_finite sx m e' else S754_infinity sx
  | Zneg _ => S754_nan
  end.

(* ===================================================================== *)
(** * Properties *)
(* ===================================================================== *)

(** ** IEEE 754 arithmetic *)

(** The operations of [SpecFloat] are functions on mantissas and
    exponents.  What follows establishes the two facts about them that the
    properties of the program rest on: the quotient of two integers below
    [2^53], rounded to binary64 and truncated, is their integer quotient;
    and the rounded sum of two positive numbers of a format is positive. *)

(** *** Digits and shifts *)

Lemma digits2_pos_bounds (p : positive) :
  2 ^ (Z.pos (digits2_pos p) - 1) <= Z.pos p < 2 ^ Z.pos (digits2_pos p).
Proof.
  induction p as [p IH|p IH|]; cbn [digits2_pos].
  - rewrite Pos2Z.inj_succ.
    replace (Z.succ (Z.pos (digits2_pos p)) - 1)
      with (Z.succ (Z.pos (digits2_pos p) - 1)) by lia.
    rewrite !Z.pow_succ_r by lia. lia.
  - rewrite Pos2Z.inj_succ.
    replace (Z.succ (Z.pos (digits2_pos p)) - 1)
      with (Z.succ (Z.pos (digits2_pos p) - 1)) by lia.
    rewrite !Z.pow_succ_r by lia. lia.
  - simpl. lia.
Qed.

Lemma digits2_pos_unique (p : positive) (k : Z) :
  2 ^ (k - 1) <= Z.pos p < 2 ^ k -> Z.pos (digits2_pos p) = k.
Proof.
  intros [Hlo Hhi]. destruct (digits2_pos_bounds p) as [Dlo Dhi].
  assert (0 < k).
  { destruct (Z.lt_trichotomy k 0) as [Hk|[Hk|Hk]]; try assumption.
    - rewrite Z.pow_neg_r in Hhi by assumption. lia.
    - subst k. simpl in Hhi. lia. }
  set (d := Z.pos (digits2_pos p)) in *.
  assert (d - 1 < k).
  { apply (Z.pow_lt_mono_r_iff 2); lia. }
  assert (k - 1 < d).
  { apply (Z.pow_lt_mono_r_iff 2); lia. }
  lia.
Qed.

Lemma shr_m_shr_1 (mrs : shr_record) :
  0 <= shr_m mrs -> shr_m (shr_1 mrs) = shr_m mrs / 2.
Proof.
  destruct mrs as [m r s]. cbn [shr_m]. intros Hm.
  destruct m as [|[p|p|]|p]; cbn [shr_1 shr_m]; try lia; try reflexivity.
  - apply Z.div_unique with 1; lia.
  - apply Z.div_unique with 0; lia.
Qed.

Lemma pow2_xO (p : positive) : 2 ^ Z.pos p~0 = 2 ^ Z.pos p * 2 ^ Z.pos p.
Proof.
  rewrite <- Z.pow_add_r by lia. f_equal. lia.
Qed.

Lemma pow2_xI (p : positive) : 2 ^ Z.pos p~1 = 2 * (2 ^ Z.pos p * 2 ^ Z.pos p).
Proof.
  rewrite <- pow2_xO, Pos2Z.inj_xI, Z.pow_add_r, <- Pos2Z.inj_xO by lia.
  change (2 ^ 1) with 2. lia.
Qed.

Lemma shr_m_iter_pos (p : positive) :
  forall mrs : shr_record,
    0 <= shr_m mrs ->
    shr_m (SpecFloat.iter_pos shr_1 p mrs) = shr_m mrs / 2 ^ Z.pos p.
Proof.
  assert (Hstep : forall mrs, 0 <= shr_m mrs -> 0 <= shr_m (shr_1 mrs)).
  { intros mrs H. rewrite shr_m_shr_1 by assumption.
    apply Z.div_pos; lia. }
  assert (Hpow : forall q : positive, 0 < 2 ^ Z.pos q).
  { intros q. apply Z.pow_pos_nonneg; lia. }
  induction p as [p IH|p IH|]; intros mrs Hm; cbn [SpecFloat.iter_pos].
  - pose proof (Hpow p).
    rewrite IH, IH, shr_m_shr_1; try assumption.
    + rewrite !Z.div_div by lia. now rewrite pow2_xI.
    + auto.
    + rewrite IH by auto. apply Z.div_pos; [auto | lia].
  - pose proof (Hpow p).
    rewrite IH, IH; try assumption.
    + rewrite !Z.div_div by lia. now rewrite pow2_xO.
    + rewrite IH by auto. apply Z.div_pos; [auto | lia].
  - rewrite shr_m_shr_1 by assumption. reflexivity.
Qed.

(** *** The rounded quotient of two integers *)

Lemma shr_fexp_0 (prec emax m e : Z) (l : location) :
  fexp prec emax (Zdigits2 m + e) <= e ->
  shr_fexp prec emax m e l = (shr_record_of_loc m l, e).
Proof.
  intros H. unfold shr_fexp, shr.
  destruct (fexp prec emax (Zdigits2 m + e) - e) eqn:E; try reflexivity. lia.
Qed.

Lemma shr_fexp_1 (prec emax m e : Z) (l : location) :
  fexp prec emax (Zdigits2 m + e) = e + 1 ->
  shr_fexp prec emax m e l = (shr_1 (shr_record_of_loc m l), e + 1).
Proof.
  intros H. unfold shr_fexp. rewrite H.
  replace (e + 1 - e) with 1 by lia. reflexivity.
Qed.

Lemma loc_of_shr_record_of_loc (m : Z) (l : location) :
  loc_of_shr_record (shr_record_of_loc m l) = l.
Proof. destruct l as [|[]]; reflexivity. Qed.

Lemma shr_m_of_loc (m : Z) (l : location) : shr_m (shr_record_of_loc m l) = m.
Proof. destruct l as [|[]]; reflexivity. Qed.

Lemma round_new_location (b r q : Z) :
  0 <= r < b ->
  round_nearest_even q (new_location b r) = q
  \/ (round_nearest_even q (new_location b r) = q + 1 /\ b <= 2 * r).
Proof.
  intros Hr. unfold new_location, new_location_even, new_location_odd.
  destruct (Z.even b); destruct (r =? 0); cbn [round_nearest_even]; auto.
  - destruct (2 * r ?= b) eqn:C; cbn [round_nearest_even]; auto.
    + apply Z.compare_eq in C. destruct (Z.even q); auto. right. lia.
    + apply Z.compare_gt_iff in C. right. lia.
  - destruct (2 * r + 1 ?= b) eqn:C; cbn [round_nearest_even]; auto.
    apply Z.compare_gt_iff in C. right. lia.
Qed.

Lemma round_shr_1 (q : Z) (l : location) :
  0 < q ->
  exists m1,
    shr_m (shr_1 (shr_record_of_loc q l)) = m1
    /\ (q = 2 * m1 \/ q = 2 * m1 + 1)
    /\ (round_nearest_even m1 (loc_of_shr_record (shr_1 (shr_record_of_loc q l))) = m1
        \/ (round_nearest_even m1
              (loc_of_shr_record (shr_1 (shr_record_of_loc q l))) = m1 + 1
            /\ q = 2 * m1 + 1)).
Proof.
  intros Hq. destruct q as [|[p|p|]|p]; try lia.
  - exists (Z.pos p). destruct l as [|[]];
      cbn [shr_record_of_loc shr_1 shr_m loc_of_shr_record orb round_nearest_even];
      (split; [reflexivity|]); (split; [lia|]);
      try destruct (Z.even (Z.pos p)); auto; right; split; lia.
  - exists (Z.pos p). destruct l as [|[]];
      cbn [shr_record_of_loc shr_1 shr_m loc_of_shr_record orb round_nearest_even];
      (split; [reflexivity|]); (split; [lia|]); auto.
  - exists 0. destruct l as [|[]];
      cbn [shr_record_of_loc shr_1 shr_m loc_of_shr_record orb round_nearest_even];
      (split; [reflexivity|]); (split; [lia|]);
      cbn; auto; right; split; lia.
Qed.

Lemma binary_round_aux_tail (prec emax : Z) (sx : bool) (mx ex : Z) (lx : location) :
  binary_round_aux prec emax sx mx ex lx
  = round_tail prec emax sx
      (round_nearest_even (shr_m (fst (shr_fexp prec emax mx ex lx)))
         (loc_of_shr_record (fst (shr_fexp prec emax mx ex lx))))
      (snd (shr_fexp prec emax mx ex lx)).
Proof.
  unfold binary_round_aux, round_tail.
  destruct (shr_fexp prec emax mx ex lx) as [mrs e]. reflexivity.
Qed.

Lemma round_tail_binary64 (m2 e1 : Z) :
  2 ^ 52 <= m2 <= 2 ^ 53 -> -1074 <= e1 <= 900 ->
  exists (m : positive) (k : Z),
    round_tail prec emax false m2 e1 = S754_finite false m (e1 + k)
    /\ (k = 0 \/ k = 1) /\ Z.pos m * 2 ^ k = m2.
Proof.
  intros Hm He. unfold round_tail.
  destruct (Z.eq_dec m2 (2 ^ 53)) as [->|Hne].
  - rewrite shr_fexp_1.
    + exists (Z.to_pos (2 ^ 52)), 1. cbn [shr_record_of_loc shr_1 shr_m].
      change (shr_m (shr_1 {| shr_m := 2 ^ 53; shr_r := false; shr_s := false |}))
        with (2 ^ 52).
      change (2 ^ 52) with (Z.pos (Z.to_pos (2 ^ 52))) at 1. cbv iota.
      replace (e1 + 1 <=? emax - prec) with true.
      * split; [reflexivity|]. split; [now right | reflexivity].
      * symmetry. apply Z.leb_le. change (emax - prec) with 971. lia.
    + change (Zdigits2 (2 ^ 53)) with 54. unfold fexp, emin.
      change prec with 53. change emax with 1024. lia.
  - assert (Hpos : 0 < m2) by (pose proof (Z.pow_pos_nonneg 2 52); lia).
    destruct m2 as [|p|p]; try lia.
    assert (Hd : Zdigits2 (Z.pos p) = 53).
    { simpl. apply digits2_pos_unique. change (53 - 1) with 52. lia. }
    rewrite shr_fexp_0.
    + exists p, 0. rewrite shr_m_of_loc.
      replace (e1 <=? emax - prec) with true.
      * rewrite Z.add_0_r. split; [reflexivity|]. split; [now left | lia].
      * symmetry. apply Z.leb_le. change (emax - prec) with 971. lia.
    + rewrite Hd. unfold fexp, emin. change prec with 53. change emax with 1024.
      lia.
Qed.

Lemma trunc_magnitude_scaled (m : positive) (k N m2 : Z) :
  0 <= N -> k = 0 \/ k = 1 -> Z.pos m * 2 ^ k = m2 ->
  Py.trunc_magnitude m (k - N) = m2 / 2 ^ N.
Proof.
  intros HN Hk Hm. unfold Py.trunc_magnitude.
  assert (Hp : 0 < 2 ^ N) by (apply Z.pow_pos_nonneg; lia).
  destruct Hk as [-> | ->].
  - rewrite Z.pow_0_r, Z.mul_1_r in Hm. subst m2.
    destruct (0 <=? 0 - N) eqn:E.
    + apply Z.leb_le in E. replace N with 0 by lia.
      simpl (0 - 0). rewrite Z.pow_0_r, Z.div_1_r. lia.
    + f_equal. f_equal. lia.
  - change (2 ^ 1) with 2 in Hm. subst m2.
    destruct (0 <=? 1 - N) eqn:E.
    + apply Z.leb_le in E.
      assert (HN' : N = 0 \/ N = 1) by lia. destruct HN' as [-> | ->].
      * simpl (1 - 0). change (2 ^ 1) with 2. change (2 ^ 0) with 1.
        now rewrite Z.div_1_r.
      * simpl (1 - 1). change (2 ^ 1) with 2. rewrite Z.pow_0_r.
        rewrite Z.div_mul by lia. lia.
    + apply Z.leb_gt in E.
      replace (- (1 - N)) with (N - 1) by lia.
      replace (2 ^ N) with (2 ^ (N - 1) * 2).
      * rewrite Z.div_mul_cancel_r; [reflexivity | | lia].
        pose proof (Z.pow_pos_nonneg 2 (N - 1)). lia.
      * replace N with (Z.succ (N - 1)) at 2 by lia.
        rewrite Z.pow_succ_r by lia. lia.
Qed.

Lemma quotient_of_rounded (a b P m1 m2 : Z) :
  0 < a < 2 ^ 53 -> 0 < b -> 0 < P ->
  m1 * b <= a * P < (m1 + 1) * b ->
  2 ^ 52 <= m1 ->
  m2 = m1 \/ (m2 = m1 + 1 /\ (2 * m1 + 1) * b <= 2 * (a * P)) ->
  m2 / P = a / b.
Proof.
  intros Ha Hb HP Hm1 H52 Hm2.
  pose proof (Z.div_mod a b ltac:(lia)) as Hdiv.
  pose proof (Z.mod_pos_bound a b Hb) as Hmod.
  set (Q := a / b) in *. set (R := a mod b) in *.
  change (2 ^ 53) with 9007199254740992 in Ha.
  change (2 ^ 52) with 4503599627370496 in H52.
  assert (HQ : 0 <= Q) by (apply Z.div_pos; lia).
  (* Q * P <= m1 *)
  assert (Hlow : Q * P <= m1).
  { assert (Q * P * b < (m1 + 1) * b) by nia.
    assert (Q * P < m1 + 1) by (apply (Z.mul_lt_mono_pos_r b); lia). lia. }
  (* m1 < (Q + 1) * P *)
  assert (Hup1 : m1 < (Q + 1) * P).
  { assert (m1 * b < (Q + 1) * P * b) by nia.
    apply (Z.mul_lt_mono_pos_r b); lia. }
  (* b < 2 * P *)
  assert (Hb2 : b < 2 * P).
  { assert (4503599627370496 * b < 9007199254740992 * P) by nia. lia. }
  assert (Hup : m2 < (Q + 1) * P).
  { destruct Hm2 as [-> | [-> Hhalf]]; [assumption|].
    destruct (Z.lt_ge_cases (m1 + 1) ((Q + 1) * P)) as [|Hge]; [assumption|].
    exfalso.
    assert (Ha' : a + 1 <= (Q + 1) * b) by lia.
    assert (2 * (a * P) + 2 * P <= 2 * ((Q + 1) * P) * b) by nia.
    assert ((2 * ((Q + 1) * P) - 1) * b <= (2 * m1 + 1) * b).
    { apply Z.mul_le_mono_nonneg_r; lia. }
    lia. }
  assert (Hlo : Q * P <= m2) by (destruct Hm2 as [-> | [-> _]]; lia).
  symmetry. apply (Z.div_unique m2 P Q (m2 - Q * P)); lia.
Qed.

Lemma round_quotient (a b q r s : Z) :
  0 < a < 2 ^ 53 -> 0 < b -> 0 < s <= 200 ->
  a * 2 ^ s = b * q + r -> 0 <= r < b ->
  2 ^ 52 <= q < 2 ^ 54 ->
  exists (m : positive) (e : Z),
    binary_round_aux prec emax false q (- s) (new_location b r)
    = S754_finite false m e
    /\ Py.trunc_magnitude m e = a / b.
Proof.
  intros Ha Hb Hs Hq Hr Hq54.
  assert (Hqpos : 0 < q) by (pose proof (Z.pow_pos_nonneg 2 52); lia).
  rewrite binary_round_aux_tail.
  assert (Hfinish : forall N m1 m2,
    0 <= N <= 200 ->
    m1 * b <= a * 2 ^ N < (m1 + 1) * b ->
    2 ^ 52 <= m1 < 2 ^ 53 ->
    m2 = m1 \/ (m2 = m1 + 1 /\ (2 * m1 + 1) * b <= 2 * (a * 2 ^ N)) ->
    exists (m : positive) (e : Z),
      round_tail prec emax false m2 (- N) = S754_finite false m e
      /\ Py.trunc_magnitude m e = a / b).
  { intros N m1 m2 HN Hm1 H52 Hm2.
    destruct (round_tail_binary64 m2 (- N)) as (m & k & Heq & Hk & Hval).
    - destruct Hm2 as [-> | [-> _]]; lia.
    - lia.
    - exists m, (- N + k). split; [exact Heq|].
      replace (- N + k) with (k - N) by lia.
      rewrite (trunc_magnitude_scaled m k N m2) by (assumption || lia).
      apply (quotient_of_rounded a b (2 ^ N) m1 m2); try assumption; try lia. }
  destruct (Z.lt_ge_cases q (2 ^ 53)) as [Hlt|Hge].
  - (* 53 digits: no shift *)
    assert (Hd : Zdigits2 q = 53).
    { destruct q as [|p|p]; try lia. simpl.
      apply digits2_pos_unique. change (53 - 1) with 52. lia. }
    rewrite shr_fexp_0.
    + cbn [fst snd]. rewrite shr_m_of_loc, loc_of_shr_record_of_loc.
      apply (Hfinish s q); [lia | rewrite Hq; lia | lia |].
      destruct (round_new_location b r q Hr) as [-> | [-> Hup]];
        [now left | right]. split; [reflexivity | rewrite Hq; lia].
    + rewrite Hd. unfold fexp, emin. change prec with 53. change emax with 1024.
      lia.
  - (* 54 digits: one shift *)
    assert (Hd : Zdigits2 q = 54).
    { destruct q as [|p|p]; try lia. simpl.
      apply digits2_pos_unique. change (54 - 1) with 53. lia. }
    rewrite shr_fexp_1.
    + cbn [fst snd].
      destruct (round_shr_1 q (new_location b r) Hqpos)
        as (m1 & Hm1 & Hpar & Hround).
      rewrite Hm1.
      replace (- s + 1) with (- (s - 1)) by lia.
      assert (Hpow : 2 ^ s = 2 * 2 ^ (s - 1)).
      { replace s with (Z.succ (s - 1)) at 1 by lia.
        rewrite Z.pow_succ_r by lia. reflexivity. }
      assert (0 < 2 ^ (s - 1)) by (apply Z.pow_pos_nonneg; lia).
      change (2 ^ 54) with (2 * 2 ^ 53) in Hq54.
      change (2 ^ 53) with (2 * 2 ^ 52) in Hge.
      rewrite Hpow in Hq.
      apply (Hfinish (s - 1) m1);
        [lia | destruct Hpar as [Hpar | Hpar]; lia
        | destruct Hpar as [Hpar | Hpar]; lia |].
      destruct Hround as [-> | [-> Hodd]]; [now left | right].
      split; [reflexivity | lia].
    + rewrite Hd. unfold fexp, emin. change prec with 53. change emax with 1024.
      lia.
Qed.

Lemma SFdiv_int_quotient (pa pb : positive) :
  Z.pos pa < 2 ^ 53 -> Z.pos pb < 2 ^ 53 ->
  exists (m : positive) (e : Z),
    SFdiv prec emax (S754_finite false pa 0) (S754_finite false pb 0)
    = S754_finite false m e
    /\ Py.trunc_magnitude m e = Z.pos pa / Z.pos pb.
Proof.
  intros Ha Hb.
  destruct (digits2_pos_bounds pa) as [Alo Ahi].
  destruct (digits2_pos_bounds pb) as [Blo Bhi].
  set (d1 := Z.pos (digits2_pos pa)) in *.
  set (d2 := Z.pos (digits2_pos pb)) in *.
  assert (Hd1 : 1 <= d1 <= 53).
  { split; [unfold d1; lia|].
    assert (d1 - 1 < 53) by (apply (Z.pow_lt_mono_r_iff 2); lia). lia. }
  assert (Hd2 : 1 <= d2 <= 53).
  { split; [unfold d2; lia|].
    assert (d2 - 1 < 53) by (apply (Z.pow_lt_mono_r_iff 2); lia). lia. }
  set (s := 53 + d2 - d1).
  assert (Hs : 0 < s <= 200) by (unfold s; lia).
  unfold SFdiv, SFdiv_core_binary. cbn [xorb Zdigits2]. fold d1 d2.
  replace (Z.min (fexp prec emax (d1 + 0 - (d2 + 0))) (0 - 0)) with (- s).
  2:{ unfold fexp, emin. change prec with 53. change emax with 1024.
      unfold s. lia. }
  replace (0 - 0 - - s) with s by lia.
  destruct s as [|ps|ps] eqn:Es; try lia. rewrite <- Es in *.
  rewrite Z.shiftl_mul_pow2 by lia.
  pose proof (Z_div_mod (Z.pos pa * 2 ^ s) (Z.pos pb) ltac:(lia)) as Hdm.
  destruct (Z.div_eucl (Z.pos pa * 2 ^ s) (Z.pos pb)) as [q r].
  destruct Hdm as [Hq Hr].
  apply (round_quotient (Z.pos pa) (Z.pos pb) q r s); try assumption; try lia.
  assert (P1 : 2 ^ (d1 - 1) * 2 ^ s = 2 ^ 52 * 2 ^ d2).
  { rewrite <- !Z.pow_add_r by lia. f_equal. unfold s. lia. }
  assert (P2 : 2 ^ d1 * 2 ^ s = 2 ^ 54 * 2 ^ (d2 - 1)).
  { rewrite <- !Z.pow_add_r by lia. f_equal. unfold s. lia. }
  assert (Hps : 0 < 2 ^ s) by (apply Z.pow_pos_nonneg; lia).
  assert (L : 2 ^ 52 * 2 ^ d2 <= Z.pos pa * 2 ^ s).
  { rewrite <- P1. apply Z.mul_le_mono_nonneg_r; lia. }
  assert (U : Z.pos pa * 2 ^ s < 2 ^ 54 * 2 ^ (d2 - 1)).
  { rewrite <- P2. apply Z.mul_lt_mono_pos_r; lia. }
  change (2 ^ 52) with 4503599627370496 in *.
  change (2 ^ 54) with 18014398509481984 in *.
  split.
  - assert (4503599627370496 * Z.pos pb < Z.pos pb * q + Z.pos pb) by nia.
    nia.
  - assert (Z.pos pb * q < 18014398509481984 * Z.pos pb) by nia.
    nia.
Qed.

(** *** The rounded sum of two positive numbers *)

Section Positive.

Variables prec emax : Z.
Hypothesis prec_pos : 0 < prec.

Lemma shr_fexp_pos (m e : Z) (l : location) :
  0 < m -> SpecFloat.emin prec emax <= e ->
  0 < shr_m (fst (shr_fexp prec emax m e l))
  /\ SpecFloat.emin prec emax <= snd (shr_fexp prec emax m e l).
Proof.
  intros Hm He. unfold shr_fexp, shr.
  destruct (fexp prec emax (Zdigits2 m + e) - e) as [|n|n] eqn:En;
    cbn [fst snd]; rewrite ?shr_m_of_loc; try (split; assumption).
  destruct m as [|p|p]; try lia. cbn [Zdigits2] in En.
  destruct (digits2_pos_bounds p) as [Dlo _].
  unfold fexp in En.
  assert (Hn : Z.pos n = Z.pos (digits2_pos p) - prec) by lia.
  split; [|lia].
  rewrite shr_m_iter_pos by (rewrite shr_m_of_loc; lia).
  rewrite shr_m_of_loc. apply Z.div_str_pos. split.
  - apply Z.pow_pos_nonneg; lia.
  - apply Z.le_trans with (2 ^ (Z.pos (digits2_pos p) - 1)); [|exact Dlo].
    apply Z.pow_le_mono_r; lia.
Qed.

Lemma round_nearest_even_ge (m : Z) (l : location) :
  m <= round_nearest_even m l.
Proof.
  destruct l as [|[]]; cbn [round_nearest_even]; try lia.
  destruct (Z.even m); lia.
Qed.

Lemma binary_round_aux_pos (m e : Z) (l : location) :
  0 < m -> SpecFloat.emin prec emax <= e ->
  SFltb (S754_zero false) (binary_round_aux prec emax false m e l) = true.
Proof.
  intros Hm He. rewrite binary_round_aux_tail.
  destruct (shr_fexp_pos m e l Hm He) as [Hm1 He1].
  set (m1 := shr_m (fst (shr_fexp prec emax m e l))) in *.
  set (l1 := loc_of_shr_record (fst (shr_fexp prec emax m e l))).
  set (e1 := snd (shr_fexp prec emax m e l)) in *.
  pose proof (round_nearest_even_ge m1 l1) as Hge.
  destruct (shr_fexp_pos (round_nearest_even m1 l1) e1 loc_Exact) as [Hm2 _];
    [lia | assumption |].
  unfold round_tail.
  destruct (shr_fexp prec emax (round_nearest_even m1 l1) e1 loc_Exact)
    as [mrs e2].
  cbn [fst] in Hm2. destruct (shr_m mrs) as [|m3|m3]; try lia.
  destruct (e2 <=? emax - prec); reflexivity.
Qed.

Lemma binary_round_pos (m : positive) (e : Z) :
  SpecFloat.emin prec emax <= e ->
  SFltb (S754_zero false) (binary_round prec emax false m e) = true.
Proof.
  intros He. unfold binary_round, shl_align.
  destruct (fexp prec emax (Z.pos (digits2_pos m) + e) - e) eqn:E;
    apply binary_round_aux_pos; try lia.
  unfold fexp. lia.
Qed.

Lemma bounded_emin (m : positive) (e : Z) :
  bounded prec emax m e = true -> SpecFloat.emin prec emax <= e.
Proof.
  unfold bounded, canonical_mantissa, fexp. intros H.
  apply andb_prop in H. destruct H as [H _]. apply Z.eqb_eq in H. lia.
Qed.

Lemma SFadd_pos (mx my : positive) (ex ey : Z) :
  bounded prec emax mx ex = true -> bounded prec emax my ey = true ->
  SFltb (S754_zero false)
    (SFadd prec emax (S754_finite false mx ex) (S754_finite false my ey))
  = true.
Proof.
  intros Hx Hy. apply bounded_emin in Hx, Hy.
  unfold SFadd. cbn [cond_Zopp Z.add binary_normalize].
  apply binary_round_pos. lia.
Qed.

End Positive.

(** *** The truncated true division *)

(** [int(a / b)] is the integer quotient of [a] and [b] as long as both
    are below [2^53]: the true division rounds the quotient to the nearest
    binary64 number, and that rounding does not reach the next integer. *)
Lemma int_true_div_exact (a b : Z) :
  0 <= a < 2 ^ 53 -> 0 < b < 2 ^ 53 ->
  Py.int_true_div a b = Py.Returned (Py.int_div a b).
Proof.
  intros Ha Hb. unfold Py.int_true_div, Py.true_div, Py.int_div.
  rewrite Z.quot_div_nonneg by lia.
  destruct b as [|pb|pb]; try lia. destruct a as [|pa|pa]; try lia.
  - reflexivity.
  - cbv beta iota delta [Z.ltb Z.compare Z.abs Z.to_pos].
    destruct (SFdiv_int_quotient pa pb) as (m & e & Heq & Htrunc); try lia.
    rewrite Heq. cbn [Py.int_of_spec]. now rewrite Htrunc.
Qed.

(** A comprehension none of whose elements raises is a [map]. *)
Lemma comprehension_map {A B : Type} (f : A -> Py.Outcome B) (g : A -> B)
    (l : list A) :
  (forall x, In x l -> f x = Py.Returned (g x)) ->
  Py.comprehension f l = Py.Returned (map g l).
Proof.
  induction l as [|x rest IH]; intros Hf; cbn [Py.comprehension map].
  - reflexivity.
  - rewrite (Hf x) by now left. rewrite IH; [reflexivity|].
    intros y Hy. apply Hf. now right.
Qed.

(** [Py.int] reads the value of its argument. *)
Lemma int_of_spec_Prim2SF (x : float) : Py.int x = Py.int_of_spec (Prim2SF x).
Proof. reflexivity. Qed.


(** ** The order of binary64 numbers *)

(** [<] on specified floats is transitive: it compares signs, then
    exponents, then mantissas. *)
Lemma SFltb_trans (x y z : spec_float) :
  SFltb x y = true -> SFltb y z = true -> SFltb x z = true.
Proof.
  unfold SFltb, SFcompare.
  destruct x as [sx|sx| |sx mx ex], y as [sy|sy| |sy my ey],
           z as [sz|sz| |sz mz ez];
    repeat match goal with s : bool |- _ => destruct s end;
    try discriminate; try reflexivity;
    rewrite ?Pos.compare_cont_spec; simpl;
    destruct (Z.compare_spec ex ey), (Z.compare_spec ey ez),
             (Z.compare_spec ex ez);
    try discriminate; try reflexivity; try lia; subst;
    destruct (Pos.compare_spec mx my), (Pos.compare_spec my mz),
             (Pos.compare_spec mx mz);
    simpl; try discriminate; try reflexivity; try lia.
Qed.

Lemma ltb_trans (x y z : float) :
  PrimFloat.ltb x y = true -> PrimFloat.ltb y z = true ->
  PrimFloat.ltb x z = true.
Proof. rewrite !ltb_spec. apply SFltb_trans. Qed.

(** No float lies below [lo] and above [hi] when [hi] is not below [lo]. *)
Lemma lt_gt_exclusive (lo hi x : float) :
  PrimFloat.ltb hi lo = false ->
  Py.lt x lo = true -> Py.gt x hi = true -> False.
Proof.
  unfold Py.lt, Py.gt. intros Hc Hlo Hhi.
  rewrite (ltb_trans hi x lo Hhi Hlo) in Hc. discriminate.
Qed.

(** ** The audio classifier *)

Section Classifier.

Import LocalAudioAnalyzer.

Lemma speech_music_exclusive (zcr_mean sc_std : float) :
  speech_condition zcr_mean sc_std = true ->
  music_condition zcr_mean sc_std = true -> False.
Proof.
  unfold speech_condition, music_condition.
  rewrite !andb_true_iff. intros [Hs _] [Hm _].
  exact (lt_gt_exclusive 0.08 0.1 zcr_mean eq_refl Hm Hs).
Qed.

(** C2.  The audio type is "speech" exactly when the zero-crossing mean is
    above 0.1 and the spectral-centroid deviation below 1000; otherwise
    "music" exactly when the mean is below 0.08 and the deviation above
    1000 (the two conditions exclude each other); otherwise "mixed".  The
    boundary input (0.09, 500) is "mixed". *)
Theorem detect_audio_type_decision (zcr_mean sc_std : float) :
  (_detect_audio_type zcr_mean sc_std = "speech"%string
     <-> speech_condition zcr_mean sc_std = true)
  /\ (_detect_audio_type zcr_mean sc_std = "music"%string
     <-> music_condition zcr_mean sc_std = true)
  /\ (_detect_audio_type zcr_mean sc_std = "mixed"%string
     <-> speech_condition zcr_mean sc_std = false
         /\ music_condition zcr_mean sc_std = false)
  /\ _detect_audio_type 0.09 500 = "mixed"%string.
Proof.
  pose proof (speech_music_exclusive zcr_mean sc_std) as Hex.
  unfold _detect_audio_type.
  fold (speech_condition zcr_mean sc_std) (music_condition zcr_mean sc_std).
  destruct (speech_condition zcr_mean sc_std) eqn:Hs,
           (music_condition zcr_mean sc_std) eqn:Hm;
    repeat split; intros; try discriminate; try reflexivity;
    try (exfalso; apply Hex; reflexivity);
    match goal with H : _ /\ _ |- _ => destruct H; discriminate end.
Qed.

Lemma positive_negative_exclusive (spectral_centroid energy : float) :
  positive_condition spectral_centroid energy = true ->
  negative_condition spectral_centroid energy = true -> False.
Proof.
  unfold positive_condition, negative_condition.
  rewrite !andb_true_iff. intros [Hp _] [Hn _].
  exact (lt_gt_exclusive 1500 2000 spectral_centroid eq_refl Hn Hp).
Qed.

Lemma high_low_exclusive (tempo energy : float) :
  high_condition tempo energy = true ->
  low_condition tempo energy = true -> False.
Proof.
  unfold high_condition, low_condition.
  rewrite orb_true_iff, andb_true_iff. intros [Ht | He] [Lt Le].
  - exact (lt_gt_exclusive 90 120 tempo eq_refl Lt Ht).
  - exact (lt_gt_exclusive 0.08 0.15 energy eq_refl Le He).
Qed.

Lemma valence_of_decision (spectral_centroid energy : float) :
  (valence_of spectral_centroid energy = "positive"%string
     <-> positive_condition spectral_centroid energy = true)
  /\ (valence_of spectral_centroid energy = "negative"%string
     <-> negative_condition spectral_centroid energy = true)
  /\ (valence_of spectral_centroid energy = "neutral"%string
     <-> positive_condition spectral_centroid energy = false
         /\ negative_condition spectral_centroid energy = false).
Proof.
  pose proof (positive_negative_exclusive spectral_centroid energy) as Hex.
  unfold valence_of.
  fold (positive_condition spectral_centroid energy)
       (negative_condition spectral_centroid energy).
  destruct (positive_condition spectral_centroid energy),
           (negative_condition spectral_centroid energy);
    repeat split; intros; try discriminate; try reflexivity;
    try (exfalso; apply Hex; reflexivity);
    match goal with H : _ /\ _ |- _ => destruct H; discriminate end.
Qed.

Lemma arousal_of_decision (tempo energy : float) :
  (arousal_of tempo energy = "high"%string
     <-> high_condition tempo energy = true)
  /\ (arousal_of tempo energy = "low"%string
     <-> low_condition tempo energy = true)
  /\ (arousal_of tempo energy = "medium"%string
     <-> high_condition tempo energy = false
         /\ low_condition tempo energy = false).
Proof.
  pose proof (high_low_exclusive tempo energy) as Hex.
  unfold arousal_of.
  fold (high_condition tempo energy) (low_condition tempo energy).
  destruct (high_condition tempo energy), (low_condition tempo energy);
    repeat split; intros; try discriminate; try reflexivity;
    try (exfalso; apply Hex; reflexivity);
    match goal with H : _ /\ _ |- _ => destruct H; discriminate end.
Qed.

Lemma valence_of_range (spectral_centroid energy : float) :
  In (valence_of spectral_centroid energy)
     ["positive"; "negative"; "neutral"]%string.
Proof.
  unfold valence_of.
  destruct (_ && _); [now left|]. destruct (_ && _); simpl; auto.
Qed.

Lemma arousal_of_range (tempo energy : float) :
  In (arousal_of tempo energy) ["high"; "low"; "medium"]%string.
Proof.
  unfold arousal_of.
  destruct (_ || _); [now left|]. destruct (_ && _); simpl; auto.
Qed.

(** The table has a label for each of the nine pairs. *)
Lemma mood_map_total (v a : string) :
  In v ["positive"; "negative"; "neutral"]%string ->
  In a ["high"; "low"; "medium"]%string ->
  exists label, mood_map !! (v, a) = Some label /\ In label mood_labels.
Proof.
  simpl. intros Hv Ha.
  repeat match goal with
         | H : _ \/ _ |- _ => destruct H as [H | H]
         | H : False |- _ => destruct H
         end; subst; eexists; (split; [vm_compute; reflexivity|]);
    simpl; tauto.
Qed.

Lemma Unknown_is_no_label : ~ In "Unknown"%string mood_labels.
Proof. simpl. intuition discriminate. Qed.

(** C3.  Valence is "positive" iff the centroid is above 2000 and the
    energy above 0.1, "negative" iff the centroid is below 1500 and the
    energy below 0.08, else "neutral"; arousal is "high" iff the tempo is
    above 120 or the energy above 0.15, "low" iff the tempo is below 90 and
    the energy below 0.08, else "medium"; and the mood is always one of the
    nine labels of the table, never "Unknown". *)
Theorem analyze_mood_decision (features : Features) :
  let m := _analyze_mood features in
  let spectral_centroid := spectral_centroid_mean features in
  let energy := rms_energy_mean features in
  let tempo := tempo features in
  (valence m = "positive"%string
     <-> Py.gt spectral_centroid 2000 = true /\ Py.gt energy 0.1 = true)
  /\ (valence m = "negative"%string
     <-> Py.lt spectral_centroid 1500 = true /\ Py.lt energy 0.08 = true)
  /\ (valence m = "neutral"%string
     <-> ~ (Py.gt spectral_centroid 2000 = true /\ Py.gt energy 0.1 = true)
         /\ ~ (Py.lt spectral_centroid 1500 = true /\ Py.lt energy 0.08 = true))
  /\ (arousal m = "high"%string
     <-> Py.gt tempo 120 = true \/ Py.gt energy 0.15 = true)
  /\ (arousal m = "low"%string
     <-> Py.lt tempo 90 = true /\ Py.lt energy 0.08 = true)
  /\ (arousal m = "medium"%string
     <-> ~ (Py.gt tempo 120 = true \/ Py.gt energy 0.15 = true)
         /\ ~ (Py.lt tempo 90 = true /\ Py.lt energy 0.08 = true))
  /\ In (mood m) mood_labels
  /\ mood m <> "Unknown"%string.
Proof.
  intros m spectral_centroid energy tempo.
  assert (Hmood : In (mood m) mood_labels).
  { destruct (mood_map_total _ _
                (valence_of_range spectral_centroid energy)
                (arousal_of_range tempo energy)) as (label & Hl & Hin).
    unfold m, _analyze_mood; simpl.
    fold spectral_centroid energy tempo. now rewrite Hl. }
  assert (Hunknown : mood m <> "Unknown"%string).
  { intros Hu. apply Unknown_is_no_label. now rewrite <- Hu. }
  change (valence m) with (valence_of spectral_centroid energy).
  change (arousal m) with (arousal_of tempo energy).
  destruct (valence_of_decision spectral_centroid energy) as (Vp & Vn & Vz).
  destruct (arousal_of_decision tempo energy) as (Ah & Al & Am).
  unfold positive_condition, negative_condition in Vp, Vn, Vz.
  unfold high_condition, low_condition in Ah, Al, Am.
  rewrite Vp, Vn, Vz, Ah, Al, Am.
  clear Vp Vn Vz Ah Al Am.
  revert Hmood Hunknown. generalize (mood m). intros label Hmood Hunknown.
  destruct (Py.gt spectral_centroid 2000), (Py.gt energy 0.1),
           (Py.lt spectral_centroid 1500), (Py.lt energy 0.08),
           (Py.gt tempo 120), (Py.gt energy 0.15), (Py.lt tempo 90);
    simpl; intuition congruence.
Qed.

(** The example of the specification: a fast, loud and bright track. *)
Example analyze_mood_happy_energetic :
  let m := _analyze_mood
             {| tempo := 130; beats_detected := 0;
                spectral_centroid_mean := 2500; spectral_centroid_std := 1200;
                spectral_rolloff_mean := 0; spectral_bandwidth_mean := 0;
                rms_energy_mean := 0.2; rms_energy_std := 0;
                zero_crossing_rate_mean := 0.05; mfcc_means := [] |} in
  (valence m, arousal m, mood m)
  = ("positive", "high", "Happy/Energetic")%string.
Proof. vm_compute. reflexivity. Qed.

(** The guard of the instrumentalness is taken exactly on silence: the
    rounded sum of two finite energies that are not negative is positive
    unless both are zero. *)
Lemma gt_zero_add (harmonic_energy percussive_energy : Np.float32) :
  Np.finite_nonneg harmonic_energy = true ->
  Np.finite_nonneg percussive_energy = true ->
  Np.gt_zero (Np.add harmonic_energy percussive_energy)
  = negb (Np.is_zero harmonic_energy && Np.is_zero percussive_energy).
Proof.
  unfold Np.finite_nonneg, Np.gt_zero, Np.add.
  destruct harmonic_energy as [sh|sh| |[|] mh eh];
    destruct percussive_energy as [sp|sp| |[|] mp ep];
    try discriminate; intros Hh Hp.
  - destruct sh, sp; reflexivity.
  - reflexivity.
  - reflexivity.
  - cbn [Np.is_zero andb negb].
    apply (SFadd_pos Np.prec32 Np.emax32); [reflexivity | assumption..].
Qed.

(** C9.  For two finite energies that are not negative, under either
    promotion rule of NumPy, the instrumentalness that the code computes is
    the one that the specification defines.  On silence (both energies
    zero) it is exactly 0.5, which is no NaN; in every other case the
    rounded total energy is positive and the instrumentalness is the
    harmonic energy divided by the total energy plus 1e-10. *)
Theorem instrumentalness_silence_guard
    (promotion : Np.Promotion) (tempo : float) (beats : Z) (key : nat)
    (beat_strength_mean : float)
    (harmonic_energy percussive_energy : Np.float32) :
  Np.finite_nonneg harmonic_energy = true ->
  Np.finite_nonneg percussive_energy = true ->
  let result :=
    instrumentalness
      (_analyze_music promotion tempo beats key harmonic_energy
         percussive_energy beat_strength_mean) in
  result
  = InstrumentalnessSpec.instrumentalness promotion harmonic_energy
      percussive_energy
  /\ (Np.is_zero harmonic_energy = true ->
      Np.is_zero percussive_energy = true ->
      result = 0.5%float /\ PrimFloat.is_nan result = false)
  /\ (Np.is_zero harmonic_energy && Np.is_zero percussive_energy = false ->
      Np.gt_zero (Np.add harmonic_energy percussive_energy) = true
      /\ result
         = Np.float_of_scalar
             (Np.div_scalar harmonic_energy
                (Np.add_python_float promotion
                   (Np.add harmonic_energy percussive_energy) 1e-10))).
Proof.
  intros Hh Hp result. subst result.
  cbn [instrumentalness _analyze_music].
  unfold instrumentalness_of, InstrumentalnessSpec.instrumentalness.
  rewrite (gt_zero_add _ _ Hh Hp).
  destruct (Np.is_zero harmonic_energy && Np.is_zero percussive_energy) eqn:Hz;
    cbn [negb].
  - split; [reflexivity|]. split; [|discriminate].
    intros _ _. split; reflexivity.
  - split; [reflexivity|]. split.
    + intros H1 H2. rewrite H1, H2 in Hz. discriminate.
    + intros _. split; reflexivity.
Qed.

Lemma instrumentalness_silence_guard_witness :
  Np.gt_zero (Np.add (Np.of_float 3) (Np.of_float 1)) = true
  /\ instrumentalness
       (LocalAudioAnalyzer._analyze_music Np.Weak 120 10 0 (Np.of_float 3)
          (Np.of_float 1) 0.5)
     = 0.75%float.
Proof.
  exact (proj2 (proj2 (instrumentalness_silence_guard Np.Weak 120 10 0 0.5
                         (Np.of_float 3) (Np.of_float 1) eq_refl eq_refl))
           eq_refl).
Defined.

(** The two promotion rules on the energies 3 and 1: in single precision
    the 1e-10 is absorbed by the total energy, in double precision it is
    not; and the harmonic ratio of the energy 3. *)
Example instrumentalness_by_promotion :
  instrumentalness_of Np.Weak (Np.of_float 3) (Np.of_float 1) = 0.75%float
  /\ instrumentalness_of Np.Legacy (Np.of_float 3) (Np.of_float 1)
     = (3 / (3 + 1 + 1e-10))%float
  /\ harmonic_ratio
       (_analyze_music Np.Weak 120 10 0 (Np.of_float 3) (Np.of_float 1) 0.5)
     = 0.9999997019767761%float
  /\ harmonic_ratio
       (_analyze_music Np.Legacy 120 10 0 (Np.of_float 3) (Np.of_float 1) 0.5)
     = (3 / (3 + 1e-6))%float.
Proof. vm_compute. repeat split. Qed.

End Classifier.

(** ** The frame sampler *)

Section Sampler.

(** A strictly increasing function yields a strictly increasing list. *)
Lemma StronglySorted_map_seq (f : nat -> Z) (start len : nat) :
  (forall i j : nat, (start <= i < j)%nat -> (j < start + len)%nat -> f i < f j) ->
  StronglySorted Z.lt (map f (seq start len)).
Proof.
  revert start. induction len as [|len IH]; intros start Hf; simpl.
  - constructor.
  - constructor.
    + apply IH. intros i j Hij Hj. apply Hf; lia.
    + apply List.Forall_forall. intros y Hy.
      apply in_map_iff in Hy. destruct Hy as (j & <- & Hj).
      apply in_seq in Hj. apply Hf; lia.
Qed.

Lemma StronglySorted_lt_NoDup (l : list Z) :
  StronglySorted Z.lt l -> List.NoDup l.
Proof.
  induction 1 as [|x l Hs IH Hall]; constructor; auto.
  intros Hin. rewrite List.Forall_forall in Hall. apply Hall in Hin. lia.
Qed.

Lemma range2_length (a b : Z) :
  length (Py.range2 a b) = Z.to_nat (b - a).
Proof. unfold Py.range2. now rewrite length_map, length_seq. Qed.

Lemma range2_In (a b x : Z) : In x (Py.range2 a b) <-> a <= x < b.
Proof.
  unfold Py.range2. rewrite in_map_iff. split.
  - intros (k & <- & Hk). apply in_seq in Hk. lia.
  - intros Hx. exists (Z.to_nat (x - a)). split; [lia|].
    apply in_seq. lia.
Qed.

Lemma range2_sorted (a b : Z) : StronglySorted Z.lt (Py.range2 a b).
Proof.
  unfold Py.range2. apply StronglySorted_map_seq. intros i j Hij _. lia.
Qed.

(** The offset of the [i]-th of [n] samples over [t >= n] frames. *)
Lemma int_div_offset_bounds (i t n : Z) :
  0 <= i < n -> 0 < t -> 0 <= Py.int_div (i * t) n < t.
Proof.
  intros Hi Ht. unfold Py.int_div.
  rewrite Z.quot_div_nonneg by nia. split.
  - apply Z.div_pos; nia.
  - apply Z.div_lt_upper_bound; nia.
Qed.

Lemma int_div_offset_increasing (i j t n : Z) :
  0 <= i < j -> 0 < n <= t ->
  Py.int_div (i * t) n < Py.int_div (j * t) n.
Proof.
  intros Hij Hn. unfold Py.int_div.
  rewrite !Z.quot_div_nonneg by nia.
  apply Z.lt_le_trans with ((i * t + 1 * n) / n).
  - rewrite Z.div_add by lia. lia.
  - apply Z.div_le_mono; nia.
Qed.

Import MultimodalAnalysisService.

(** The indices of a non-empty range [[start_frame, end_frame)]: as many
    as the smaller of the request and the range, inside the range, strictly
    increasing. *)
Lemma frame_indices_coverage (start_frame end_frame num_frames : Z) :
  start_frame < end_frame -> 1 <= num_frames ->
  let l := frame_indices start_frame end_frame
             (end_frame - start_frame) num_frames in
  Z.of_nat (length l) = Z.min num_frames (end_frame - start_frame)
  /\ Forall (fun x => start_frame <= x < end_frame) l
  /\ StronglySorted Z.lt l.
Proof.
  intros Hrange Hn l. subst l. unfold frame_indices.
  destruct (Z.ltb_spec (end_frame - start_frame) num_frames) as [Hlt | Hge].
  - rewrite range2_length. repeat split; [lia | | apply range2_sorted].
    apply List.Forall_forall. intros x Hx. now apply range2_In.
  - unfold Py.range, Py.range2. rewrite map_map, length_map, length_seq.
    repeat split; [lia | |].
    + apply List.Forall_forall. intros x Hx.
      apply in_map_iff in Hx. destruct Hx as (k & <- & Hk).
      apply in_seq in Hk.
      pose proof (int_div_offset_bounds (0 + Z.of_nat k)
                    (end_frame - start_frame) num_frames). lia.
    + apply StronglySorted_map_seq. intros i j Hij Hj.
      pose proof (int_div_offset_increasing (0 + Z.of_nat i) (0 + Z.of_nat j)
                    (end_frame - start_frame) num_frames). lia.
Qed.

(** The boundaries that [timeframe] returns delimit a non-empty range of
    the video. *)
Lemma timeframe_range (total_frames : Z) (fps : float)
    (start_time end_time : option float) (start_frame end_frame tf : Z) :
  1 <= total_frames ->
  timeframe total_frames fps start_time end_time
    = Py.Returned (start_frame, end_frame, tf) ->
  tf = end_frame - start_frame
  /\ 0 <= start_frame < end_frame /\ end_frame <= total_frames.
Proof.
  intros Htotal. unfold timeframe.
  destruct start_time as [st|], end_time as [et|];
    try (intros [= <- <- <-]; lia).
  destruct (Py.int (st * fps)) as [a|]; [|discriminate].
  destruct (Py.int (et * fps)) as [b|]; [|discriminate].
  destruct (PrimFloat.eqb fps 0); [discriminate|].
  intros [= <- <- <-]. lia.
Qed.

(** Below [2^53] the indices that the true divisions compute are the
    integer quotients of [frame_indices]. *)
Lemma frame_indices_true_div_exact
    (start_frame end_frame timeframe_frames num_frames : Z) :
  0 <= timeframe_frames -> num_frames * timeframe_frames < 2 ^ 53 ->
  frame_indices_true_div start_frame end_frame timeframe_frames num_frames
  = Py.Returned
      (frame_indices start_frame end_frame timeframe_frames num_frames).
Proof.
  intros Htf Hbound. unfold frame_indices_true_div, frame_indices.
  destruct (Z.ltb_spec timeframe_frames num_frames) as [Hlt | Hge];
    [reflexivity|].
  apply comprehension_map. intros i Hi. apply range2_In in Hi.
  rewrite int_true_div_exact; [reflexivity | nia | nia].
Qed.

(** Frame sampler coverage for the sampler of the enhanced pipeline: for a
    video of at least one frame and a request of at least one frame, with
    or without a window, and as long as [num_frames * total_frames] is
    below [2^53], the indices that the true divisions of the code compute
    are [min(num_frames, range size)] many, lie in the resolved range, and
    are strictly increasing without duplicates. *)
Theorem sample_coverage (total_frames : Z) (fps : float) (num_frames : Z)
    (start_time end_time : option float) (start_frame end_frame tf : Z) :
  1 <= total_frames -> 1 <= num_frames ->
  num_frames * total_frames < 2 ^ 53 ->
  timeframe total_frames fps start_time end_time
    = Py.Returned (start_frame, end_frame, tf) ->
  exists l,
    frame_indices_true_div start_frame end_frame tf num_frames = Py.Returned l
    /\ sample total_frames fps num_frames start_time end_time = Py.Returned l
    /\ Z.of_nat (length l) = Z.min num_frames (end_frame - start_frame)
    /\ Forall (fun x => start_frame <= x < end_frame) l
    /\ StronglySorted Z.lt l
    /\ List.NoDup l.
Proof.
  intros Htotal Hn Hbound Htf.
  destruct (timeframe_range _ _ _ _ _ _ _ Htotal Htf) as (-> & Hs & He).
  destruct (frame_indices_coverage start_frame end_frame num_frames)
    as (Hlen & Hin & Hsorted); [lia | lia |].
  eexists. split.
  { apply frame_indices_true_div_exact; [lia | nia]. }
  unfold sample. rewrite Htf. split; [reflexivity|].
  repeat split; auto using StronglySorted_lt_NoDup.
Qed.

Lemma sample_coverage_witness :
  exists l,
    frame_indices_true_div 60 63 3 5 = Py.Returned l
    /\ sample 300 30 5 (Some 2%float) (Some 2.1%float) = Py.Returned l
    /\ Z.of_nat (length l) = Z.min 5 (63 - 60)
    /\ Forall (fun x => 60 <= x < 63) l
    /\ StronglySorted Z.lt l
    /\ List.NoDup l.
Proof.
  apply (sample_coverage 300 30 5 (Some 2%float) (Some 2.1%float) 60 63 3);
    [lia | lia | reflexivity | vm_compute; reflexivity].
Defined.

(** Without a window the sampler always returns. *)
Lemma timeframe_whole_video (total_frames : Z) (fps : float) :
  timeframe total_frames fps None None
  = Py.Returned (0, total_frames, total_frames).
Proof. reflexivity. Qed.

(** The end-to-end scenario of the specification: 300 frames at 30 frames
    per second, five samples. *)
Example sample_300_frames :
  sample 300 30 5 None None = Py.Returned [0; 60; 120; 180; 240]
  /\ map (timestamp_of 30) [0; 60; 120; 180; 240]
     = [0; 2; 4; 6; 8]%float.
Proof. split; vm_compute; reflexivity. Qed.

(** [int_true_div_exact] once more, by computation: on every range of up
    to 300 frames and every request of up to 20 frames the true division
    followed by truncation returns the integer quotient. *)
Lemma int_true_div_agrees : int_true_div_agrees_upto 300 = true.
Proof. vm_compute. reflexivity. Qed.

(** C1.  The sampler of the basic pipeline has no branch for a video
    shorter than the request: on a video of three frames and the default
    request of five it returns five indices, two of them twice, where the
    claim asks for [min(5, 3) = 3] distinct ones; and the frames extracted
    are those five. *)
Theorem extract_frames_repeats_indices :
  VideoService.frame_indices_of "uniform" 3 5 = [0; 0; 1; 1; 2]
  /\ Z.of_nat (length (VideoService.frame_indices_of "uniform" 3 5))
     <> Z.min 5 (3 - 0)
  /\ ~ List.NoDup (VideoService.frame_indices_of "uniform" 3 5)
  /\ ~ StronglySorted Z.lt (VideoService.frame_indices_of "uniform" 3 5)
  /\ map VideoService.frame_number
       (fst (VideoService._extract_frames demo_cap_read 5
               demo_short_video_info "uniform" tt))
     = [0; 0; 1; 1; 2].
Proof.
  assert (E : VideoService.frame_indices_of "uniform" 3 5 = [0; 0; 1; 1; 2])
    by reflexivity.
  rewrite E. repeat split.
  - simpl. lia.
  - intros H. inversion H as [|x l Hnin _]; subst. apply Hnin. now left.
  - intros H. inversion H as [|x l _ Hall]; subst.
    inversion Hall; subst. lia.
Qed.

(** C7, as the claim states it, fails: the code truncates [time * fps]
    where the claim rounds it, and it clamps the start into
    [[0, total_frames - 1]] where the claim clamps it into
    [[0, total_frames]]. *)
Lemma timeframe_truncates_and_clamps :
  (timeframe 10 1 (Some 1.75%float) (Some 5%float) = Py.Returned (1, 5, 4)
   /\ SamplerSpec.resolve_window 10 1 1.75 5 = Some (2, 5))
  /\ (timeframe 10 1 (Some 100%float) (Some 200%float) = Py.Returned (9, 10, 1)
      /\ SamplerSpec.resolve_window 10 1 100 200 = Some (10, 11)).
Proof. repeat split; vm_compute; reflexivity. Qed.

(** C7, amended.  With a window, each time becomes [int(time * fps)]
    (truncation); the start is clamped into [[0, total_frames - 1]] and the
    end is [max(start_frame + 1, min(end_frame, total_frames))].  On a video
    of at least one frame the range is therefore not empty and lies in the
    video, and a request of at least one frame yields at least one index,
    whatever the window. *)
Theorem timeframe_window (total_frames : Z) (fps start_time end_time : float)
    (num_frames a b : Z) :
  1 <= total_frames -> 1 <= num_frames ->
  PrimFloat.eqb fps 0 = false ->
  Py.int (start_time * fps) = Py.Returned a ->
  Py.int (end_time * fps) = Py.Returned b ->
  let start_frame := Z.max 0 (Z.min a (total_frames - 1)) in
  let end_frame := Z.max (start_frame + 1) (Z.min b total_frames) in
  timeframe total_frames fps (Some start_time) (Some end_time)
    = Py.Returned (start_frame, end_frame, end_frame - start_frame)
  /\ 0 <= start_frame < end_frame /\ end_frame <= total_frames
  /\ exists l,
       sample total_frames fps num_frames (Some start_time) (Some end_time)
         = Py.Returned l
       /\ 1 <= Z.of_nat (length l).
Proof.
  intros Htotal Hn Hfps Ha Hb start_frame end_frame.
  assert (Htf : timeframe total_frames fps (Some start_time) (Some end_time)
                = Py.Returned (start_frame, end_frame, end_frame - start_frame)).
  { unfold timeframe. now rewrite Ha, Hb, Hfps. }
  split; [exact Htf|].
  destruct (timeframe_range _ _ _ _ _ _ _ Htotal Htf) as (_ & Hs & He).
  repeat split; try lia.
  destruct (frame_indices_coverage start_frame end_frame num_frames)
    as (Hlen & _); [lia | lia |].
  eexists. unfold sample. rewrite Htf. split; [reflexivity|]. lia.
Qed.

(** A degenerate window (it ends before it starts) still yields a frame. *)
Lemma timeframe_window_witness :
  timeframe 300 30 (Some 5%float) (Some 2%float) = Py.Returned (150, 151, 1)
  /\ 0 <= 150 < 151 /\ 151 <= 300
  /\ exists l,
       sample 300 30 5 (Some 5%float) (Some 2%float) = Py.Returned l
       /\ 1 <= Z.of_nat (length l).
Proof.
  apply (timeframe_window 300 30 5 2 5 150 60);
    [lia | lia | vm_compute; reflexivity ..].
Defined.

End Sampler.

(** ** The batch endpoint *)

Section BatchEndpoint.

Import Batch.

Context {World Result : Type}.
Variable is_ready : World -> bool.
Variable analyze_image : UploadFile -> World -> Py.Outcome Result * World.
Variable analyze_video : UploadFile -> World -> Py.Outcome Result * World.
Variable transcribe_audio : UploadFile -> World -> Py.Outcome Result * World.

Abbreviation analyze_file := (analyze_file analyze_image analyze_video transcribe_audio).
Abbreviation process_file := (process_file analyze_image analyze_video transcribe_audio).
Abbreviation process_files := (process_files analyze_image analyze_video transcribe_audio).
Abbreviation analyze_batch :=
  (analyze_batch is_ready analyze_image analyze_video transcribe_audio).

(** The loop only appends to the results it was given. *)
Lemma process_files_acc (files : list UploadFile) :
  forall (i : Z) (results : list (ItemResult Result)) (w : World),
    process_files i files results w
    = (results ++ fst (process_files i files [] w),
       snd (process_files i files [] w)).
Proof.
  induction files as [|file rest IH]; intros i results w; simpl.
  - now rewrite app_nil_r.
  - destruct (process_file i file w) as [entry w1].
    rewrite (IH (i + 1) (results ++ [entry])), (IH (i + 1) ([] ++ [entry])).
    simpl. now rewrite <- app_assoc.
Qed.

(** One iteration, then the rest. *)
Lemma process_files_cons (i : Z) (file : UploadFile) (rest : list UploadFile)
    (w : World) :
  process_files i (file :: rest) [] w
  = (fst (process_file i file w)
       :: fst (process_files (i + 1) rest [] (snd (process_file i file w))),
     snd (process_files (i + 1) rest [] (snd (process_file i file w)))).
Proof.
  simpl. destruct (process_file i file w) as [entry w1].
  now rewrite process_files_acc.
Qed.

(** The first files, then the others from the state they leave. *)
Lemma process_files_app (pre post : list UploadFile) :
  forall (i : Z) (w : World),
    process_files i (pre ++ post) [] w
    = (fst (process_files i pre [] w)
         ++ fst (process_files (i + len pre) post []
                   (snd (process_files i pre [] w))),
       snd (process_files (i + len pre) post []
              (snd (process_files i pre [] w)))).
Proof.
  unfold len.
  induction pre as [|file pre IH]; intros i w.
  - simpl. rewrite Z.add_0_r. now destruct (process_files i post [] w).
  - rewrite <- app_comm_cons, !process_files_cons, IH. simpl fst; simpl snd.
    replace (i + 1 + Z.of_nat (length pre))
      with (i + Z.of_nat (length (file :: pre))) by (simpl length; lia).
    reflexivity.
Qed.

(** Every file contributes one result, which carries its index and its
    name. *)
Lemma process_files_order (files : list UploadFile) :
  forall (i : Z) (w : World),
    let results := fst (process_files i files [] w) in
    length results = length files
    /\ map file_index results = Py.range2 i (i + len files)
    /\ map item_filename results = map filename files.
Proof.
  unfold len.
  induction files as [|file rest IH]; intros i w.
  - simpl. unfold Py.range2. now rewrite Z.add_0_r, Z.sub_diag.
  - rewrite process_files_cons. cbn zeta. simpl fst.
    destruct (IH (i + 1) (snd (process_file i file w))) as (Hlen & Hidx & Hname).
    cbn zeta in Hlen, Hidx, Hname.
    simpl length. simpl map. rewrite Hlen, Hidx, Hname.
    repeat split.
    + unfold Py.range2.
      replace (i + Z.of_nat (S (length rest)) - i)
        with (Z.of_nat (S (length rest))) by lia.
      replace (i + 1 + Z.of_nat (length rest) - (i + 1))
        with (Z.of_nat (length rest)) by lia.
      rewrite !Nat2Z.id. simpl seq. simpl map.
      f_equal.
      * unfold process_file. destruct (analyze_file file w) as [[[ft r]|e] w1];
          simpl; lia.
      * rewrite <- seq_shift, map_map. apply map_ext. intros k. lia.
    + f_equal. unfold process_file.
      destruct (analyze_file file w) as [[[ft r]|e] w1]; reflexivity.
Qed.

Lemma filter_success_partition (results : list (ItemResult Result)) :
  len (filter (fun r => success r = true) results)
  + len (filter (fun r => success r = false) results)
  = len results.
Proof.
  unfold len. induction results as [|r results IH]; [reflexivity|].
  rewrite !filter_cons. destruct r; simpl success;
    repeat case_decide; try congruence; simpl length; lia.
Qed.

(** What a ready endpoint answers to a batch within the cap. *)
Lemma analyze_batch_proceeds (files : list UploadFile) (w : World) :
  is_ready w = true -> len files <= 10 ->
  analyze_batch files w
  = (Response
       {| results := fst (process_files 0 files [] w);
          total_files := len files;
          successful :=
            len (filter (fun r => success r = true)
                   (fst (process_files 0 files [] w)));
          failed :=
            len (filter (fun r => success r = false)
                   (fst (process_files 0 files [] w))) |},
     snd (process_files 0 files [] w)).
Proof.
  intros Hready Hcap. unfold Batch.analyze_batch. rewrite Hready. simpl negb.
  destruct (Z.ltb_spec 10 (len files)) as [Hgt|_]; [lia|].
  now destruct (process_files 0 files [] w).
Qed.

(** Failure isolation in the batch endpoint.  When the analysis of one
    file of a batch raises, the exception is caught and becomes the failure
    record of that file, with the file's index and name and the string of
    the exception as its error; the files before it keep their results and
    every file after it is still processed, from the state the failing
    call left. *)
Theorem analyze_batch_failure_isolation
    (pre : list UploadFile) (file : UploadFile) (post : list UploadFile)
    (w : World) (str_e : string) :
  let results_pre := fst (process_files 0 pre [] w) in
  let w1 := snd (process_files 0 pre [] w) in
  let w2 := snd (analyze_file file w1) in
  let results_post := fst (process_files (len pre + 1) post [] w2) in
  is_ready w = true ->
  len (pre ++ file :: post) <= 10 ->
  fst (analyze_file file w1) = Py.Raised str_e ->
  exists data w3,
    analyze_batch (pre ++ file :: post) w = (Response data, w3)
    /\ results data
       = results_pre ++ Failed (len pre) (filename file) str_e :: results_post
    /\ length results_pre = length pre
    /\ length results_post = length post.
Proof.
  intros results_pre w1 w2 results_post Hready Hcap Hraise.
  rewrite (analyze_batch_proceeds _ _ Hready Hcap).
  do 2 eexists. split; [reflexivity|]. simpl results.
  rewrite process_files_app, process_files_cons. simpl fst. simpl snd.
  fold w1. unfold Batch.process_file.
  destruct (analyze_file file w1) as [outcome w2'] eqn:Hfile.
  simpl in Hraise. subst outcome. subst w2. simpl fst. simpl snd.
  rewrite Z.add_0_l.
  repeat split.
  - apply (process_files_order pre 0 w).
  - apply (process_files_order post (len pre + 1) w2').
Qed.

(** C5.  A completed batch has one result per file, in the order of the
    files (the [k]-th result carries index [k] and the name of the [k]-th
    file), and its counts add up: successful + failed = total = number of
    results. *)
Theorem analyze_batch_result_invariant
    (files : list UploadFile) (w w' : World) (data : BatchData Result) :
  analyze_batch files w = (Response data, w') ->
  length (results data) = length files
  /\ map file_index (results data) = Py.range (len files)
  /\ map item_filename (results data) = map filename files
  /\ successful data + failed data = total_files data
  /\ total_files data = len (results data).
Proof.
  unfold Batch.analyze_batch.
  destruct (is_ready w); simpl negb; cbv iota; [|discriminate].
  destruct (10 <? len files); [discriminate|].
  destruct (process_files 0 files [] w) as [rs w1] eqn:Hloop.
  intros [= <- <-]. simpl.
  destruct (process_files_order files 0 w) as (Hlen & Hidx & Hname).
  rewrite Hloop in Hlen, Hidx, Hname. simpl in Hlen, Hidx, Hname.
  rewrite filter_success_partition. unfold len, Py.range.
  rewrite Hlen. auto.
Qed.

(** C8, amended.  A batch of more than ten files is rejected before any
    file is analysed, the world being left as it was; a batch of at most
    ten files is processed when the models are loaded; when they are not,
    the request is rejected, whatever its size. *)
Theorem analyze_batch_size_cap (files : list UploadFile) (w : World) :
  (10 < len files ->
     exists status_code detail,
       analyze_batch files w = (HTTPException status_code detail, w))
  /\ (is_ready w = true -> 10 < len files ->
        analyze_batch files w
        = (HTTPException 400 "Maximum 10 files allowed per batch request", w))
  /\ (is_ready w = true -> len files <= 10 ->
        exists data w',
          analyze_batch files w = (Response data, w')
          /\ (results data, w') = process_files 0 files [] w)
  /\ (is_ready w = false ->
        analyze_batch files w
        = (HTTPException 503
             "Models not loaded. Please wait for initialization to complete.",
           w)).
Proof.
  repeat split.
  - intros Hgt. unfold Batch.analyze_batch.
    destruct (is_ready w); simpl negb; cbv iota; [|eauto].
    destruct (Z.ltb_spec 10 (len files)); [eauto|lia].
  - intros Hready Hgt. unfold Batch.analyze_batch. rewrite Hready. simpl.
    destruct (Z.ltb_spec 10 (len files)); [reflexivity|lia].
  - intros Hready Hcap. rewrite (analyze_batch_proceeds _ _ Hready Hcap).
    do 2 eexists. split; [reflexivity|]. simpl.
    now destruct (process_files 0 files [] w).
  - intros Hready. unfold Batch.analyze_batch. now rewrite Hready.
Qed.

End BatchEndpoint.

Example demo_batch_answer :
  demo_batch demo_ready demo_files = (Batch.Response demo_data, demo_log).
Proof. vm_compute. reflexivity. Qed.

Lemma analyze_batch_failure_isolation_witness :
  exists data w3,
    demo_batch demo_ready
      ([demo_file "a.png"] ++ demo_file "broken.png"
         :: [demo_file "c.mp3"; demo_file "notes"; demo_file "e.mp4"])
    = (Batch.Response data, w3)
    /\ Batch.results data
       = [Batch.Succeeded 0 (Some "a.png") "image" "image of a.png"]%string
         ++ Batch.Failed 1 (Some "broken.png") "cannot identify image file"
         :: [ Batch.Succeeded 2 (Some "c.mp3") "audio" "audio of c.mp3";
              Batch.Failed 3 (Some "notes")
                "Unable to determine file type for notes";
              Batch.Succeeded 4 (Some "e.mp4") "video" "video of e.mp4" ]%string
    /\ length [Batch.Succeeded 0 (Some "a.png") "image" "image of a.png"]%string
       = length [demo_file "a.png"]
    /\ length [ Batch.Succeeded 2 (Some "c.mp3") "audio" "audio of c.mp3";
                Batch.Failed 3 (Some "notes")
                  "Unable to determine file type for notes";
                Batch.Succeeded 4 (Some "e.mp4") "video" "video of e.mp4" ]%string
       = length [demo_file "c.mp3"; demo_file "notes"; demo_file "e.mp4"].
Proof.
  apply (analyze_batch_failure_isolation demo_ready
           (demo_service "image") (demo_service "video") (demo_service "audio")
           [demo_file "a.png"] (demo_file "broken.png")
           [demo_file "c.mp3"; demo_file "notes"; demo_file "e.mp4"]
           [] "cannot identify image file");
    [reflexivity | vm_compute; discriminate | reflexivity].
Defined.

Lemma analyze_batch_result_invariant_witness :
  length (Batch.results demo_data) = length demo_files
  /\ map Batch.file_index (Batch.results demo_data)
     = Py.range (Batch.len demo_files)
  /\ map Batch.item_filename (Batch.results demo_data)
     = map Batch.filename demo_files
  /\ Batch.successful demo_data + Batch.failed demo_data
     = Batch.total_files demo_data
  /\ Batch.total_files demo_data = Batch.len (Batch.results demo_data).
Proof.
  apply (analyze_batch_result_invariant demo_ready
           (demo_service "image") (demo_service "video") (demo_service "audio")
           demo_files [] demo_log demo_data).
  vm_compute. reflexivity.
Defined.

(** C8, as the claim states it, fails: a batch of one file is within the
    cap, and yet it is rejected, no file being analysed, while the models
    are still loading. *)
Lemma analyze_batch_rejects_small_batch_while_loading :
  Batch.len [demo_file "a.png"] <= 10
  /\ demo_batch demo_loading [demo_file "a.png"]
     = (Batch.HTTPException 503
          "Models not loaded. Please wait for initialization to complete.",
        []).
Proof. split; [vm_compute; discriminate | reflexivity]. Qed.

Lemma analyze_batch_size_cap_witness :
  exists data w',
    demo_batch demo_ready demo_files = (Batch.Response data, w')
    /\ (Batch.results data, w')
       = Batch.process_files (demo_service "image") (demo_service "video")
           (demo_service "audio") 0 demo_files [] [].
Proof.
  apply (analyze_batch_size_cap demo_ready
           (demo_service "image") (demo_service "video") (demo_service "audio")
           demo_files []);
    [reflexivity | vm_compute; discriminate].
Defined.

(** The cap itself: eleven files are refused with status 400 and nothing
    is analysed. *)
Example analyze_batch_eleven_files :
  demo_batch demo_ready (repeat (demo_file "a.png") 11)
  = (Batch.HTTPException 400 "Maximum 10 files allowed per batch request", []).
Proof. reflexivity. Qed.

(** ** The summary of the basic video pipeline *)

Section VideoSummary.

Import VideoService.

Lemma filter_truthy_all (descriptions : list string) :
  Forall (fun d => truthy d = true) descriptions ->
  filter (fun d => truthy d = true) descriptions = descriptions.
Proof.
  induction 1 as [|d l Hd _ IH]; [reflexivity|].
  rewrite filter_cons. case_decide; [now rewrite IH | contradiction].
Qed.

(** When no description is dropped, the [i]-th clause carries the
    timestamp of the [i]-th frame. *)
Lemma imap_scene_clause (frame_analyses : list FrameAnalysis) :
  imap (scene_clause frame_analyses) (map description frame_analyses)
  = map clause_of frame_analyses.
Proof.
  apply list_eq. intros i.
  rewrite list_lookup_imap.
  change (map description frame_analyses) with (description <$> frame_analyses).
  change (map clause_of frame_analyses) with (clause_of <$> frame_analyses).
  rewrite !list_lookup_fmap.
  unfold scene_clause.
  destruct (frame_analyses !! i) as [frame|] eqn:Hi; reflexivity.
Qed.

(** C6, amended.  The summary is a function of the list of frame
    analyses: the literal "No frames were successfully analyzed." when the
    list is empty; a second literal when the list is not empty and no
    description is; "This video shows: {description}" when exactly one
    description is not empty; and otherwise, when every description is
    non-empty, the header "This video contains the following scenes:"
    followed by one clause "At {timestamp:.1f}s: {description}" per frame,
    in the order of the list, all separated by single spaces. *)
Theorem generate_video_summary_cases (frame_analyses : list FrameAnalysis) :
  let descriptions :=
    filter (fun d => truthy d = true) (map description frame_analyses) in
  (frame_analyses = [] ->
     _generate_video_summary frame_analyses
     = "No frames were successfully analyzed."%string)
  /\ (frame_analyses <> [] -> descriptions = [] ->
      _generate_video_summary frame_analyses
      = "Video analysis completed but no descriptions were generated."%string)
  /\ (forall d, descriptions = [d] ->
      _generate_video_summary frame_analyses = "This video shows: " +:+ d)
  /\ ((2 <= length frame_analyses)%nat ->
      Forall (fun frame => truthy (description frame) = true) frame_analyses ->
      _generate_video_summary frame_analyses
      = Py.join " " ("This video contains the following scenes:"%string
                       :: map clause_of frame_analyses)).
Proof.
  intros descriptions. repeat split.
  - intros ->. reflexivity.
  - intros Hne Hd. unfold _generate_video_summary.
    destruct frame_analyses; [congruence|]. fold descriptions. now rewrite Hd.
  - intros d Hd. unfold _generate_video_summary.
    destruct frame_analyses as [|frame rest].
    + discriminate Hd.
    + fold descriptions. rewrite Hd. reflexivity.
  - intros Hlen Hall. unfold _generate_video_summary.
    destruct frame_analyses as [|frame rest]; [simpl in Hlen; lia|].
    assert (Hd : descriptions = map description (frame :: rest)).
    { apply filter_truthy_all.
      apply List.Forall_forall. intros d Hin.
      apply in_map_iff in Hin. destruct Hin as (f & <- & Hf).
      rewrite List.Forall_forall in Hall. now apply Hall. }
    fold descriptions. rewrite Hd.
    rewrite imap_scene_clause.
    destruct rest as [|frame' rest]; [simpl in Hlen; lia|].
    reflexivity.
Qed.

Lemma generate_video_summary_cases_witness :
  _generate_video_summary demo_frames
  = Py.join " " ("This video contains the following scenes:"%string
                   :: map clause_of demo_frames).
Proof.
  apply (generate_video_summary_cases demo_frames).
  - simpl. lia.
  - repeat constructor.
Defined.

Context {World Frame : Type}.
Variable cap_read : Z -> World -> option Frame * World.
Variable analyze_video_frame :
  Frame -> option string -> Z -> float -> World -> Py.Outcome string * World.

Abbreviation analyze_frame := (analyze_frame analyze_video_frame).
Abbreviation analyze_frames := (analyze_frames analyze_video_frame).

Lemma analyze_frames_acc (prompt : option string)
    (frames_data : list (FrameData Frame)) :
  forall (frame_analyses : list FrameAnalysis) (w : World),
    analyze_frames prompt frames_data frame_analyses w
    = (frame_analyses ++ fst (analyze_frames prompt frames_data [] w),
       snd (analyze_frames prompt frames_data [] w)).
Proof.
  induction frames_data as [|frame_data rest IH]; intros frame_analyses w; simpl.
  - now rewrite app_nil_r.
  - destruct (analyze_frame prompt frame_data w) as [entry w1].
    rewrite (IH (frame_analyses ++ [entry])), (IH ([] ++ [entry])).
    simpl. now rewrite <- app_assoc.
Qed.

Lemma analyze_frames_cons (prompt : option string)
    (frame_data : FrameData Frame) (rest : list (FrameData Frame)) (w : World) :
  analyze_frames prompt (frame_data :: rest) [] w
  = (fst (analyze_frame prompt frame_data w)
       :: fst (analyze_frames prompt rest []
                 (snd (analyze_frame prompt frame_data w))),
     snd (analyze_frames prompt rest []
            (snd (analyze_frame prompt frame_data w)))).
Proof.
  simpl. destruct (analyze_frame prompt frame_data w) as [entry w1].
  now rewrite analyze_frames_acc.
Qed.

Lemma analyze_frames_app (prompt : option string)
    (pre post : list (FrameData Frame)) :
  forall w : World,
    analyze_frames prompt (pre ++ post) [] w
    = (fst (analyze_frames prompt pre [] w)
         ++ fst (analyze_frames prompt post []
                   (snd (analyze_frames prompt pre [] w))),
       snd (analyze_frames prompt post []
              (snd (analyze_frames prompt pre [] w)))).
Proof.
  induction pre as [|frame_data pre IH]; intros w.
  - simpl. now destruct (analyze_frames prompt post [] w).
  - now rewrite <- app_comm_cons, !analyze_frames_cons, IH.
Qed.

Lemma analyze_frames_length (prompt : option string)
    (frames_data : list (FrameData Frame)) :
  forall w : World,
    length (fst (analyze_frames prompt frames_data [] w)) = length frames_data.
Proof.
  induction frames_data as [|frame_data rest IH]; intros w; [reflexivity|].
  rewrite analyze_frames_cons. simpl. now rewrite IH.
Qed.

(** The frame loop of [analyze_video] isolates failures too: a frame whose
    analysis raises is recorded with the description
    "Analysis failed: {str(e)}", and the frames after it are analysed. *)
Theorem analyze_frames_failure_isolation (prompt : option string)
    (pre : list (FrameData Frame)) (frame_data : FrameData Frame)
    (post : list (FrameData Frame)) (w : World) (str_e : string) :
  let before := fst (analyze_frames prompt pre [] w) in
  let w1 := snd (analyze_frames prompt pre [] w) in
  let call := analyze_video_frame (image frame_data) prompt
                (frame_number frame_data) (timestamp frame_data) w1 in
  let after := fst (analyze_frames prompt post [] (snd call)) in
  fst call = Py.Raised str_e ->
  fst (analyze_frames prompt (pre ++ frame_data :: post) [] w)
  = before
      ++ {| fa_timestamp := timestamp frame_data;
            fa_frame_number := frame_number frame_data;
            description := "Analysis failed: " +:+ str_e |}
      :: after
  /\ length before = length pre
  /\ length after = length post.
Proof.
  intros before w1 call after Hraise.
  rewrite analyze_frames_app, analyze_frames_cons. simpl fst.
  fold w1. unfold VideoService.analyze_frame. fold call.
  subst before after. destruct call as [outcome w2]. simpl in Hraise.
  subst outcome. simpl.
  repeat split; apply analyze_frames_length.
Qed.

End VideoSummary.

Lemma analyze_frames_failure_isolation_witness :
  fst (VideoService.analyze_frames (demo_analyze_video_frame 0) None
         ([] ++ {| VideoService.image := 0; VideoService.frame_number := 0;
                   VideoService.timestamp := 0 |}
             :: [ {| VideoService.image := 60; VideoService.frame_number := 60;
                     VideoService.timestamp := 2 |} ]) [] tt)
  = [] ++ {| VideoService.fa_timestamp := 0; VideoService.fa_frame_number := 0;
             VideoService.description :=
               "Analysis failed: Video frame analysis failed: out of memory" |}
       :: [ {| VideoService.fa_timestamp := 2;
               VideoService.fa_frame_number := 60;
               VideoService.description :=
                 "Analysis failed: Video frame analysis failed: out of memory" |} ]
  /\ @length VideoService.FrameAnalysis [] = @length (VideoService.FrameData Z) []
  /\ length [ {| VideoService.fa_timestamp := 2;
                 VideoService.fa_frame_number := 60;
                 VideoService.description :=
                   "Analysis failed: Video frame analysis failed: out of memory" |} ]
     = length [ {| VideoService.image := 60; VideoService.frame_number := 60;
                   VideoService.timestamp := 2%float |} ].
Proof.
  apply (analyze_frames_failure_isolation (demo_analyze_video_frame 0) None
           [] {| VideoService.image := 0; VideoService.frame_number := 0;
                 VideoService.timestamp := 0 |}
           [ {| VideoService.image := 60; VideoService.frame_number := 60;
                VideoService.timestamp := 2 |} ] tt
           "Video frame analysis failed: out of memory").
  reflexivity.
Defined.

(** C6, as the claim states it, fails.  When two frames succeed the
    summary opens with a header that is no clause of a frame.  And the
    cases are told apart by the entries of the list, in which a frame whose
    analysis raised stands with the description "Analysis failed: ...": when
    both analyses raise the summary is made of those two entries and is not
    the literal. *)
Lemma video_summary_header_and_failed_frames :
  (VideoService.frames (demo_analyze_video 1000)
   = [ {| VideoService.fa_timestamp := 0; VideoService.fa_frame_number := 0;
          VideoService.description := "frame 0" |};
       {| VideoService.fa_timestamp := 2; VideoService.fa_frame_number := 60;
          VideoService.description := "frame 60" |} ]
   /\ VideoService.summary (demo_analyze_video 1000)
      = "This video contains the following scenes: At 0.0s: frame 0 At 2.0s: frame 60"%string
   /\ SummarySpec.summary (VideoService.frames (demo_analyze_video 1000))
      = "At 0.0s: frame 0 At 2.0s: frame 60"%string)
  /\ (VideoService.summary (demo_analyze_video 0)
      = ("This video contains the following scenes: "
         +:+ "At 0.0s: Analysis failed: Video frame analysis failed: out of memory "
         +:+ "At 2.0s: Analysis failed: Video frame analysis failed: out of memory")
      /\ SummarySpec.summary []
         = "No frames were successfully analyzed."%string).
Proof. repeat split; vm_compute; reflexivity. Qed.

(** ** The frame loop of the enhanced video pipeline *)

Section EnhancedPipeline.

Import MultimodalAnalysisService.

Context {World Frame : Type}.
Variable cap_read : Z -> World -> option Frame * World.
Variable analyze_image : Frame -> string -> World -> ImageResult * World.
Variable analyze_text : string -> World -> TextResult * World.

Abbreviation analyze_frame := (analyze_frame cap_read analyze_image).
Abbreviation frames_loop := (frames_loop cap_read analyze_image).
Abbreviation frame_entries := (frame_entries cap_read analyze_image).
Abbreviation _analyze_video_frames :=
  (_analyze_video_frames cap_read analyze_image analyze_text).

Lemma frame_entries_length (fps : float) (frame_indices : list Z) :
  forall w : World,
    length (frame_entries fps frame_indices w) = length frame_indices.
Proof.
  induction frame_indices as [|frame_idx rest IH]; intros w; simpl; auto.
Qed.

(** The list that the loop builds holds the entries that were appended,
    in order, and nothing else. *)
Lemma frames_loop_entries (fps : float) (frame_indices : list Z) :
  forall (frame_analyses : list FrameAnalysis) (w : World),
    fst (frames_loop fps frame_indices frame_analyses w)
    = frame_analyses ++ omap id (frame_entries fps frame_indices w).
Proof.
  induction frame_indices as [|frame_idx rest IH]; intros frame_analyses w.
  - simpl. now rewrite app_nil_r.
  - simpl. destruct (analyze_frame fps frame_idx w) as [[entry|] w1];
      rewrite IH; simpl; [now rewrite <- app_assoc | reflexivity].
Qed.

Lemma omap_id_length {A : Type} (entries : list (option A)) :
  (length (omap id entries) <= length entries)%nat.
Proof.
  induction entries as [|[a|] entries IH]; cbn in *; lia.
Qed.

Lemma omap_id_In {A : Type} (entries : list (option A)) (a : A) :
  In a (omap id entries) <-> In (Some a) entries.
Proof.
  induction entries as [|[b|] entries IH]; cbn; [tauto| |].
  - rewrite IH. split; intros [H|H]; auto; left; congruence.
  - rewrite IH. split; [auto|]. intros [H|H]; [discriminate|auto].
Qed.

(** One iteration: a frame that cannot be decoded appends nothing, a frame
    whose analysis is unsuccessful appends nothing, and a frame whose
    analysis succeeds appends its entry. *)
Lemma analyze_frame_cases (fps : float) (frame_idx : Z) (w : World) :
  (fst (cap_read frame_idx w) = None ->
     analyze_frame fps frame_idx w = (None, snd (cap_read frame_idx w)))
  /\ (forall frame : Frame,
        fst (cap_read frame_idx w) = Some frame ->
        let timestamp := timestamp_of fps frame_idx in
        let call := analyze_image frame (frame_prompt timestamp)
                      (snd (cap_read frame_idx w)) in
        (success (fst call) = false ->
           analyze_frame fps frame_idx w = (None, snd call))
        /\ (success (fst call) = true ->
              analyze_frame fps frame_idx w
              = (Some {| frame_number := frame_idx;
                         timestamp := timestamp;
                         frame_description := description (fst call);
                         model := model_used (fst call) |}, snd call))).
Proof.
  unfold MultimodalAnalysisService.analyze_frame.
  destruct (cap_read frame_idx w) as [[frame|] w1]; simpl.
  - split; [discriminate|]. intros frame' [= <-].
    destruct (analyze_image frame _ w1) as [result w2]; simpl.
    split; intros ->; reflexivity.
  - split; [reflexivity|]. intros frame' [=].
Qed.


End EnhancedPipeline.

(** Five indices are sampled, three entries are reported. *)
Example analyze_video_frames_reports_fewer :
  MultimodalAnalysisService.sample 300 30 5 None None
  = Py.Returned [0; 60; 120; 180; 240]
  /\ MultimodalAnalysisService._analyze_video_frames
       demo_decode demo_analyze_image demo_analyze_text
       true demo_props 5 None None []
     = (Py.Returned
          (MultimodalAnalysisService.Analyzed true "a summary"
             [demo_entry 0 0; demo_entry 180 6; demo_entry 240 8] 3),
        [0; 120; 180; 240]).
Proof. split; vm_compute; reflexivity. Qed.


(* ===================================================================== *)
(** * Further properties *)
(* ===================================================================== *)

(** ** Sublists *)

Lemma sublist_In {A : Type} (l1 l2 : list A) (x : A) :
  sublist l1 l2 -> In x l1 -> In x l2.
Proof.
  induction 1 as [|y l1 l2 Hsub IH|y l1 l2 Hsub IH]; simpl; tauto.
Qed.

Lemma sublist_StronglySorted {A : Type} (R : A -> A -> Prop) (l1 l2 : list A) :
  sublist l1 l2 -> StronglySorted R l2 -> StronglySorted R l1.
Proof.
  induction 1 as [|x l1 l2 Hsub IH|x l1 l2 Hsub IH]; intros Hs.
  - constructor.
  - inversion Hs as [|? ? Hs' Hall]; subst. constructor; [auto|].
    rewrite List.Forall_forall in *. intros y Hy. apply Hall.
    now apply (sublist_In l1 l2).
  - inversion Hs; subst. auto.
Qed.

Lemma sublist_Forall_keep {A : Type} (P : A -> Prop) (l1 l2 : list A) :
  sublist l1 l2 -> Forall P l2 -> Forall P l1.
Proof.
  induction 1 as [|x l1 l2 Hsub IH|x l1 l2 Hsub IH]; intros Hall.
  - constructor.
  - inversion Hall; subst. constructor; auto.
  - inversion Hall; subst. auto.
Qed.

(** ** The sampler of the basic pipeline *)

Section BasicSampler.

Import VideoService.

Lemma StronglySorted_le_map_seq (f : nat -> Z) (start len : nat) :
  (forall i j : nat, (start <= i <= j)%nat -> (j < start + len)%nat -> f i <= f j) ->
  StronglySorted Z.le (map f (seq start len)).
Proof.
  revert start. induction len as [|len IH]; intros start Hf; simpl.
  - constructor.
  - constructor.
    + apply IH. intros i j Hij Hj. apply Hf; lia.
    + apply List.Forall_forall. intros y Hy.
      apply in_map_iff in Hy. destruct Hy as (j & <- & Hj).
      apply in_seq in Hj. apply Hf; lia.
Qed.

Lemma uniform_frame_indices_unfold (total_frames num_frames : Z) :
  uniform_frame_indices total_frames num_frames
  = map (fun k : nat => Py.int_div (Z.of_nat k * total_frames) num_frames)
        (seq 0 (Z.to_nat num_frames)).
Proof.
  unfold uniform_frame_indices, Py.range, Py.range2.
  rewrite map_map, Z.sub_0_r. reflexivity.
Qed.

(** The integer quotients of [uniform_frame_indices], for a request of at
    least one frame on a video of at least one frame. *)
Lemma uniform_frame_indices_quotients (total_frames num_frames : Z) :
  1 <= total_frames -> 1 <= num_frames ->
  let l := uniform_frame_indices total_frames num_frames in
  Z.of_nat (length l) = num_frames
  /\ Forall (fun x => 0 <= x < total_frames) l
  /\ StronglySorted Z.le l
  /\ (List.NoDup l <-> num_frames <= total_frames).
Proof.
  intros Ht Hn l. subst l. rewrite uniform_frame_indices_unfold.
  assert (Hbound : forall k : nat, (k < Z.to_nat num_frames)%nat ->
            0 <= Py.int_div (Z.of_nat k * total_frames) num_frames < total_frames).
  { intros k Hk. apply int_div_offset_bounds; lia. }
  split; [rewrite length_map, length_seq; lia|].
  split.
  { apply List.Forall_forall. intros x Hx.
    apply in_map_iff in Hx. destruct Hx as (k & <- & Hk).
    apply in_seq in Hk. apply Hbound. lia. }
  split.
  { apply StronglySorted_le_map_seq. intros i j Hij Hj.
    unfold Py.int_div. rewrite !Z.quot_div_nonneg by nia.
    apply Z.div_le_mono; nia. }
  split.
  - intros Hnodup.
    assert (Hincl : incl
              (map (fun k : nat => Py.int_div (Z.of_nat k * total_frames) num_frames)
                   (seq 0 (Z.to_nat num_frames)))
              (Py.range2 0 total_frames)).
    { intros x Hx. apply range2_In.
      apply in_map_iff in Hx. destruct Hx as (k & <- & Hk).
      apply in_seq in Hk. apply Hbound. lia. }
    pose proof (List.NoDup_incl_length Hnodup Hincl) as Hlen.
    rewrite length_map, length_seq, range2_length in Hlen. lia.
  - intros Hle. apply StronglySorted_lt_NoDup.
    apply StronglySorted_map_seq. intros i j Hij Hj.
    apply int_div_offset_increasing; lia.
Qed.

(** Below [2^53] the indices that the true divisions compute are the
    integer quotients of [uniform_frame_indices]. *)
Lemma uniform_frame_indices_true_div_exact (total_frames num_frames : Z) :
  1 <= total_frames -> num_frames * total_frames < 2 ^ 53 ->
  uniform_frame_indices_true_div total_frames num_frames
  = Py.Returned (uniform_frame_indices total_frames num_frames).
Proof.
  intros Ht Hbound. unfold uniform_frame_indices_true_div, uniform_frame_indices.
  apply comprehension_map. intros i Hi. apply range2_In in Hi.
  apply int_true_div_exact; nia.
Qed.

(** The index list of [_extract_frames], for a request of at least one
    frame on a video of at least one frame, as long as
    [num_frames * total_frames] is below [2^53]: the true divisions of the
    code compute as many indices as requested, all of them frames of the
    video, in non-decreasing order; and no index is repeated exactly when
    the video has at least as many frames as requested. *)
Theorem uniform_frame_indices_shape (total_frames num_frames : Z) :
  1 <= total_frames -> 1 <= num_frames ->
  num_frames * total_frames < 2 ^ 53 ->
  exists l,
    uniform_frame_indices_true_div total_frames num_frames = Py.Returned l
    /\ uniform_frame_indices total_frames num_frames = l
    /\ Z.of_nat (length l) = num_frames
    /\ Forall (fun x => 0 <= x < total_frames) l
    /\ StronglySorted Z.le l
    /\ (List.NoDup l <-> num_frames <= total_frames).
Proof.
  intros Ht Hn Hbound.
  exists (uniform_frame_indices total_frames num_frames).
  split; [now apply uniform_frame_indices_true_div_exact|].
  split; [reflexivity|].
  now apply uniform_frame_indices_quotients.
Qed.

Lemma uniform_frame_indices_shape_witness :
  exists l,
    uniform_frame_indices_true_div 3 5 = Py.Returned l
    /\ uniform_frame_indices 3 5 = l
    /\ Z.of_nat (length l) = 5
    /\ Forall (fun x => 0 <= x < 3) l
    /\ StronglySorted Z.le l
    /\ (List.NoDup l <-> 5 <= 3).
Proof.
  apply (uniform_frame_indices_shape 3 5); [lia | lia | reflexivity].
Defined.

(** On a video with at least as many frames as requested, and without a
    window, the sampler of the enhanced pipeline selects the same frames
    as the sampler of the basic one; on a shorter video it selects every
    frame once. *)
Theorem samplers_agree (total_frames num_frames : Z) :
  (num_frames <= total_frames ->
     MultimodalAnalysisService.frame_indices 0 total_frames total_frames num_frames
     = uniform_frame_indices total_frames num_frames)
  /\ (total_frames < num_frames ->
      MultimodalAnalysisService.frame_indices 0 total_frames total_frames num_frames
      = Py.range total_frames).
Proof.
  unfold MultimodalAnalysisService.frame_indices. split; intros H.
  - destruct (Z.ltb_spec total_frames num_frames); [lia|].
    unfold uniform_frame_indices. apply map_ext. intros i. lia.
  - destruct (Z.ltb_spec total_frames num_frames); [reflexivity|lia].
Qed.

Lemma samplers_agree_witness :
  MultimodalAnalysisService.frame_indices 0 300 300 5
  = uniform_frame_indices 300 5.
Proof. apply (samplers_agree 300 5). lia. Defined.

Context {World Frame : Type}.
Variable cap_read : Z -> World -> option Frame * World.
Variable analyze_video_frame :
  Frame -> option string -> Z -> float -> World -> Py.Outcome string * World.

Abbreviation read_frames := (read_frames cap_read).
Abbreviation _extract_frames := (_extract_frames cap_read).
Abbreviation analyze_frames := (analyze_frames analyze_video_frame).
Abbreviation analyze_video := (analyze_video cap_read analyze_video_frame).

Lemma read_frames_acc (fps : float) (frame_indices : list Z) :
  forall (frames_data : list (FrameData Frame)) (w : World),
    read_frames fps frame_indices frames_data w
    = (frames_data ++ fst (read_frames fps frame_indices [] w),
       snd (read_frames fps frame_indices [] w)).
Proof.
  induction frame_indices as [|frame_idx rest IH]; intros frames_data w; simpl.
  - now rewrite app_nil_r.
  - destruct (cap_read frame_idx w) as [[pil_image|] w1].
    + rewrite (IH (frames_data ++ _)), (IH [_]).
      simpl. now rewrite <- app_assoc.
    + apply IH.
Qed.

(** The frames that [_extract_frames] returns are the frames that could be
    read, in the order of the indices, each with its index and with the
    timestamp of that index. *)
Lemma read_frames_sublist (fps : float) (frame_indices : list Z) :
  forall w : World,
    let frames_data := fst (read_frames fps frame_indices [] w) in
    sublist (map frame_number frames_data) frame_indices
    /\ Forall (fun frame_data =>
                 timestamp frame_data
                 = frame_timestamp fps (frame_number frame_data)) frames_data.
Proof.
  induction frame_indices as [|frame_idx rest IH]; intros w; simpl.
  - split; constructor.
  - destruct (cap_read frame_idx w) as [[pil_image|] w1].
    + rewrite read_frames_acc. simpl.
      destruct (IH w1) as [Hsub Hall]. split.
      * now apply sublist_skip.
      * constructor; [reflexivity|exact Hall].
    + destruct (IH w1) as [Hsub Hall]. split; [|exact Hall].
      now apply sublist_cons.
Qed.

Lemma analyze_frames_mirror (prompt : option string)
    (frames_data : list (FrameData Frame)) :
  forall w : World,
    let frame_analyses := fst (analyze_frames prompt frames_data [] w) in
    map fa_frame_number frame_analyses = map frame_number frames_data
    /\ map fa_timestamp frame_analyses = map timestamp frames_data.
Proof.
  induction frames_data as [|frame_data rest IH]; intros w.
  - split; reflexivity.
  - rewrite analyze_frames_cons. cbn zeta. simpl fst. simpl map.
    destruct (IH (snd (VideoService.analyze_frame analyze_video_frame
                         prompt frame_data w))) as [Hn Ht].
    cbn zeta in Hn, Ht. rewrite Hn, Ht.
    unfold VideoService.analyze_frame.
    destruct (analyze_video_frame _ _ _ _ w) as [outcome w1]. simpl.
    split; reflexivity.
Qed.

(** [analyze_video] reports one entry for every frame that could be read,
    whether its analysis succeeded or raised: the frame numbers of the
    response are those of the indices that could be read, in order (with
    the repetitions of the index list), each with the timestamp of its
    index; and when no frame could be read the summary is the literal
    "No frames were successfully analyzed.". *)
Theorem analyze_video_reports_every_read_frame
    (video_info : VideoInfo) (num_frames : Z) (prompt : option string)
    (frame_sampling : string) (w : World) :
  let indices :=
    uniform_frame_indices (total_frames video_info) num_frames in
  let frames_data :=
    fst (_extract_frames num_frames video_info frame_sampling w) in
  let result :=
    fst (analyze_video video_info num_frames prompt frame_sampling w) in
  map fa_frame_number (frames result) = map frame_number frames_data
  /\ sublist (map fa_frame_number (frames result)) indices
  /\ Forall (fun entry =>
               fa_timestamp entry
               = frame_timestamp (fps video_info) (fa_frame_number entry))
            (frames result)
  /\ (length (frames result) <= length indices)%nat
  /\ (frames_data = [] ->
      summary result = "No frames were successfully analyzed."%string).
Proof.
  intros indices frames_data result.
  assert (Hidx : frame_indices_of frame_sampling (total_frames video_info)
                   num_frames = indices).
  { unfold frame_indices_of. now destruct (String.eqb _ _). }
  unfold result, VideoService.analyze_video.
  unfold frames_data, VideoService._extract_frames. rewrite Hidx.
  destruct (read_frames_sublist (fps video_info) indices w) as [Hsub Hts].
  destruct (read_frames (fps video_info) indices [] w) as [fd w1] eqn:Hread.
  simpl in Hsub, Hts. simpl fst.
  destruct (analyze_frames_mirror prompt fd w1) as [Hn Ht].
  destruct (analyze_frames prompt fd [] w1) as [fa w2] eqn:Hloop.
  simpl in Hn, Ht. simpl.
  split; [exact Hn|]. split; [now rewrite Hn|]. split.
  - clear Hloop Hread Hsub. revert fd Hn Ht Hts.
    induction fa as [|entry fa IH]; intros [|frame_data fd] Hn Ht Hts;
      try discriminate; constructor.
    + inversion Hts; subst. simpl in Hn, Ht.
      injection Hn as Hn1 _. injection Ht as Ht1 _. congruence.
    + inversion Hts; subst. simpl in Hn, Ht.
      injection Hn as _ Hn2. injection Ht as _ Ht2. eauto.
  - split.
    + apply sublist_length in Hsub. rewrite length_map in Hsub.
      apply (f_equal (@length Z)) in Hn. rewrite !length_map in Hn. lia.
    + intros ->. simpl in Hloop. now injection Hloop as <- _.
Qed.

End BasicSampler.

(** ** The result of the enhanced video pipeline *)

Section EnhancedResult.

Import MultimodalAnalysisService.

Context {World Frame : Type}.
Variable cap_read : Z -> World -> option Frame * World.
Variable analyze_image : Frame -> string -> World -> ImageResult * World.
Variable analyze_text : string -> World -> TextResult * World.

Abbreviation analyze_frame := (analyze_frame cap_read analyze_image).
Abbreviation frames_loop := (frames_loop cap_read analyze_image).
Abbreviation frame_entries := (frame_entries cap_read analyze_image).
Abbreviation overall_summary_of := (overall_summary_of analyze_text).
Abbreviation _analyze_video_frames :=
  (_analyze_video_frames cap_read analyze_image analyze_text).

(** The entry of an iteration carries the index of the iteration and the
    timestamp of that index. *)
Lemma analyze_frame_entry (fps : float) (frame_idx : Z) (w : World)
    (entry : FrameAnalysis) :
  fst (analyze_frame fps frame_idx w) = Some entry ->
  frame_number entry = frame_idx
  /\ timestamp entry = timestamp_of fps frame_idx.
Proof.
  unfold MultimodalAnalysisService.analyze_frame.
  destruct (cap_read frame_idx w) as [[frame|] w1]; [|discriminate].
  destruct (analyze_image frame _ w1) as [result w2].
  destruct (success result); [|discriminate].
  intros [= <-]. split; reflexivity.
Qed.

Lemma frame_entries_sublist (fps : float) (frame_indices : list Z) :
  forall w : World,
    let frame_analyses := omap id (frame_entries fps frame_indices w) in
    sublist (map frame_number frame_analyses) frame_indices
    /\ Forall (fun entry =>
                 timestamp entry = timestamp_of fps (frame_number entry))
              frame_analyses.
Proof.
  induction frame_indices as [|frame_idx rest IH]; intros w.
  - split; constructor.
  - cbn. destruct (IH (snd (analyze_frame fps frame_idx w))) as [Hsub Hts].
    cbn zeta in Hsub, Hts.
    destruct (fst (analyze_frame fps frame_idx w)) as [entry|] eqn:Hentry; cbn.
    + destruct (analyze_frame_entry _ _ _ _ Hentry) as [Hn Ht]. split.
      * rewrite Hn. now apply sublist_skip.
      * constructor; [now rewrite Ht, Hn | exact Hts].
    + split; [now apply sublist_cons | exact Hts].
Qed.

(** What [_analyze_video_frames] returns on an opened video once the
    timeframe is resolved. *)
Lemma analyze_video_frames_returns
    (props : VideoProps) (num_frames : Z) (start_time end_time : option float)
    (w : World) (start_frame end_frame tf : Z) :
  timeframe (total_frames props) (fps props) start_time end_time
    = Py.Returned (start_frame, end_frame, tf) ->
  let indices := frame_indices start_frame end_frame tf num_frames in
  let frame_analyses := omap id (frame_entries (fps props) indices w) in
  let w1 := snd (frames_loop (fps props) indices [] w) in
  _analyze_video_frames true props num_frames start_time end_time w
  = (Py.Returned
       (Analyzed (0 <? Z.of_nat (length frame_analyses))
          (fst (overall_summary_of frame_analyses w1))
          frame_analyses (Z.of_nat (length frame_analyses))),
     snd (overall_summary_of frame_analyses w1)).
Proof.
  intros Htf indices frame_analyses w1.
  unfold MultimodalAnalysisService._analyze_video_frames. simpl negb. cbv iota.
  rewrite Htf. fold indices.
  pose proof (frames_loop_entries cap_read analyze_image
                (fps props) indices [] w) as Hloop.
  subst w1. destruct (frames_loop (fps props) indices [] w) as [fa w1].
  simpl in Hloop. subst fa. fold frame_analyses. simpl snd.
  now destruct (overall_summary_of frame_analyses w1).
Qed.



(** A float that equals zero is not above zero. *)
Lemma eqb_zero_not_gt (x : float) :
  PrimFloat.eqb x 0 = true -> Py.gt x 0 = false.
Proof.
  unfold Py.gt. rewrite FloatAxioms.eqb_spec, ltb_spec.
  change (Prim2SF 0) with (S754_zero false).
  destruct (Prim2SF x) as [s|s| |s m e]; try destruct s; simpl;
    intros; try discriminate; reflexivity.
Qed.


End EnhancedResult.





(** ** The type of an uploaded file *)

Section FileType.

Import Batch.

Lemma append_cons (c : ascii) (a b : string) :
  String c a +:+ b = String c (a +:+ b).
Proof. reflexivity. Qed.

Lemma substring_0_length (s : string) : substring 0 (String.length s) s = s.
Proof. induction s as [|c s IH]; simpl; [reflexivity | now rewrite IH]. Qed.

Lemma substring_append (p suf : string) :
  substring (String.length p) (String.length suf) (p +:+ suf) = suf.
Proof.
  induction p as [|c p IH]; simpl.
  - apply substring_0_length.
  - exact IH.
Qed.

Lemma substring_split (s : string) :
  forall k : nat, (k <= String.length s)%nat ->
    s = substring 0 k s +:+ substring k (String.length s - k) s.
Proof.
  induction s as [|c s IH]; intros k Hk.
  - simpl in Hk. assert (k = 0)%nat as -> by lia. reflexivity.
  - destruct k as [|k]; simpl.
    + now rewrite substring_0_length.
    + simpl in Hk. rewrite append_cons. f_equal. apply IH. lia.
Qed.

Lemma length_append (a b : string) :
  String.length (a +:+ b) = (String.length a + String.length b)%nat.
Proof. induction a as [|c a IH]; simpl; [reflexivity | now rewrite IH]. Qed.

(** [s.endswith(suf)] holds exactly when [suf] is a tail of [s]. *)
Lemma endswith_spec (s suf : string) :
  endswith s suf = true <-> exists p, s = p +:+ suf.
Proof.
  unfold endswith. rewrite andb_true_iff, Nat.leb_le, String.eqb_eq. split.
  - intros [Hle Hsub].
    exists (substring 0 (String.length s - String.length suf) s).
    pose proof (substring_split s (String.length s - String.length suf)) as H.
    replace (String.length s - (String.length s - String.length suf))%nat
      with (String.length suf) in H by lia.
    rewrite Hsub in H. apply H. lia.
  - intros [p ->]. rewrite length_append. split; [lia|].
    replace (String.length p + String.length suf - String.length suf)%nat
      with (String.length p) by lia.
    apply substring_append.
Qed.

(** Of two tails of a string, the shorter is a tail of the longer. *)
Lemma tails_nest (p1 : string) :
  forall p2 a b : string,
    p1 +:+ a = p2 +:+ b -> (String.length a <= String.length b)%nat ->
    exists q, b = q +:+ a.
Proof.
  induction p1 as [|c p1 IH]; intros p2 a b Heq Hlen.
  - change (a = p2 +:+ b) in Heq. subst a. rewrite length_append in Hlen.
    destruct p2 as [|c2 p2]; [exists ""%string; reflexivity|].
    simpl in Hlen. lia.
  - destruct p2 as [|c2 p2].
    + change (String c p1 +:+ a = b) in Heq. exists (String c p1).
      now rewrite <- Heq.
    + rewrite !append_cons in Heq. injection Heq as _ Heq. eauto.
Qed.

Lemma endswith_nest (s a b : string) :
  endswith s a = true -> endswith s b = true ->
  (String.length a <= String.length b)%nat -> endswith b a = true.
Proof.
  rewrite !endswith_spec. intros [p1 ->] [p2 Heq] Hlen.
  exact (tails_nest p1 p2 a b Heq Hlen).
Qed.

(** No name ends with two of the extensions [a] and [b] when neither is a
    tail of the other. *)
Lemma endswith_exclusive (s a b : string) :
  endswith a b = false -> endswith b a = false ->
  endswith s a = true -> endswith s b = true -> False.
Proof.
  intros Hab Hba Ha Hb.
  destruct (Nat.le_ge_cases (String.length a) (String.length b)) as [H|H].
  - rewrite (endswith_nest s a b Ha Hb H) in Hba. discriminate.
  - rewrite (endswith_nest s b a Hb Ha H) in Hab. discriminate.
Qed.

Lemma existsb_endswith_exclusive (s : string) (exts1 exts2 : list string) :
  separate exts1 exts2 = true ->
  existsb (endswith s) exts1 = true -> existsb (endswith s) exts2 = false.
Proof.
  intros Hsep H1. destruct (existsb (endswith s) exts2) eqn:H2; [|reflexivity].
  exfalso. apply existsb_exists in H1, H2.
  destruct H1 as (a & Ha & Hsa), H2 as (b & Hb & Hsb).
  unfold separate in Hsep. rewrite forallb_forall in Hsep.
  specialize (Hsep a Ha). rewrite forallb_forall in Hsep.
  specialize (Hsep b Hb). rewrite andb_true_iff, !negb_true_iff in Hsep.
  destruct Hsep as [Hab Hba].
  exact (endswith_exclusive s a b Hab Hba Hsa Hsb).
Qed.

(** The type of a file whose name has a known extension is the type of
    that extension, in whatever case the name is written and whatever the
    content type says; and a name has extensions of one type at most, so
    the order in which the three lists are tried does not matter.  This
    holds whatever [str.lower] does to the name: for every lowering
    function, so for Python's on all of Unicode. *)
Theorem determine_file_type_by_extension (lower : string -> string)
    (file : UploadFile) :
  (has_extension lower image_exts file = true ->
     _determine_file_type_with lower file = Py.Returned "image"%string)
  /\ (has_extension lower video_exts file = true ->
      _determine_file_type_with lower file = Py.Returned "video"%string)
  /\ (has_extension lower audio_exts file = true ->
      _determine_file_type_with lower file = Py.Returned "audio"%string)
  /\ (has_extension lower image_exts file = true ->
      has_extension lower video_exts file = false
      /\ has_extension lower audio_exts file = false)
  /\ (has_extension lower video_exts file = true ->
      has_extension lower audio_exts file = false).
Proof.
  unfold has_extension, _determine_file_type_with.
  destruct (filename file) as [name|];
    [|repeat split; intros; discriminate].
  destruct (String.eqb name "") eqn:Hname; simpl negb; cbv iota;
    [repeat split; intros; discriminate|].
  rewrite !andb_true_l.
  assert (Hiv := existsb_endswith_exclusive (lower name) image_exts video_exts eq_refl).
  assert (Hia := existsb_endswith_exclusive (lower name) image_exts audio_exts eq_refl).
  assert (Hva := existsb_endswith_exclusive (lower name) video_exts audio_exts eq_refl).
  destruct (existsb (endswith (lower name)) image_exts) eqn:Hi,
           (existsb (endswith (lower name)) video_exts) eqn:Hv,
           (existsb (endswith (lower name)) audio_exts) eqn:Ha;
    repeat match goal with
           | H : true = true -> _ |- _ => specialize (H eq_refl)
           end;
    try discriminate;
    repeat split; intros; try discriminate; reflexivity.
Qed.

Lemma determine_file_type_by_extension_witness :
  _determine_file_type_with demo_lower demo_kelvin_file
  = Py.Returned "video"%string.
Proof.
  apply (determine_file_type_by_extension demo_lower demo_kelvin_file).
  reflexivity.
Defined.

Lemma lower_ascii_idempotent (c : ascii) :
  lower_ascii (lower_ascii c) = lower_ascii c.
Proof.
  destruct c as [[] [] [] [] [] [] [] []]; reflexivity.
Qed.

Lemma lower_idempotent (s : string) : lower (lower s) = lower s.
Proof.
  induction s as [|c s IH]; simpl; [reflexivity|].
  now rewrite lower_ascii_idempotent, IH.
Qed.

(** Lowering keeps the empty string empty and no other string becomes
    empty: a property of [str.lower], here of its ASCII instance. *)
Lemma lower_empty (s : string) : lower s = ""%string <-> s = ""%string.
Proof. destruct s; simpl; split; intros H; try discriminate; reflexivity. Qed.

(** The type depends on the name and on the content type only up to the
    case of their letters: two files whose names and whose content types
    are the same once lowered get the same type, or are both refused.
    This holds for every lowering function that, like [str.lower], maps
    the empty string and no other to the empty string. *)
Theorem determine_file_type_ignores_case (lower : string -> string)
    (file1 file2 : UploadFile) :
  (forall s, lower s = ""%string <-> s = ""%string) ->
  option_map lower (filename file1) = option_map lower (filename file2) ->
  option_map lower (content_type file1) = option_map lower (content_type file2) ->
  file_type_of lower file1 = file_type_of lower file2.
Proof.
  intros Hempty.
  assert (Heqb : forall s1 s2, lower s1 = lower s2 ->
                   String.eqb s1 "" = String.eqb s2 "").
  { intros s1 s2 Heq.
    destruct (String.eqb_spec s1 ""), (String.eqb_spec s2 "");
      try reflexivity; subst; exfalso.
    - apply n. apply Hempty. rewrite <- Heq. now apply Hempty.
    - apply n. apply Hempty. rewrite Heq. now apply Hempty. }
  unfold file_type_of, _determine_file_type_with.
  destruct (filename file1) as [n1|], (filename file2) as [n2|];
    cbn [option_map]; try discriminate; [|reflexivity].
  intros [= Hn] Hc.
  rewrite (Heqb n1 n2 Hn), Hn.
  destruct (String.eqb n2 ""); [reflexivity|].
  destruct (existsb (endswith (lower n2)) image_exts); [reflexivity|].
  destruct (existsb (endswith (lower n2)) video_exts); [reflexivity|].
  destruct (existsb (endswith (lower n2)) audio_exts); [reflexivity|].
  destruct (content_type file1) as [c1|], (content_type file2) as [c2|];
    cbn [option_map] in Hc; try discriminate; [|reflexivity].
  injection Hc as Hc.
  rewrite (Heqb c1 c2 Hc), Hc.
  destruct (String.eqb c2 ""); [reflexivity|].
  destruct (startswith (lower c2) "image/"); [reflexivity|].
  destruct (startswith (lower c2) "video/"); [reflexivity|].
  destruct (startswith (lower c2) "audio/"); reflexivity.
Qed.

Lemma determine_file_type_ignores_case_witness :
  file_type_of lower {| filename := Some "CLIP.Mov"%string;
                        content_type := Some "VIDEO/QuickTime"%string |}
  = file_type_of lower {| filename := Some "clip.mov"%string;
                          content_type := Some "video/quicktime"%string |}.
Proof.
  apply (determine_file_type_ignores_case lower);
    [exact lower_empty | reflexivity | reflexivity].
Defined.

(** [_determine_file_type] returns one of the three types only. *)
Lemma determine_file_type_range (file : UploadFile) (file_type : string) :
  _determine_file_type file = Py.Returned file_type ->
  In file_type ["image"; "video"; "audio"]%string.
Proof.
  unfold _determine_file_type, _determine_file_type_with.
  destruct (filename file) as [name|]; [|discriminate].
  destruct (String.eqb name ""); [discriminate|].
  destruct (existsb _ image_exts); [intros [= <-]; simpl; auto|].
  destruct (existsb _ video_exts); [intros [= <-]; simpl; auto|].
  destruct (existsb _ audio_exts); [intros [= <-]; simpl; auto|].
  destruct (content_type file) as [ct|]; [|discriminate].
  destruct (String.eqb ct ""); [discriminate|].
  destruct (startswith _ "image/"); [intros [= <-]; simpl; auto|].
  destruct (startswith _ "video/"); [intros [= <-]; simpl; auto|].
  destruct (startswith _ "audio/"); [intros [= <-]; simpl; auto|].
  discriminate.
Qed.

Context {World Result : Type}.
Variable analyze_image : UploadFile -> World -> Py.Outcome Result * World.
Variable analyze_video : UploadFile -> World -> Py.Outcome Result * World.
Variable transcribe_audio : UploadFile -> World -> Py.Outcome Result * World.

Abbreviation analyze_file :=
  (analyze_file analyze_image analyze_video transcribe_audio).

(** A file of a batch is either refused by [_determine_file_type], and
    then no service is called and the world is left as it was, or it is
    handed to the one service of its type, whose result or exception is
    the outcome: the error "Unsupported file type" of the endpoint is never
    raised by the endpoint itself. *)
Theorem analyze_file_dispatch (file : UploadFile) (w : World) :
  (exists str_e,
     _determine_file_type file = Py.Raised str_e
     /\ analyze_file file w = (Py.Raised str_e, w))
  \/ (exists file_type service,
        _determine_file_type file = Py.Returned file_type
        /\ In (file_type, service)
              [ ("image"%string, analyze_image);
                ("video"%string, analyze_video);
                ("audio"%string, transcribe_audio) ]
        /\ analyze_file file w
           = (match fst (service file w) with
              | Py.Returned result => Py.Returned (file_type, result)
              | Py.Raised str_e => Py.Raised str_e
              end, snd (service file w))).
Proof.
  unfold Batch.analyze_file.
  destruct (_determine_file_type file) as [file_type|str_e] eqn:Htype.
  - right. apply determine_file_type_range in Htype.
    simpl in Htype.
    destruct Htype as [<- | [<- | [<- | []]]]; simpl;
      [exists "image"%string, analyze_image
      |exists "video"%string, analyze_video
      |exists "audio"%string, transcribe_audio];
      (split; [reflexivity|]); (split; [simpl; auto|]);
      match goal with
      | |- context [?service file w] =>
          destruct (service file w) as [[result|e] w1]; reflexivity
      end.
  - left. eauto.
Qed.

End FileType.

(** ** The mock video analysis *)

Section MockVideo.

Import FallbackService.

Variable exists_ : string -> bool.
Variable basename : string -> string.
Variable getsize : string -> Z.
Variable str_of_float : float -> string.

Abbreviation analyze_video :=
  (analyze_video exists_ basename getsize str_of_float).

Lemma range2_map_succ (n : Z) (f : Z -> FrameAnalysis) :
  (forall i, frame_number (f i) = i + 1) ->
  map frame_number (map f (Py.range n)) = Py.range2 1 (n + 1).
Proof.
  intros Hf. unfold Py.range, Py.range2. rewrite !map_map.
  replace (n + 1 - 1) with (n - 0) by lia.
  apply map_ext. intros k. rewrite Hf. lia.
Qed.

(** The mock analysis answers every URL and every existing file, and
    refuses a missing local file.  It returns [min(num_frames, 5)] frame
    entries, numbered from 1, while reporting [num_frames] analysed frames
    out of [30 * num_frames]: the reported count is the number of entries
    exactly when [0 <= num_frames <= 5]. *)
Theorem mock_analyze_video_frames (video_path_or_url : string)
    (num_frames : Z) (start_time end_time : option float) :
  let result := analyze_video video_path_or_url num_frames start_time end_time in
  (is_url video_path_or_url = false -> exists_ video_path_or_url = false ->
     result = NotFound ("Video file not found: " +:+ video_path_or_url))
  /\ (is_url video_path_or_url = true \/ exists_ video_path_or_url = true ->
      exists mock_description frame_analyses video_info file_size filename,
        result = Mock mock_description frame_analyses video_info file_size
                   filename
        /\ Z.of_nat (length frame_analyses) = Z.max 0 (Z.min num_frames 5)
        /\ map frame_number frame_analyses
           = Py.range2 1 (Z.min num_frames 5 + 1)
        /\ analyzed_frames video_info = num_frames
        /\ total_frames video_info = num_frames * 30
        /\ (analyzed_frames video_info = Z.of_nat (length frame_analyses)
            <-> 0 <= num_frames <= 5)).
Proof.
  intros result. subst result. unfold FallbackService.analyze_video. split.
  - intros -> ->. reflexivity.
  - intros Hok.
    assert (negb (is_url video_path_or_url) && negb (exists_ video_path_or_url)
            = false) as ->.
    { destruct Hok as [-> | ->]; [reflexivity | apply andb_false_r]. }
    do 5 eexists. split; [reflexivity|].
    assert (Hlen : Z.of_nat
                     (length (map (mock_frame (timeframe_info str_of_float
                                                 start_time end_time))
                                (Py.range (Z.min num_frames 5))))
                   = Z.max 0 (Z.min num_frames 5)).
    { unfold Py.range. rewrite length_map, range2_length. lia. }
    split; [exact Hlen|]. split; [now apply range2_map_succ|].
    simpl. split; [reflexivity|]. split; [reflexivity|].
    rewrite Hlen. lia.
Qed.

End MockVideo.

Lemma mock_analyze_video_frames_witness :
  exists mock_description frame_analyses video_info file_size filename,
    demo_mock 20
    = FallbackService.Mock mock_description frame_analyses video_info file_size
        filename
    /\ Z.of_nat (length frame_analyses) = Z.max 0 (Z.min 20 5)
    /\ map FallbackService.frame_number frame_analyses
       = Py.range2 1 (Z.min 20 5 + 1)
    /\ FallbackService.analyzed_frames video_info = 20
    /\ FallbackService.total_frames video_info = 20 * 30
    /\ (FallbackService.analyzed_frames video_info
        = Z.of_nat (length frame_analyses)
        <-> 0 <= 20 <= 5).
Proof.
  apply (mock_analyze_video_frames demo_exists demo_basename demo_getsize
           demo_str_of_float "/data/clip.mp4" 20 None None).
  right. reflexivity.
Defined.

(** ** The duration estimate of the audio service *)

Lemma ltb_leb (x y : float) :
  PrimFloat.ltb x y = true -> PrimFloat.leb x y = true.
Proof.
  rewrite ltb_spec, leb_spec. unfold SFltb, SFleb.
  destruct (SFcompare (Prim2SF x) (Prim2SF y)) as [[]|];
    intros; try discriminate; reflexivity.
Qed.

(** The estimated duration is at least one second, and hence no NaN,
    whatever the size of the file and its name; it is thirty seconds when
    the size cannot be read. *)
Theorem estimate_audio_duration_at_least_one
    (getsize : string -> Py.Outcome Z) (audio_path : string) :
  PrimFloat.leb 1 (AudioService._estimate_audio_duration getsize audio_path)
  = true
  /\ PrimFloat.is_nan
       (AudioService._estimate_audio_duration getsize audio_path) = false
  /\ (forall str_e, getsize audio_path = Py.Raised str_e ->
        AudioService._estimate_audio_duration getsize audio_path = 30%float).
Proof.
  assert (Hle : PrimFloat.leb 1
                  (AudioService._estimate_audio_duration getsize audio_path)
                = true).
  { unfold AudioService._estimate_audio_duration.
    destruct (getsize audio_path) as [file_size|e]; [|reflexivity].
    unfold PyStr.max, Py.gt.
    match goal with
    | |- context [if PrimFloat.ltb 1 ?d then _ else _] =>
        destruct (PrimFloat.ltb 1 d) eqn:Hgt
    end; [now apply ltb_leb | reflexivity]. }
  split; [exact Hle|]. split.
  - unfold PrimFloat.is_nan. rewrite FloatAxioms.eqb_spec.
    rewrite leb_spec in Hle. unfold SFleb in Hle. unfold SFeqb.
    destruct (Prim2SF (AudioService._estimate_audio_duration getsize audio_path))
      as [s|s| |s m e]; simpl in *; try discriminate; try reflexivity.
    + now destruct s.
    + destruct s; rewrite Z.compare_refl, ?Pos.compare_cont_refl; reflexivity.
  - intros str_e He. unfold AudioService._estimate_audio_duration.
    now rewrite He.
Qed.

Lemma estimate_audio_duration_at_least_one_witness :
  AudioService._estimate_audio_duration
    (fun _ => Py.Raised "No such file or directory") "a.mp3"
  = 30%float.
Proof.
  exact (proj2 (proj2 (estimate_audio_duration_at_least_one
                         (fun _ => Py.Raised "No such file or directory")
                         "a.mp3"))
           "No such file or directory" eq_refl).
Defined.

(** ** The complete audio analysis *)

Section CompleteAudio.

Import LocalAudioAnalyzer AudioAnalysis.

Variable blank : string -> bool.
Variable count_words : string -> Z.

Abbreviation analyze_complete_audio := (analyze_complete_audio blank count_words).
Abbreviation summary_lines := (summary_lines blank count_words).

Lemma detect_audio_type_range (zcr_mean sc_std : float) :
  In (_detect_audio_type zcr_mean sc_std) ["speech"; "music"; "mixed"]%string.
Proof.
  unfold _detect_audio_type.
  destruct (_ && _); [simpl; auto|]. destruct (_ && _); simpl; auto.
Qed.

(** The complete analysis carries a music analysis exactly when the audio
    type is not "speech", that is, unless the zero-crossing mean is above
    0.1 and the spectral-centroid deviation below 1000.  Its summary has
    five lines, three more exactly when there is a music analysis, and two
    more exactly when Whisper returned a text that is not blank. *)
Theorem analyze_complete_audio_music (lib : LibraryOutputs) :
  let analysis := analyze_complete_audio lib in
  (music_analysis analysis = None <-> audio_type analysis = "speech"%string)
  /\ (music_analysis analysis = None
      <-> speech_condition (lo_zcr_mean lib) (lo_sc_std lib) = true)
  /\ summary analysis
     = Py.join (String "010" "")
         (summary_lines (audio_type analysis) (analysis_mood analysis)
            (features analysis) (music_analysis analysis)
            (transcription analysis))
  /\ length (summary_lines (audio_type analysis) (analysis_mood analysis)
               (features analysis) (music_analysis analysis)
               (transcription analysis))
     = (5 + match music_analysis analysis with Some _ => 3 | None => 0 end
          + (if has_speech_lines blank (lo_transcription lib) then 2 else 0))%nat.
Proof.
  intros analysis.
  destruct (detect_audio_type_decision (lo_zcr_mean lib) (lo_sc_std lib))
    as (Hspeech & _).
  pose proof (detect_audio_type_range (lo_zcr_mean lib) (lo_sc_std lib)) as Hr.
  subst analysis. unfold AudioAnalysis.analyze_complete_audio.
  cbn [music_analysis audio_type summary analysis_mood features transcription].
  rewrite <- Hspeech. clear Hspeech.
  generalize dependent (_detect_audio_type (lo_zcr_mean lib) (lo_sc_std lib)).
  intros ty Hr.
  assert (Hlines : forall music,
    length (summary_lines ty (_analyze_mood (lo_features lib))
              (lo_features lib) music (lo_transcription lib))
    = (5 + match music with Some _ => 3 | None => 0 end
         + (if has_speech_lines blank (lo_transcription lib) then 2 else 0))%nat).
  { intros music. unfold AudioAnalysis.summary_lines, has_speech_lines.
    rewrite !length_app.
    destruct music, (lo_transcription lib) as [t|];
      try destruct (blank (text t)); reflexivity. }
  split; [|split; [|split; [reflexivity | apply Hlines]]];
    simpl in Hr; destruct Hr as [<- | [<- | [<- | []]]]; simpl;
    split; congruence.
Qed.

End CompleteAudio.

(** ** The model manager *)

Section Manager.

Import ModelManager.

(** A loading attempt succeeds exactly when both loaders do, and whatever
    happened before, the manager is ready after an attempt exactly when
    that attempt succeeded.  A ready manager hands out both models, loaded;
    after a failed attempt the error names the models that failed. *)
Theorem load_all_models_ready (moondream_ok whisper_ok : bool) (s : State) :
  let success := fst (load_all_models moondream_ok whisper_ok s) in
  let s' := snd (load_all_models moondream_ok whisper_ok s) in
  success = moondream_ok && whisper_ok
  /\ is_ready s' = success
  /\ (is_ready s' = true ->
      get_moondream_model s' = Py.Returned true
      /\ get_whisper_model s' = Py.Returned true)
  /\ (success = false ->
      exists error, initialization_error s' = Some error
        /\ (moondream_ok = false <->
            Batch.startswith error "Failed to load Moondream model" = true)
        /\ (whisper_ok = false <->
            Batch.endswith error "Failed to load Whisper model" = true)).
Proof.
  destruct moondream_ok, whisper_ok, s as [ml wl l e]; simpl;
    repeat split; intros; try discriminate; try reflexivity;
    try (destruct l; reflexivity);
    try (destruct l; discriminate);
    try (eexists; repeat split; intros; try discriminate; reflexivity).
Qed.

Lemma models_loaded_after (attempts : list (bool * bool)) :
  forall s : State,
    models_loaded (load_repeatedly attempts s)
    = models_loaded s || existsb (fun a => a.1 && a.2) attempts.
Proof.
  unfold load_repeatedly.
  induction attempts as [|[m w] rest IH]; intros s; simpl.
  - now rewrite orb_false_r.
  - rewrite IH. simpl. destruct m, w, (models_loaded s); reflexivity.
Qed.

Lemma load_repeatedly_snoc (attempts : list (bool * bool)) (a : bool * bool)
    (s : State) :
  load_repeatedly (attempts ++ [a]) s
  = snd (load_all_models a.1 a.2 (load_repeatedly attempts s)).
Proof. unfold load_repeatedly. now rewrite fold_left_app. Qed.

(** Over any run of loading attempts from the initial state: the flag
    [models_loaded] is set as soon as one attempt succeeded and is never
    cleared, so [get_moondream_model] only raises while no attempt has
    succeeded; but the manager is ready exactly when the last attempt
    succeeded.  After a success followed by a failure the manager is
    therefore not ready and still hands out its models. *)
Theorem load_repeatedly_flags (attempts : list (bool * bool)) (last : bool * bool) :
  let s := load_repeatedly (attempts ++ [last]) init in
  models_loaded s = existsb (fun a => a.1 && a.2) (attempts ++ [last])
  /\ is_ready s = last.1 && last.2
  /\ ((exists str_e, get_moondream_model s = Py.Raised str_e)
      <-> existsb (fun a => a.1 && a.2) (attempts ++ [last]) = false)
  /\ (existsb (fun a => a.1 && a.2) attempts = true ->
      last.1 && last.2 = false ->
      is_ready s = false
      /\ get_moondream_model s = Py.Returned last.1
      /\ get_whisper_model s = Py.Returned last.2).
Proof.
  intros s.
  assert (Hflag : models_loaded s
                  = existsb (fun a => a.1 && a.2) (attempts ++ [last])).
  { unfold s. now rewrite models_loaded_after. }
  assert (Hready : is_ready s = last.1 && last.2).
  { unfold s. rewrite load_repeatedly_snoc.
    apply (load_all_models_ready last.1 last.2). }
  split; [exact Hflag|]. split; [exact Hready|]. split.
  - unfold get_moondream_model. rewrite Hflag.
    destruct (existsb _ (attempts ++ [last])); simpl; split;
      try discriminate; eauto.
    intros [e He]. discriminate.
  - intros Hsome Hlast. split; [now rewrite Hready|].
    unfold get_moondream_model, get_whisper_model. rewrite Hflag.
    rewrite existsb_app, Hsome. simpl.
    unfold s. rewrite load_repeatedly_snoc.
    destruct last as [m w]. simpl. split; reflexivity.
Qed.

Lemma load_repeatedly_flags_witness :
  let s := load_repeatedly ([(true, true)] ++ [(false, true)]) init in
  is_ready s = false
  /\ get_moondream_model s = Py.Returned false
  /\ get_whisper_model s = Py.Returned true.
Proof.
  apply (load_repeatedly_flags [(true, true)] (false, true)); reflexivity.
Defined.

(** The health check reports "unhealthy" exactly when the manager is not
    ready, and exactly then it lists no endpoint; a ready manager is
    "degraded" exactly when more than 90 percent of the memory is in use,
    and "healthy" otherwise. *)
Theorem health_check_status (memory_percent : float) (s : State) :
  let status := fst (health_check memory_percent s) in
  let available := snd (health_check memory_percent s) in
  In status ["healthy"; "degraded"; "unhealthy"]%string
  /\ (status = "unhealthy"%string <-> is_ready s = false)
  /\ (available = [] <-> is_ready s = false)
  /\ (is_ready s = true -> available = endpoints)
  /\ (status = "degraded"%string
      <-> is_ready s = true /\ Py.gt memory_percent 90 = true).
Proof.
  unfold health_check. simpl.
  destruct (is_ready s), (Py.gt memory_percent 90); simpl;
    repeat split; intros; try discriminate; try reflexivity; auto;
    try (match goal with H : _ /\ _ |- _ => destruct H; discriminate end).
Qed.

End Manager.

(** ** Examples of the further properties *)

Lemma analyze_video_reports_every_read_frame_witness :
  VideoService.summary
    (fst (VideoService.analyze_video demo_unreadable
            (demo_analyze_video_frame 0) demo_video_info 2 None "uniform" tt))
  = "No frames were successfully analyzed."%string.
Proof.
  pose proof (analyze_video_reports_every_read_frame demo_unreadable
                (demo_analyze_video_frame 0) demo_video_info 2 None
                "uniform" tt) as H.
  cbv zeta in H. apply H. reflexivity.
Defined.

Lemma analyze_complete_audio_music_witness :
  AudioAnalysis.audio_type demo_audio_analysis = "music"%string
  /\ length
       (AudioAnalysis.summary_lines demo_blank demo_count_words
          (AudioAnalysis.audio_type demo_audio_analysis)
          (AudioAnalysis.analysis_mood demo_audio_analysis)
          (AudioAnalysis.features demo_audio_analysis)
          (AudioAnalysis.music_analysis demo_audio_analysis)
          (AudioAnalysis.transcription demo_audio_analysis))
     = 10%nat.
Proof.
  split; [reflexivity|].
  exact (proj2 (proj2 (proj2 (analyze_complete_audio_music demo_blank
                                demo_count_words demo_library_outputs)))).
Defined.

(** ** Exceptions in the frame loop of the enhanced pipeline *)

Section FrameLoopExceptions.

Import MultimodalAnalysisService.

Context {World Frame : Type}.
Variable cap_read : Z -> World -> option Frame * World.

(** With calls that do not raise, the loop that may raise is the loop of
    [MultimodalAnalysisService]. *)
Lemma raising_frames_loop_returning
    (analyze_image : Frame -> string -> World -> ImageResult * World)
    (fps : float) (indices : list Z) :
  forall (frame_analyses : list FrameAnalysis) (w : World),
    Raising.frames_loop cap_read (Raising.returning analyze_image)
      fps indices frame_analyses w
    = (Py.Returned
         (fst (frames_loop cap_read analyze_image fps indices frame_analyses w)),
       snd (frames_loop cap_read analyze_image fps indices frame_analyses w)).
Proof.
  induction indices as [|frame_idx rest IH]; intros frame_analyses w.
  - reflexivity.
  - cbn [Raising.frames_loop frames_loop].
    unfold Raising.analyze_frame, analyze_frame, Raising.returning.
    destruct (cap_read frame_idx w) as [[frame|] w1]; [|apply IH].
    destruct (analyze_image frame _ w1) as [result w2]. cbn [fst snd].
    destruct (success result); apply IH.
Qed.

Lemma raising_analyze_video_frames_returning
    (analyze_image : Frame -> string -> World -> ImageResult * World)
    (analyze_text : string -> World -> TextResult * World)
    (is_opened : bool) (props : VideoProps) (num_frames : Z)
    (start_time end_time : option float) (w : World) :
  Raising._analyze_video_frames cap_read (Raising.returning analyze_image)
    (Raising.returning1 analyze_text)
    is_opened props num_frames start_time end_time w
  = _analyze_video_frames cap_read analyze_image analyze_text
      is_opened props num_frames start_time end_time w.
Proof.
  unfold Raising._analyze_video_frames, _analyze_video_frames.
  destruct (negb is_opened); [reflexivity|].
  destruct (timeframe _ _ _ _) as [[[start_frame end_frame] tf]|e];
    [|reflexivity].
  cbv zeta. rewrite raising_frames_loop_returning.
  destruct (frames_loop cap_read analyze_image (fps props) _ [] w)
    as [frame_analyses w1]. cbn [fst snd].
  unfold Raising.overall_summary_of, overall_summary_of, Raising.returning1.
  destruct frame_analyses as [|entry rest]; [reflexivity|].
  destruct (analyze_text _ w1) as [summary_result w2]. reflexivity.
Qed.

Variable analyze_image
  : Frame -> string -> World -> Py.Outcome ImageResult * World.
Variable analyze_text : string -> World -> Py.Outcome TextResult * World.

Abbreviation raising_frames_loop :=
  (Raising.frames_loop cap_read analyze_image).
Abbreviation raising_analyze_video_frames :=
  (Raising._analyze_video_frames cap_read analyze_image analyze_text).

Lemma raising_frames_loop_app (fps : float) (indices1 indices2 : list Z) :
  forall (frame_analyses : list FrameAnalysis) (w : World),
    raising_frames_loop fps (indices1 ++ indices2) frame_analyses w
    = match fst (raising_frames_loop fps indices1 frame_analyses w) with
      | Py.Returned entries =>
          raising_frames_loop fps indices2 entries
            (snd (raising_frames_loop fps indices1 frame_analyses w))
      | Py.Raised str_e =>
          (Py.Raised str_e,
           snd (raising_frames_loop fps indices1 frame_analyses w))
      end.
Proof.
  induction indices1 as [|frame_idx rest IH]; intros frame_analyses w.
  - reflexivity.
  - cbn [app Raising.frames_loop].
    destruct (Raising.analyze_frame cap_read analyze_image fps frame_idx w)
      as [[entry|str_e] w1]; [apply IH | reflexivity].
Qed.

(** When a call of an iteration raises, the loop of the enhanced pipeline
    ends there: the exception leaves [_analyze_video_frames], no frame
    after the failing one is read or analysed (the world is as the failing
    call left it, whatever indices follow), and neither a failure record
    nor the entries of the frames before it are returned. *)
Theorem analyze_video_frames_exception_aborts
    (props : VideoProps) (num_frames : Z) (start_time end_time : option float)
    (w : World) (start_frame end_frame tf : Z)
    (before after : list Z) (frame_idx : Z) (entries : list FrameAnalysis)
    (frame : Frame) (str_e : string) :
  let w1 := snd (raising_frames_loop (fps props) before [] w) in
  let w2 := snd (cap_read frame_idx w1) in
  let call :=
    analyze_image frame
      (frame_prompt (timestamp_of (fps props) frame_idx)) w2 in
  timeframe (total_frames props) (fps props) start_time end_time
    = Py.Returned (start_frame, end_frame, tf) ->
  frame_indices start_frame end_frame tf num_frames
    = before ++ frame_idx :: after ->
  fst (raising_frames_loop (fps props) before [] w) = Py.Returned entries ->
  fst (cap_read frame_idx w1) = Some frame ->
  fst call = Py.Raised str_e ->
  raising_frames_loop (fps props) (before ++ frame_idx :: after) [] w
    = (Py.Raised str_e, snd call)
  /\ raising_analyze_video_frames true props num_frames start_time end_time w
     = (Py.Raised str_e, snd call).
Proof.
  intros w1 w2 call Htf Hindices Hbefore Hread Hraise.
  assert (Hloop : raising_frames_loop (fps props)
                    (before ++ frame_idx :: after) [] w
                  = (Py.Raised str_e, snd call)).
  { rewrite raising_frames_loop_app, Hbefore. fold w1.
    cbn [Raising.frames_loop]. unfold Raising.analyze_frame.
    destruct (cap_read frame_idx w1) as [ret_frame w2'] eqn:Hcap.
    cbn [fst] in Hread. subst ret_frame.
    subst w2. cbn [snd] in call. subst call.
    destruct (analyze_image frame _ w2') as [outcome w3].
    cbn [fst] in Hraise. subst outcome. reflexivity. }
  split; [exact Hloop|].
  unfold Raising._analyze_video_frames. cbn [negb]. rewrite Htf. cbv zeta.
  rewrite Hindices, Hloop. reflexivity.
Qed.

End FrameLoopExceptions.

Lemma analyze_video_frames_exception_aborts_witness :
  MultimodalAnalysisService.Raising.frames_loop demo_decode
    demo_analyze_image_raising 30 ([0; 60] ++ 120 :: [180; 240]) [] []
  = (Py.Raised "[Errno 28] No space left on device", [0; 120])
  /\ MultimodalAnalysisService.Raising._analyze_video_frames demo_decode
       demo_analyze_image_raising demo_returning_text
       true demo_props 5 None None []
     = (Py.Raised "[Errno 28] No space left on device", [0; 120]).
Proof.
  apply (analyze_video_frames_exception_aborts demo_decode
           demo_analyze_image_raising demo_returning_text
           demo_props 5 None None [] 0 300 300 [0; 60] [180; 240] 120
           [demo_entry 0 0] 120 "[Errno 28] No space left on device");
    reflexivity.
Defined.

(** C4.  The frame loop of the enhanced pipeline does not isolate a
    failure that is an exception.  On a video of 300 frames, sampled at
    the frames 0, 60, 120, 180 and 240, with a disk that is full when
    frame 120 is written: the exception leaves [_analyze_video_frames],
    the frames 180 and 240 are never analysed, and the entry of frame 0 is
    lost with the rest; whereas the same analyzer, reporting the failure
    in its result instead of raising, lets the loop go on to the frames
    180 and 240. *)
Theorem analyze_video_frames_aborts_on_exception :
  MultimodalAnalysisService.Raising._analyze_video_frames demo_decode
    demo_analyze_image_raising demo_returning_text
    true demo_props 5 None None []
  = (Py.Raised "[Errno 28] No space left on device", [0; 120])
  /\ MultimodalAnalysisService.Raising._analyze_video_frames demo_decode
       (MultimodalAnalysisService.Raising.returning demo_analyze_image)
       demo_returning_text true demo_props 5 None None []
     = (Py.Returned
          (MultimodalAnalysisService.Analyzed true "a summary"
             [demo_entry 0 0; demo_entry 180 6; demo_entry 240 8] 3),
        [0; 120; 180; 240]).
Proof. split; vm_compute; reflexivity. Qed.
